(** * OWASP Dependency Scanner: a shallow embedding of the frontend logic and
    of the Windows build / setup scripts, with the properties checked on it.

    Part I embeds the code, one module per source file:
    - [Js]               the JavaScript primitives the components rely on
    - [FileUpload]       frontend/src/components/FileUpload.jsx
    - [Api]              frontend/src/services/api.js, and the route guard of
                         frontend/src/App.jsx
    - [Rows]             the JSON rows the components read
    - [ScanResults]      frontend/src/components/ScanResults.jsx
    - [ResultsPage]      frontend/src/pages/ResultsPage.jsx
    - [ScanLog]          frontend/src/components/ScanLog.jsx
    - [DashboardPage]    frontend/src/pages/DashboardPage.jsx
    - [Backend]          what the frontend relies on in the REST backend; the
                         backend's sources are not in the tree, these
                         definitions follow the specification
    - [PowerShell]       a writer/exit monad for PowerShell scripts
    - [SetupWindows]     setup-windows.ps1, steps 4 and 5
    - [BuildMsi]         build-msi.ps1 (the variant that bundles the JRE and
                         OWASP Dependency Check)
    - [Json], [IntegrationsPage], [Webhook]
                         the webhook payloads the sources document, and the
                         receiver as the specification describes it
    - [ScanResultsUI]    ScanResults.jsx: selection, AI analysis, summary
    - [ResultsPageView]  ResultsPage.jsx: what the page renders
    - [ScanLogView]      ScanLog.jsx: the log, its lines and their colours
    - [FileUploadUI]     FileUpload.jsx: the events of the form
    - [Session]          frontend/src/pages/LoginPage.jsx and the logout of
                         frontend/src/components/Navbar.jsx
    - [CicdIntegration]  frontend/src/components/CicdIntegration.jsx
    - [SetupScript]      setup-windows.ps1, the whole script
    - [SetupBat]         setup-windows.bat
    - [HeatXml]          build-msi.ps1: the id rewriting of [Heat]
    - [BuildMsiEvents]   build-msi.ps1: the command lines of the packaging
                         steps
    - [Samples], [MoreSamples]
                         concrete inputs

    Part II states and proves the properties.

    Where the sources are kept (line numbers in the comments below are
    those of these files):
    - FileUpload.jsx, CicdIntegration.jsx, App.jsx, IntegrationsPage.jsx,
      LoginPage.jsx, DashboardPage.jsx: under src/frontend/src; ScanLog.jsx
      follows DashboardPage.jsx in the same file (from line 192)
    - setup-windows.bat: src/setup-windows.bat, lines 1-26
    - api.js: src/setup-windows.bat, from line 200 (after the README)
    - build-msi.ps1: src/unnamed/part_000
    - setup-windows.ps1: src/unnamed/part_001
    - ResultsPage.jsx: src/unnamed/part_002
    - Navbar.jsx: src/unnamed/part_003
    - ScanResults.jsx: src/unnamed/part_004 *)

From Stdlib Require Import String Ascii List ZArith Bool Lia Sorted
  Permutation.
From stdpp Require Import gmap strings list.
Import ListNotations.
Open Scope string_scope.
Open Scope list_scope.
Set Warnings "-register-all".

(* ====================================================================== *)
(** * Part I: the embedding                                                *)
(* ====================================================================== *)

(** ** JavaScript primitives *)
Module Js.

(** A JSON field that is a boolean when present: [null], [undefined] or a
    boolean (the shape of [ai_is_false_positive]). *)
Inductive OptBool : Type :=
| null
| undefined
| boolean (b : bool).

(** JavaScript truthiness ([!v] is its negation). *)
Definition truthy (v : OptBool) : bool :=
  match v with
  | boolean true => true
  | _ => false
  end.

(** [v !== false]: strict inequality with the boolean [false]. *)
Definition strict_neq_false (v : OptBool) : bool :=
  match v with
  | boolean false => false
  | _ => true
  end.

(** Truthiness of a string-or-null value: [null] and the empty string are
    falsy. *)
Definition truthy_str (v : option string) : bool :=
  match v with
  | None => false
  | Some s => negb (String.eqb s "")
  end.

(** [a || b] on a string-or-null left operand. *)
Definition or_else (v : option string) (dflt : string) : string :=
  match v with
  | Some s => if String.eqb s "" then dflt else s
  | None => dflt
  end.

(** [String.prototype.split] with a one-character separator: the pieces
    between the separators, always at least one piece. *)
Fixpoint split (sep : ascii) (s : string) : list string :=
  match s with
  | EmptyString => [EmptyString]
  | String c rest =>
      if Ascii.eqb c sep then EmptyString :: split sep rest
      else match split sep rest with
           | piece :: pieces => String c piece :: pieces
           | [] => [String c EmptyString]
           end
  end.

(** [Array.prototype.pop]: the last element, [undefined] on an empty array. *)
Definition pop (a : list string) : option string := last a.

(** [toLowerCase] on one character.  Strings are modelled as 8-bit
    strings and only [A]..[Z] change: this is [String.prototype.toLowerCase]
    on strings of ASCII characters; JavaScript also maps letters outside
    ASCII (U+212A to [k], for one). *)
Definition lower_ascii (c : ascii) : ascii :=
  let n := nat_of_ascii c in
  if Nat.leb 65 n && Nat.leb n 90 then ascii_of_nat (n + 32) else c.

Fixpoint toLowerCase (s : string) : string :=
  match s with
  | EmptyString => EmptyString
  | String c rest => String (lower_ascii c) (toLowerCase rest)
  end.

(** [Array.prototype.includes] on an array of strings. *)
Definition includes (a : list string) (x : string) : bool :=
  existsb (String.eqb x) a.

(** [Array.prototype.join]. *)
Definition join (sep : string) (a : list string) : string :=
  String.concat sep a.

(** [Array.prototype.indexOf], [-1] when absent. *)
Fixpoint indexOf_from (i : Z) (a : list string) (x : string) : Z :=
  match a with
  | [] => (-1)%Z
  | y :: rest => if String.eqb y x then i else indexOf_from (i + 1)%Z rest x
  end.

Definition indexOf (a : list string) (x : string) : Z := indexOf_from 0%Z a x.

End Js.

(** ** frontend/src/components/FileUpload.jsx *)
Module FileUpload.

Definition SUPPORTED : list string :=
  [".jar"; ".war"; ".ear"; ".zip"; ".sar"; ".apk"; ".nupkg"; ".egg";
   ".wheel"; ".tar"; ".gz"; ".tgz"].

(** The browser's [File] object, as far as the component reads it. *)
Record File : Type := mkFile { name : string; size : N }.

(** The component's [useState] cells. *)
Record State : Type := mkState {
  file : option File;
  dragging : bool;
  uploading : bool;
  error : string
}.

Definition initial : State :=
  {| file := None; dragging := false; uploading := false; error := "" |}.

Definition setError (e : string) (st : State) : State :=
  {| file := file st; dragging := dragging st; uploading := uploading st;
     error := e |}.

Definition setFile (f : option File) (st : State) : State :=
  {| file := f; dragging := dragging st; uploading := uploading st;
     error := error st |}.

Definition setDragging (d : bool) (st : State) : State :=
  {| file := file st; dragging := d; uploading := uploading st;
     error := error st |}.

(** ['.' + f.name.split('.').pop().toLowerCase()].  [split] never returns an
    empty array, so [pop] is never [undefined]; the [None] branch stands for
    the TypeError the call on [undefined] would raise. *)
Definition ext_of (f : File) : option string :=
  match Js.pop (Js.split "." (name f)) with
  | Some piece => Some ("." +:+ Js.toLowerCase piece)
  | None => None
  end.

Definition unsupported_message : string :=
  "Unsupported file type. Supported: " +:+ Js.join ", " SUPPORTED.

(** [validateAndSet]: lines 22-30. *)
Definition validateAndSet (f : File) (st : State) : State :=
  match ext_of f with
  | Some ext =>
      if negb (Js.includes SUPPORTED ext) then setError unsupported_message st
      else setFile (Some f) (setError "" st)
  | None => st
  end.

(** [handleDrop]: lines 15-20 ([dropped] is [e.dataTransfer.files[0]]). *)
Definition handleDrop (dropped : option File) (st : State) : State :=
  let st := setDragging false st in
  match dropped with
  | Some f => validateAndSet f st
  | None => st
  end.

(** The [onChange] handler of the hidden file input: line 65. *)
Definition onChange (picked : option File) (st : State) : State :=
  match picked with
  | Some f => validateAndSet f st
  | None => st
  end.

(** What the server answered to [scansAPI.upload]. *)
Inductive UploadReply : Type :=
| Created (scan_id : Z)
| Rejected (detail : option string).

(** The effects of one click on "Start OWASP Scan". *)
Inductive Effect : Type :=
| PostUpload (f : File)
| Navigate (path_scan_id : Z).

(** [handleUpload]: lines 32-44.  [reply] is the server's answer to the one
    request the handler sends. *)
Definition handleUpload (reply : UploadReply) (st : State)
  : State * list Effect :=
  match file st with
  | None => (st, [])
  | Some f =>
      let st1 := setError "" st in
      match reply with
      | Created scan_id => (st1, [PostUpload f; Navigate scan_id])
      | Rejected detail =>
          (setError (Js.or_else detail "Upload failed. Please try again.") st1,
           [PostUpload f])
      end
  end.

(** The reading of "the filename's extension" the file picker's [accept]
    list and the error message use: the file name ends, case-insensitively,
    in one of the supported extensions. *)
Fixpoint ends_with (s suffix : string) : bool :=
  String.eqb s suffix
  || match s with
     | EmptyString => false
     | String _ rest => ends_with rest suffix
     end.

Definition has_supported_extension (filename : string) : bool :=
  existsb (ends_with (Js.toLowerCase filename)) SUPPORTED.

Fixpoint contains_dot (s : string) : bool :=
  match s with
  | EmptyString => false
  | String c rest => Ascii.eqb c "." || contains_dot rest
  end.

End FileUpload.

(** ** frontend/src/services/api.js and the route guard of App.jsx

    Paths are relative to the instance's [baseURL]. *)
Module Api.

Inductive Method : Type := GET | POST | PATCH | DELETE.

(** One constructor per function exported by api.js ([authAPI], [scansAPI],
    [integrationsAPI]); all of them go through the one axios instance. *)
Inductive Call : Type :=
| auth_login
| auth_register
| auth_profile
| auth_logout
| scans_upload
| scans_list
| scans_get (id : Z)
| scans_delete (id : Z)
| scans_analyze (scanId : Z) (vulnerabilityIds : list Z)
| scans_suppress (scanId vulnId : Z)
| scans_downloadReport (scanId : Z)
| scans_exportCSV (scanId : Z)
| scans_getLog (scanId : Z)
| integrations_list
| integrations_create
| integrations_delete (id : Z)
| integrations_trigger (id : Z)
| integrations_listResources (id : Z).

Definition method (c : Call) : Method :=
  match c with
  | auth_login | auth_register | auth_logout | scans_upload
  | scans_analyze _ _ | integrations_create | integrations_trigger _
  | integrations_listResources _ => POST
  | auth_profile | scans_list | scans_get _ | scans_downloadReport _
  | scans_exportCSV _ | scans_getLog _ | integrations_list => GET
  | scans_delete _ | integrations_delete _ => DELETE
  | scans_suppress _ _ => PATCH
  end.

(** A path segment of the request URL: literal text or an interpolated id. *)
Inductive Segment : Type := Lit (s : string) | Id (n : Z).

Definition path (c : Call) : list Segment :=
  match c with
  | auth_login => [Lit "auth"; Lit "login"]
  | auth_register => [Lit "auth"; Lit "register"]
  | auth_profile => [Lit "auth"; Lit "profile"]
  | auth_logout => [Lit "auth"; Lit "logout"]
  | scans_upload => [Lit "scans"; Lit "upload"]
  | scans_list => [Lit "scans"]
  | scans_get id => [Lit "scans"; Id id]
  | scans_delete id => [Lit "scans"; Id id]
  | scans_analyze scanId _ => [Lit "scans"; Id scanId; Lit "analyze"]
  | scans_suppress scanId vulnId =>
      [Lit "scans"; Id scanId; Lit "vulnerabilities"; Id vulnId; Lit "suppress"]
  | scans_downloadReport scanId => [Lit "scans"; Id scanId; Lit "report"]
  | scans_exportCSV scanId => [Lit "scans"; Id scanId; Lit "export"; Lit "csv"]
  | scans_getLog scanId => [Lit "scans"; Id scanId; Lit "log"]
  | integrations_list => [Lit "integrations"]
  | integrations_create => [Lit "integrations"]
  | integrations_delete id => [Lit "integrations"; Id id]
  | integrations_trigger id => [Lit "integrations"; Id id; Lit "trigger"]
  | integrations_listResources id =>
      [Lit "integrations"; Id id; Lit "list-resources"]
  end.

(** Whether the call passes a request body to axios ([suppress] passes none:
    the request carries no desired value for the flag). *)
Definition has_body (c : Call) : bool :=
  match c with
  | auth_login | auth_register | scans_upload | scans_analyze _ _
  | integrations_create | integrations_trigger _ => true
  | _ => false
  end.

(** An HTTP response as the interceptor reads it. *)
Record Response : Type := mkResponse { status : Z; detail : option string }.

(** What came back from the network: a response, or none at all. *)
Inductive Reply : Type :=
| GotResponse (r : Response)
| NetworkError.

(** How the promise returned by the call settles; a rejection carries
    [err.response]. *)
Inductive Settled : Type :=
| Fulfilled (res : Response)
| RejectedWith (err_response : option Response).

(** The part of the browser the client code reads and writes. *)
Record Browser : Type := mkBrowser {
  localStorage : gmap string string;
  location_href : string
}.

(** axios' default [validateStatus]. *)
Definition validateStatus (s : Z) : bool := Z.leb 200 s && Z.ltb s 300.

(** The response interceptor's error handler: lines 213-219. *)
Definition onRejected (err_response : option Response) (b : Browser)
  : Browser :=
  match err_response with
  | Some r =>
      if Z.eqb (status r) 401
      then {| localStorage := delete "user" (localStorage b);
              location_href := "/login" |}
      else b
  | None => b
  end.

(** One request through the axios instance: the fulfilment handler is the
    identity, the error handler runs [onRejected] and rejects again. *)
Definition request (c : Call) (reply : Reply) (b : Browser)
  : Browser * Settled :=
  match reply with
  | GotResponse r =>
      if validateStatus (status r) then (b, Fulfilled r)
      else (onRejected (Some r) b, RejectedWith (Some r))
  | NetworkError => (onRejected None b, RejectedWith None)
  end.

(** App.jsx: the routes and [ProtectedRoute]. *)
Inductive Route : Type :=
| route_login
| route_dashboard
| route_scan
| route_results (scanId : Z)
| route_integrations.

Inductive Page : Type :=
| LoginPage
| DashboardPage
| ScanPage
| ResultsPage (scanId : Z)
| IntegrationsPage
| NavigateTo (to : string).

Definition ProtectedRoute (b : Browser) (children : Page) : Page :=
  if Js.truthy_str (localStorage b !! "user") then children
  else NavigateTo "/login".

Definition render (r : Route) (b : Browser) : Page :=
  match r with
  | route_login => LoginPage
  | route_dashboard => ProtectedRoute b DashboardPage
  | route_scan => ProtectedRoute b ScanPage
  | route_results scanId => ProtectedRoute b (ResultsPage scanId)
  | route_integrations => ProtectedRoute b IntegrationsPage
  end.

End Api.

(** ** The JSON rows the backend returns, as the components read them *)
Module Rows.

Record Vulnerability : Type := mkVulnerability {
  id : Z;
  severity : string;
  is_suppressed : bool;
  ai_is_false_positive : Js.OptBool
}.

Record Scan : Type := mkScan {
  scan_id : Z;
  status : string;
  error_message : option string;
  total_vulnerabilities : Z;
  vulnerabilities : option (list Vulnerability)
}.

End Rows.

(** ** frontend/src/components/ScanResults.jsx *)
Module ScanResults.
Import Rows.

Definition SEVERITY_ORDER : list string :=
  ["CRITICAL"; "HIGH"; "MEDIUM"; "LOW"; "UNKNOWN"; "INFO"].

(** The [useState] cells that drive the list. *)
Record State : Type := mkState {
  selectedIds : list Z;
  filterSeverity : string;
  filterFP : string;
  showSuppressed : bool
}.

Definition initial : State :=
  {| selectedIds := []; filterSeverity := "ALL"; filterFP := "ALL";
     showSuppressed := false |}.

(** [scan.vulnerabilities || []]. *)
Definition vulns (scan : Scan) : list Vulnerability :=
  match vulnerabilities scan with
  | Some vs => vs
  | None => []
  end.

(** The predicate handed to [vulns.filter]: lines 18-24. *)
Definition keeps (st : State) (v : Vulnerability) : bool :=
  if negb (showSuppressed st) && is_suppressed v then false
  else if negb (String.eqb (filterSeverity st) "ALL")
          && negb (String.eqb (severity v) (filterSeverity st)) then false
  else if String.eqb (filterFP st) "FP"
          && negb (Js.truthy (ai_is_false_positive v)) then false
  else if String.eqb (filterFP st) "REAL"
          && Js.strict_neq_false (ai_is_false_positive v) then false
  else true.

Definition filtered (st : State) (scan : Scan) : list Vulnerability :=
  List.filter (keeps st) (vulns scan).

(** [[...filtered].sort(cmp)]: a stable sort on the severity's index in
    [SEVERITY_ORDER]. *)
Definition rank (v : Vulnerability) : Z :=
  Js.indexOf SEVERITY_ORDER (severity v).

Fixpoint insert_sorted (v : Vulnerability) (l : list Vulnerability)
  : list Vulnerability :=
  match l with
  | [] => [v]
  | x :: rest =>
      if Z.leb (rank v) (rank x) then v :: x :: rest
      else x :: insert_sorted v rest
  end.

Definition sort_by_severity (l : list Vulnerability) : list Vulnerability :=
  fold_right insert_sorted [] l.

Definition sorted (st : State) (scan : Scan) : list Vulnerability :=
  sort_by_severity (filtered st scan).

Definition setFilterFP (f : string) (st : State) : State :=
  {| selectedIds := selectedIds st; filterSeverity := filterSeverity st;
     filterFP := f; showSuppressed := showSuppressed st |}.

(** The never-analyzed vulnerabilities: [ai_is_false_positive] is [null] or
    [undefined] (the complement of line 70's [analyzedCount] test). *)
Definition unanalyzed (v : Vulnerability) : bool :=
  match ai_is_false_positive v with
  | Js.null | Js.undefined => true
  | Js.boolean _ => false
  end.

(** What one click on a card's suppress button does. *)
Inductive Effect : Type :=
| Send (c : Api.Call)
| Refresh.

(** [handleSuppress]: lines 55-58 ([scan_id scan] is the source's
    [scan.id]).  [reply] is what came back for the PATCH, which goes through
    the axios instance, interceptor included; the awaited promise is not
    guarded, so [onRefresh] runs only when it is fulfilled. *)
Definition handleSuppress (reply : Api.Reply) (scan : Scan) (vulnId : Z)
    (b : Api.Browser) : Api.Browser * list Effect :=
  let c := Api.scans_suppress (scan_id scan) vulnId in
  match Api.request c reply b with
  | (b1, Api.Fulfilled _) => (b1, [Send c; Refresh])
  | (b1, Api.RejectedWith _) => (b1, [Send c])
  end.

End ScanResults.

(** ** frontend/src/pages/ResultsPage.jsx *)
Module ResultsPage.
Import Rows.

(** What indexing an object literal gives: one of its own entries (here
    its [label]), a value inherited from [Object.prototype], or
    [undefined]. *)
Inductive Property : Type :=
| entry (label : string)
| inherited
| no_property.

(** The property names every object literal inherits from
    [Object.prototype]; the values are functions ([__proto__]: the prototype
    object), all truthy and without a [label]. *)
Definition Object_prototype : list string :=
  ["constructor"; "__defineGetter__"; "__defineSetter__"; "hasOwnProperty";
   "__lookupGetter__"; "__lookupSetter__"; "isPrototypeOf";
   "propertyIsEnumerable"; "toString"; "valueOf"; "__proto__";
   "toLocaleString"].

(** [STATUS_MAP[key]]: lines 8-13. *)
Definition STATUS_MAP (key : string) : Property :=
  if String.eqb key "pending" then entry "Queued"
  else if String.eqb key "running" then entry "Scanning..."
  else if String.eqb key "completed" then entry "Completed"
  else if String.eqb key "failed" then entry "Failed"
  else if Js.includes Object_prototype key then inherited
  else no_property.

Record State : Type := mkState {
  scan : option Scan;
  loading : bool;
  error : string
}.

Definition initial : State :=
  {| scan := None; loading := true; error := "" |}.

(** [fetchScan]: lines 21-31.  [data] is the body of a successful
    [scansAPI.get(scanId)], [None] when the promise rejected. *)
Definition fetchScan (data : option Scan) (st : State) : State :=
  match data with
  | Some d => {| scan := Some d; loading := false; error := "" |}
  | None => {| scan := scan st; loading := false;
               error := "Scan not found or access denied" |}
  end.

(** The polling effect: lines 37-42.  [Some ms] when the effect installs
    [setInterval(fetchScan, ms)], [None] when it returns early (any interval
    of the previous render was cleared by the effect's cleanup). *)
Definition poll_interval (st : State) : option Z :=
  match scan st with
  | None => None
  | Some s =>
      if String.eqb (status s) "completed" || String.eqb (status s) "failed"
      then None
      else Some 4000%Z
  end.

(** [statusInfo.label] for
    [statusInfo = STATUS_MAP[scan.status] || STATUS_MAP.pending]: lines 64
    and 79.  [None] is the [undefined] that [label] is on an inherited
    value (the header then shows no label). *)
Definition statusInfo (s : Scan) : option string :=
  match STATUS_MAP (status s) with
  | entry label => Some label
  | inherited => None
  | no_property =>
      match STATUS_MAP "pending" with
      | entry label => Some label
      | _ => None
      end
  end.

(** The "Failed state" card: lines 106-118.  [Some text] is the failure
    reason the card prints, [None] when the card is not rendered. *)
Definition failure_reason (s : Scan) : option string :=
  if String.eqb (status s) "failed"
  then Some (Js.or_else (error_message s) "An unknown error occurred")
  else None.

(** Whether [<ScanLog>] is mounted: line 121. *)
Definition shows_log (s : Scan) : bool :=
  negb (String.eqb (status s) "pending").

End ResultsPage.

(** ** frontend/src/components/ScanLog.jsx *)
Module ScanLog.

(** [isActive]: line 224. *)
Definition isActive (scanStatus : string) : bool :=
  String.eqb scanStatus "pending" || String.eqb scanStatus "running".

(** The polling effect, "Poll every 2 s while scan is active":
    lines 238-243. *)
Definition poll_interval (scanStatus : string) : option Z :=
  if negb (isActive scanStatus) then None else Some 2000%Z.

End ScanLog.

(** ** frontend/src/pages/DashboardPage.jsx *)
Module DashboardPage.
Import Rows.

(** The mounted component.  Besides the [useState] cells it records what
    React keeps for the effect of lines 37-44: the dependency value
    [scans.length] of the effect's last run, and the [scans] array the
    interval callback created by that run closed over. *)
Record State : Type := mkState {
  scans : list Scan;
  loading : bool;
  dep_length : nat;
  closure_scans : list Scan
}.

Inductive Action : Type :=
| FetchScans
| SetInterval (ms : Z)
| ClearInterval.

Inductive Event : Type :=
| Resolved (data : list Scan)
| FetchFailed
| Tick
| Deleted (id : Z).

(** [scans.some((s) => s.status === 'pending' || s.status === 'running')]. *)
Definition hasActive (l : list Scan) : bool :=
  existsb (fun s => String.eqb (status s) "pending"
                    || String.eqb (status s) "running") l.

(** What a run of the effect does: one fetch, and a 5000 ms interval whose
    callback closes over the [scans] of the render it runs in. *)
Definition run_effect : list Action :=
  [FetchScans; SetInterval 5000%Z].

(** First render and first run of the effect. *)
Definition mount : State * list Action :=
  ({| scans := []; loading := true; dep_length := 0; closure_scans := [] |},
   run_effect).

(** A render after [setScans(next)]: the effect is cleaned up and run again
    only when the dependency [scans.length] changed. *)
Definition rerender (next : list Scan) (st : State) : State * list Action :=
  if Nat.eqb (length next) (dep_length st)
  then ({| scans := next; loading := loading st;
           dep_length := dep_length st;
           closure_scans := closure_scans st |}, [])
  else ({| scans := next; loading := loading st;
           dep_length := length next;
           closure_scans := next |},
        ClearInterval :: run_effect).

Definition setLoading (l : bool) (st : State) : State :=
  {| scans := scans st; loading := l; dep_length := dep_length st;
     closure_scans := closure_scans st |}.

(** The interval callback: lines 39-42. *)
Definition on_tick (st : State) : list Action :=
  if hasActive (closure_scans st) then [FetchScans] else [].

Definition step (ev : Event) (st : State) : State * list Action :=
  match ev with
  | Resolved data => rerender data (setLoading false st)
  | FetchFailed => (setLoading false st, [])
  | Tick => (st, on_tick st)
  | Deleted id =>
      rerender (List.filter (fun s => negb (Z.eqb (scan_id s) id)) (scans st))
               st
  end.

(** The actions of a whole session, from the mount on. *)
Fixpoint run (evs : list Event) (st : State) : State * list (list Action) :=
  match evs with
  | [] => (st, [])
  | ev :: rest =>
      let (st1, acts) := step ev st in
      let (st2, more) := run rest st1 in
      (st2, acts :: more)
  end.

Definition session (evs : list Event) : State * list (list Action) :=
  let (st0, acts0) := mount in
  let (st, more) := run evs st0 in
  (st, acts0 :: more).

End DashboardPage.

(** ** The REST backend, as far as the frontend depends on it *)
Module Backend.

(** Modelled from the spec: the status enum of a Scan row
    ("pending/running/completed/failed"); the backend's models are not among
    the sources. *)
Inductive ScanStatus : Type := pending | running | completed | failed.

(** Modelled from the spec: the status as the API serialises it. *)
Definition status_name (s : ScanStatus) : string :=
  match s with
  | pending => "pending"
  | running => "running"
  | completed => "completed"
  | failed => "failed"
  end.

(** Modelled from the spec: the scan row's state machine, "a Scan's status
    moves pending -> running -> {completed, failed}"; the scan runner that
    writes the status is not among the sources. *)
Inductive transition : ScanStatus -> ScanStatus -> Prop :=
| start_scan : transition pending running
| finish_scan : transition running completed
| fail_scan : transition running failed.

(** Modelled from the spec: sequences of transitions. *)
Inductive transitions : ScanStatus -> ScanStatus -> Prop :=
| no_move s : transitions s s
| move s1 s2 s3 : transition s1 s2 -> transitions s2 s3 -> transitions s1 s3.

(** Modelled from the spec: how far along "pending -> running ->
    {completed, failed}" a status is. *)
Definition progress (s : ScanStatus) : nat :=
  match s with
  | pending => 0
  | running => 1
  | completed => 2
  | failed => 2
  end.

(** Modelled from the spec: the two final statuses. *)
Definition terminal (s : ScanStatus) : bool :=
  match s with
  | completed | failed => true
  | _ => false
  end.

(** Modelled from the spec: the scan row with the columns the life cycle
    writes, "a single error_message string persisted on failed scan rows". *)
Record Row : Type := mkRow {
  row_status : ScanStatus;
  row_error_message : option string
}.

(** Modelled from the spec: a scan row as created by an upload. *)
Definition new_row : Row :=
  {| row_status := pending; row_error_message := None |}.

(** Modelled from the spec: the writes of the scan runner to a row. *)
Inductive writes : Row -> Row -> Prop :=
| w_start r :
    row_status r = pending ->
    writes r {| row_status := running;
                row_error_message := row_error_message r |}
| w_finish r :
    row_status r = running ->
    writes r {| row_status := completed;
                row_error_message := row_error_message r |}
| w_fail r msg :
    row_status r = running ->
    writes r {| row_status := failed; row_error_message := Some msg |}.

(** Modelled from the spec: the rows a scan can be in. *)
Inductive reachable : Row -> Prop :=
| reach_new : reachable new_row
| reach_write r r' : reachable r -> writes r r' -> reachable r'.

(** Modelled from the spec: the row as serialised to the frontend. *)
Definition to_json (id : Z) (r : Row) : Rows.Scan :=
  {| Rows.scan_id := id;
     Rows.status := status_name (row_status r);
     Rows.error_message := row_error_message r;
     Rows.total_vulnerabilities := 0;
     Rows.vulnerabilities := None |}.

(** Modelled from the spec: "suppressing a vulnerability toggles a boolean"
    (the endpoint table calls PATCH .../suppress "Toggle suppression"); the
    handler is not among the sources. *)
Definition toggle_suppressed (v : Rows.Vulnerability) : Rows.Vulnerability :=
  {| Rows.id := Rows.id v;
     Rows.severity := Rows.severity v;
     Rows.is_suppressed := negb (Rows.is_suppressed v);
     Rows.ai_is_false_positive := Rows.ai_is_false_positive v |}.

(** Modelled from the spec: the handler applied to the vulnerabilities of
    one scan. *)
Definition suppress (vulnId : Z) (vs : list Rows.Vulnerability)
  : list Rows.Vulnerability :=
  map (fun v => if Z.eqb (Rows.id v) vulnId then toggle_suppressed v else v) vs.

(** Modelled from the spec: whether the backend carried a request out.  It
    answers a request it carried out with a success status; any other
    answer, or none, stands for a request that changed nothing. *)
Definition carried_out (reply : Api.Reply) : bool :=
  match reply with
  | Api.GotResponse r => Api.validateStatus (Api.status r)
  | Api.NetworkError => false
  end.

(** Modelled from the spec: the backend's reaction to a call of the
    frontend's API client, as far as suppression goes. *)
Definition handle (c : Api.Call) (reply : Api.Reply)
    (vs : list Rows.Vulnerability) : list Rows.Vulnerability :=
  match c with
  | Api.scans_suppress _ vulnId =>
      if carried_out reply then suppress vulnId vs else vs
  | _ => vs
  end.

(** Modelled from the spec: the vulnerabilities of the scan after the
    backend handled the requests of one click on a suppress button, to which
    it gave the answer [reply]. *)
Definition after_click (reply : Api.Reply) (scan : Rows.Scan) (vulnId : Z)
    (b : Api.Browser) (vs : list Rows.Vulnerability)
  : list Rows.Vulnerability :=
  fold_left (fun db e =>
               match e with
               | ScanResults.Send c => handle c reply db
               | ScanResults.Refresh => db
               end)
            (snd (ScanResults.handleSuppress reply scan vulnId b)) vs.

End Backend.

(** ** A monad for straight-line PowerShell scripts

    A run of a script is the list of things it did (console lines, native
    commands, cmdlets that touch the file system or the network) and how it
    ended.  Everything the script learns from the machine is an input of the
    model, so a script is a pure function of those answers. *)
Module PowerShell.

(** How a script ends before its last line: [exit n], or a terminating error
    (with [$ErrorActionPreference = "Stop"] every cmdlet error is one). *)
Inductive Stop : Type :=
| Exit (code : Z)
| TerminatingError (source : string).

Inductive Event : Type :=
| Host (msg : string)
| Native (exe : string) (args : list string) (outcome : option Z)
| Cmdlet (name : string) (args : list string) (ok : bool).

Record Run (A : Type) : Type := mkRun {
  trace : list Event;
  result : A + Stop
}.
Arguments mkRun {A}.
Arguments trace {A}.
Arguments result {A}.

Definition ret {A : Type} (a : A) : Run A := mkRun [] (inl a).

Definition bind {A B : Type} (m : Run A) (k : A -> Run B) : Run B :=
  match result m with
  | inl a => mkRun (trace m ++ trace (k a)) (result (k a))
  | inr s => mkRun (trace m) (inr s)
  end.

#[global] Instance run_ret : MRet Run := @ret.
#[global] Instance run_bind : MBind Run := fun A B k m => bind m k.

(** [Write-Host]. *)
Definition Write_Host (msg : string) : Run unit := mkRun [Host msg] (inl tt).

(** [exit n]. *)
Definition exit (code : Z) : Run unit := mkRun [] (inr (Exit code)).

(** [& exe args]: [outcome] is the exit code the process ended with, [None]
    when the command could not be started (a terminating error).  The value
    returned is [$LASTEXITCODE]. *)
Definition native (exe : string) (args : list string) (outcome : option Z)
  : Run Z :=
  match outcome with
  | Some code => mkRun [Native exe args outcome] (inl code)
  | None => mkRun [Native exe args outcome] (inr (TerminatingError exe))
  end.

(** A cmdlet that either succeeds or raises a terminating error. *)
Definition cmdlet (name : string) (args : list string) (ok : bool)
  : Run unit :=
  mkRun [Cmdlet name args ok]
        (if ok then inl tt else inr (TerminatingError name)).

(** A cmdlet called with [-ErrorAction SilentlyContinue]. *)
Definition cmdlet_quiet (name : string) (args : list string) (ok : bool)
  : Run unit :=
  mkRun [Cmdlet name args ok] (inl tt).

(** [throw]. *)
Definition throw (what : string) : Run unit :=
  mkRun [] (inr (TerminatingError what)).

(** [try { body } catch { handler }]: the handler runs after a terminating
    error of the body; [exit] is not caught. *)
Definition try_catch (body handler : Run unit) : Run unit :=
  match result body with
  | inr (TerminatingError _) =>
      mkRun (trace body ++ trace handler) (result handler)
  | _ => body
  end.

(** [if (cond) { body }]. *)
Definition when (cond : bool) (body : Run unit) : Run unit :=
  if cond then body else mret tt.

(** [foreach ($x in $l) { body }]. *)
Fixpoint foreach {A : Type} (l : list A) (body : A -> Run unit) : Run unit :=
  match l with
  | [] => mret tt
  | x :: rest => body x;; foreach rest body
  end.

(** [Join-Path]. *)
Definition Join_Path (parent child : string) : string :=
  parent +:+ "\" +:+ child.

(** Truthiness of a string or [$null]. *)
Definition truthy (v : option string) : bool :=
  match v with
  | Some s => negb (String.eqb s "")
  | None => false
  end.

(** The exit code of the PowerShell process that ran the script with
    [-File]: 0 after the last line, [n] after [exit n], 1 after an unhandled
    terminating error. *)
Definition exit_code {A : Type} (r : Run A) : Z :=
  match result r with
  | inl _ => 0
  | inr (Exit n) => n
  | inr (TerminatingError _) => 1
  end.

(** Every event of the run satisfies [P]. *)
Definition always {A : Type} (P : Event -> Prop) (r : Run A) : Prop :=
  Forall P (trace r).

(** A run that ends before its last line ends with exit code 1. *)
Definition orderly {A : Type} (r : Run A) : Prop :=
  forall s : Stop, result r = inr s -> exit_code r = 1%Z.

Definition is_cmdlet (name : string) (e : Event) : bool :=
  match e with
  | Cmdlet name' _ _ => String.eqb name' name
  | _ => false
  end.

End PowerShell.

(** ** setup-windows.ps1: step 4 (Python venv + packages) and step 5 (npm) *)
Module SetupWindows.
Import PowerShell.

(** What the machine answers to the two steps. *)
Record World : Type := mkWorld {
  ROOT : string;
  venvPy_exists : bool;
  python_venv : option Z;
  pip_upgrade : option Z;
  pip_install : option Z;
  pip_install_only_binary : option Z;
  push_location : bool;
  npm_install : option Z
}.

Definition Write_Step (n total : string) (msg : string) : Run unit :=
  Write_Host ("[" +:+ n +:+ "/" +:+ total +:+ "] " +:+ msg).
Definition Write_OK (msg : string) : Run unit :=
  Write_Host ("  [OK] " +:+ msg).
Definition Write_Info (msg : string) : Run unit :=
  Write_Host ("  [>>] " +:+ msg).
Definition Write_Err (msg : string) : Run unit :=
  Write_Host ("  [!!] " +:+ msg).

Section Steps.
Variable w : World.

Definition venvPath : string := Join_Path (ROOT w) "backend\.venv".
Definition venvPy : string := Join_Path venvPath "Scripts\python.exe".
Definition venvPip : string := Join_Path venvPath "Scripts\pip.exe".
Definition requirements : string := Join_Path (ROOT w) "backend\requirements.txt".

(** The first installation attempt: line 133. *)
Definition install_args : list string :=
  ["install"; "-r"; requirements; "--quiet"].

(** The second one: line 136. *)
Definition install_only_binary_args : list string :=
  ["install"; "-r"; requirements; "--only-binary"; ":all:"; "--quiet"].

(** Lines 121-127. *)
Definition create_venv : Run unit :=
  if negb (venvPy_exists w) then
    Write_Info "Creating virtual environment...";;
    native "python" ["-m"; "venv"; venvPath] (python_venv w);;
    Write_OK "Virtual environment created."
  else
    Write_OK "Virtual environment already exists.".

(** Lines 129-130. *)
Definition upgrade_pip : Run unit :=
  Write_Info "Upgrading pip...";;
  native venvPip ["install"; "--upgrade"; "pip"; "--quiet"] (pip_upgrade w);;
  mret tt.

(** The installation of the Python packages: lines 132-142. *)
Definition install_packages : Run unit :=
  Write_Info "Installing Python packages (this may take a minute)...";;
  code ← native venvPip install_args (pip_install w);
  when (negb (Z.eqb code 0))
    (Write_Info "Retrying with prebuilt wheels only...";;
     code2 ← native venvPip install_only_binary_args
                    (pip_install_only_binary w);
     when (negb (Z.eqb code2 0))
       (Write_Err "pip install failed. Check output above.";;
        exit 1));;
  Write_OK "Python packages installed.".

(** Lines 114-142. *)
Definition step4 : Run unit :=
  Write_Step "4" "7" "Setting up Python backend...";;
  create_venv;;
  upgrade_pip;;
  install_packages.

(** Lines 144-158 (the exception text appended to the error line is left
    out). *)
Definition step5 : Run unit :=
  Write_Step "5" "7" "Installing frontend npm packages...";;
  cmdlet "Push-Location" [Join_Path (ROOT w) "frontend"] (push_location w);;
  try_catch
    (code ← native "npm" ["install"] (npm_install w);
     when (negb (Z.eqb code 0)) (throw "npm install exited with code");;
     Write_OK "Frontend packages installed.")
    (cmdlet "Pop-Location" [] true;;
     Write_Err "npm install failed";;
     exit 1);;
  cmdlet "Pop-Location" [] true.

Definition install_dependencies : Run unit := step4;; step5.

End Steps.

(** The runs of [pip install -r requirements.txt], in either form. *)
Definition is_pip_install (e : Event) : bool :=
  match e with
  | Native _ ("install" :: "-r" :: _) _ => true
  | _ => false
  end.

(** The runs of [npm install]. *)
Definition is_npm_install (e : Event) : bool :=
  match e with
  | Native "npm" ("install" :: _) _ => true
  | _ => false
  end.

Definition attempts (sel : Event -> bool) (r : Run unit) : nat :=
  length (List.filter sel (trace r)).

Definition retry_notice : Event :=
  Host "  [>>] Retrying with prebuilt wheels only...".

End SetupWindows.

(** ** build-msi.ps1 (the variant that bundles the JRE and OWASP DC) *)
Module BuildMsi.
Import PowerShell.

(** The [param] block: lines 36-41. *)
Record Params : Type := mkParams {
  SkipFrontendBuild : bool;
  SkipPyInstaller : bool;
  SkipDownloads : bool;
  Version : string
}.

(** [.\build-msi.ps1] without arguments. *)
Definition default_params : Params :=
  {| SkipFrontendBuild := false; SkipPyInstaller := false;
     SkipDownloads := false; Version := "1.0.0" |}.

(** The three downloaded archives and the three harvested directories. *)
Inductive Asset : Type := WiX | JRE | OWASPDC.
Inductive Harvest : Type := AppFiles | JREFiles | OWASPDCFiles.
Inductive Tool : Type := heat | candle | light.

(** The places where the script asks [Test-Path], in program order. *)
Inductive TestSite : Type :=
| cached (a : Asset)
| wix_dir
| wix_exe (t : Tool)
| build_python
| frontend_dist
| backend_build
| backend_dist
| py_dist
| jre_dir
| jre_tmp
| owaspdc_dir
| owaspdc_dir_extracted.

(** The places where it starts a native command. *)
Inductive NativeSite : Type :=
| run_venv
| run_pip_upgrade
| run_pip_pyinstaller
| run_pip_requirements
| run_npm_install
| run_npm_build
| run_pyinstaller
| run_heat (h : Harvest)
| run_candle
| run_light.

(** The cmdlets that can raise a terminating error. *)
Inductive CmdletSite : Type :=
| new_cache_dir
| invoke_web_request (a : Asset)
| remove_item (what : TestSite)
| expand_archive (a : Asset)
| push_location_frontend
| push_location_backend
| list_jre_tmp
| move_jre
| rewrite_ids (h : Harvest)
| list_wixobj
| get_item_msi.

(** What the build machine answers. *)
Record World : Type := mkWorld {
  PSScriptRoot : string;
  Get_Command : string -> option string;
  Test_Path : TestSite -> bool;
  exit_code_of : NativeSite -> option Z;
  succeeds : CmdletSite -> bool;
  jre_extracted : option string;
  wixobj_files : list string;
  msi_size : string
}.

(** The helpers: lines 47-50 (the leading blank line of [Step] and [Fail]
    is not recorded). *)
Definition Step (m : string) : Run unit := Write_Host ("==> " +:+ m).
Definition OK (m : string) : Run unit := Write_Host ("    OK: " +:+ m).
Definition Warn (m : string) : Run unit := Write_Host ("    WARN: " +:+ m).
Definition Fail (m : string) : Run unit :=
  Write_Host ("ERROR: " +:+ m);; exit 1.

Definition tool_exe (t : Tool) : string :=
  match t with
  | heat => "heat.exe"
  | candle => "candle.exe"
  | light => "light.exe"
  end.

Section Script.
Variable w : World.
Variable p : Params.

(** Paths: lines 61-70. *)
Definition Root : string := PSScriptRoot w.
Definition BackendDir : string := Join_Path Root "backend".
Definition FrontendDir : string := Join_Path Root "frontend".
Definition InstallerDir : string := Join_Path Root "installer".
Definition CacheDir : string := Join_Path InstallerDir "_cache".
Definition WiXDir : string := Join_Path InstallerDir "_wix".
Definition JREDir : string := Join_Path InstallerDir "jre".
Definition OWASPDCDir : string := Join_Path InstallerDir "dependency-check".
Definition PyDistDir : string := Join_Path BackendDir "dist\owasp-scanner".
Definition MsiOut : string :=
  Join_Path Root ("owasp-scanner-" +:+ Version p +:+ ".msi").

(** Pinned versions and URLs: lines 75-87. *)
Definition zip_leaf (a : Asset) : string :=
  match a with
  | WiX => "wix314-binaries.zip"
  | JRE => "temurin-jre-21-win-x64.zip"
  | OWASPDC => "dependency-check-10.0.4.zip"
  end.

Definition url (a : Asset) : string :=
  match a with
  | WiX => "https://github.com/wixtoolset/wix3/releases/download/wix3141rtm/wix314-binaries.zip"
  | JRE => "https://github.com/adoptium/temurin21-binaries/releases/download/jdk-21.0.5%2B11/OpenJDK21U-jre_x64_windows_hotspot_21.0.5_11.zip"
  | OWASPDC => "https://github.com/jeremylong/DependencyCheck/releases/download/v10.0.4/dependency-check-10.0.4-release.zip"
  end.

Definition zip (a : Asset) : string := Join_Path CacheDir (zip_leaf a).

(** [Download]: lines 52-58. *)
Definition Download (a : Asset) : Run unit :=
  if Test_Path w (cached a) then OK ("Already cached: " +:+ zip_leaf a)
  else
    Write_Host ("    Downloading " +:+ zip_leaf a +:+ " ...");;
    cmdlet "Invoke-WebRequest" [url a; zip a] (succeeds w (invoke_web_request a));;
    OK "Downloaded".

Definition Remove_Item (path : string) (site : TestSite) : Run unit :=
  cmdlet "Remove-Item" [path] (succeeds w (remove_item site)).

Definition Expand_Archive (a : Asset) (dest : string) : Run unit :=
  cmdlet "Expand-Archive" [zip a; dest] (succeeds w (expand_archive a)).

(** Locate or bootstrap WiX: lines 90-115.  Returns [$HeatExe],
    [$CandleExe] and [$LightExe]. *)
Definition locate_wix : Run (string * string * string) :=
  Step "Locating WiX Toolset v3";;
  let HeatExe := Get_Command w "heat.exe" in
  let CandleExe := Get_Command w "candle.exe" in
  let LightExe := Get_Command w "light.exe" in
  if negb (truthy HeatExe && truthy CandleExe && truthy LightExe) then
    Warn "WiX not on PATH -- downloading WiX 3.14.1 binaries...";;
    when (negb (SkipDownloads p)) (Download WiX);;
    when (Test_Path w wix_dir) (Remove_Item WiXDir wix_dir);;
    Expand_Archive WiX WiXDir;;
    OK ("WiX extracted to " +:+ WiXDir);;
    foreach [heat; candle; light] (fun t =>
      when (negb (Test_Path w (wix_exe t)))
        (Fail (Join_Path WiXDir (tool_exe t)
               +:+ " not found after extracting WiX.")));;
    mret (Join_Path WiXDir "heat.exe", Join_Path WiXDir "candle.exe",
          Join_Path WiXDir "light.exe")
  else
    OK ("heat=" +:+ default "" HeatExe);;
    OK ("candle=" +:+ default "" CandleExe);;
    OK ("light=" +:+ default "" LightExe);;
    mret (default "" HeatExe, default "" CandleExe, default "" LightExe).

(** Check Python / Node: lines 118-124. *)
Definition check_tools : Run unit :=
  Step "Checking Python and Node.js";;
  foreach ["python"; "node"; "npm"] (fun cmd =>
    when (negb (bool_decide (is_Some (Get_Command w cmd))))
      (Fail (cmd +:+ " not found on PATH.  Install Python 3.11+ and Node.js 20+."));;
    OK (cmd +:+ " found")).

Definition BuildVenv : string := Join_Path BackendDir ".build-venv".
Definition PythonExe : string := Join_Path BuildVenv "Scripts\python.exe".
Definition PyInstExe : string := Join_Path BuildVenv "Scripts\pyinstaller.exe".

(** Build virtual environment and its packages: lines 132-153. *)
Definition build_venv : Run unit :=
  Step ("Setting up build virtual environment (" +:+ BuildVenv +:+ ")");;
  (if negb (Test_Path w build_python) then
     code ← native "python" ["-m"; "venv"; BuildVenv] (exit_code_of w run_venv);
     when (negb (Z.eqb code 0)) (Fail "Failed to create build venv");;
     OK "venv created"
   else OK "venv already exists");;
  code ← native PythonExe ["-m"; "pip"; "install"; "--upgrade"; "pip"; "--quiet"]
                (exit_code_of w run_pip_upgrade);
  when (negb (Z.eqb code 0)) (Fail "pip upgrade failed");;
  Step "Installing PyInstaller into build venv";;
  code ← native PythonExe ["-m"; "pip"; "install"; "pyinstaller"; "--quiet"]
                (exit_code_of w run_pip_pyinstaller);
  when (negb (Z.eqb code 0)) (Fail "pip install pyinstaller failed");;
  OK "pyinstaller installed";;
  Step "Installing backend dependencies into build venv";;
  code ← native PythonExe
                ["-m"; "pip"; "install"; "-r";
                 Join_Path BackendDir "requirements.txt"; "--quiet"]
                (exit_code_of w run_pip_requirements);
  when (negb (Z.eqb code 0)) (Fail "pip install -r requirements.txt failed");;
  OK "backend dependencies installed".

(** Frontend build: lines 156-170. *)
Definition frontend_build : Run unit :=
  if negb (SkipFrontendBuild p) then
    Step "Building React frontend";;
    cmdlet "Push-Location" [FrontendDir] (succeeds w push_location_frontend);;
    code ← native "npm" ["install"; "--silent"] (exit_code_of w run_npm_install);
    when (negb (Z.eqb code 0)) (Fail "npm install failed");;
    code ← native "npm" ["run"; "build"] (exit_code_of w run_npm_build);
    when (negb (Z.eqb code 0)) (Fail "npm run build failed");;
    cmdlet "Pop-Location" [] true;;
    OK "Frontend built -> frontend/dist"
  else
    Warn "Skipping frontend build";;
    when (negb (Test_Path w frontend_dist))
      (Fail "frontend/dist missing -- run without -SkipFrontendBuild first.").

(** PyInstaller: lines 173-187. *)
Definition pyinstaller : Run unit :=
  if negb (SkipPyInstaller p) then
    Step "Bundling backend with PyInstaller";;
    cmdlet "Push-Location" [BackendDir] (succeeds w push_location_backend);;
    when (Test_Path w backend_build) (Remove_Item "build" backend_build);;
    when (Test_Path w backend_dist) (Remove_Item "dist" backend_dist);;
    code ← native PyInstExe ["owasp-scanner.spec"; "--noconfirm"]
                  (exit_code_of w run_pyinstaller);
    when (negb (Z.eqb code 0)) (Fail "PyInstaller failed");;
    cmdlet "Pop-Location" [] true;;
    OK ("Bundle -> " +:+ PyDistDir)
  else
    Warn "Skipping PyInstaller";;
    when (negb (Test_Path w py_dist))
      (Fail "PyInstaller output missing -- run without -SkipPyInstaller first.").

(** Download and stage the JRE: lines 190-207. *)
Definition JRETmp : string := Join_Path InstallerDir "_jre_tmp".

Definition stage_jre : Run unit :=
  Step "Staging Eclipse Temurin JRE 21 LTS";;
  when (negb (SkipDownloads p)) (Download JRE);;
  when (Test_Path w jre_dir) (Remove_Item JREDir jre_dir);;
  when (Test_Path w jre_tmp) (Remove_Item JRETmp jre_tmp);;
  Write_Host "    Extracting JRE...";;
  Expand_Archive JRE JRETmp;;
  cmdlet "Get-ChildItem" [JRETmp] (succeeds w list_jre_tmp);;
  match jre_extracted w with
  | None => Fail ("Could not find extracted JRE directory under " +:+ JRETmp)
  | Some dir =>
      cmdlet "Move-Item" [dir; JREDir] (succeeds w move_jre);;
      cmdlet_quiet "Remove-Item" [JRETmp] true;;
      OK ("JRE staged at " +:+ JREDir)
  end.

(** Download and stage OWASP Dependency Check: lines 210-218. *)
Definition stage_owaspdc : Run unit :=
  Step "Staging OWASP Dependency Check v10.0.4";;
  when (negb (SkipDownloads p)) (Download OWASPDC);;
  when (Test_Path w owaspdc_dir) (Remove_Item OWASPDCDir owaspdc_dir);;
  Write_Host "    Extracting OWASP DC...";;
  Expand_Archive OWASPDC InstallerDir;;
  when (negb (Test_Path w owaspdc_dir_extracted))
    (Fail ("Expected " +:+ OWASPDCDir +:+ " after extraction."));;
  OK ("OWASP DC staged at " +:+ OWASPDCDir).

(** [Heat]: lines 223-260.  The XML post-processing is one step that can
    raise a terminating error. *)
Definition Heat (HeatExe : string) (h : Harvest)
    (SrcDir CgId DirRef VarName OutFile IdPrefix : string) : Run unit :=
  code ← native HeatExe
           ["dir"; SrcDir; "-nologo"; "-gg"; "-sfrag"; "-sreg"; "-srd";
            "-cg"; CgId; "-dr"; DirRef; "-var"; "var." +:+ VarName;
            "-out"; OutFile]
           (exit_code_of w (run_heat h));
  when (negb (Z.eqb code 0)) (Fail ("heat.exe failed for " +:+ CgId));;
  cmdlet "Rewrite-Ids" [OutFile; IdPrefix] (succeeds w (rewrite_ids h));;
  OK (OutFile +:+ " generated (prefix: " +:+ IdPrefix +:+ ")").

(** Harvest the three directories: lines 221, 262-264. *)
Definition harvest (HeatExe : string) : Run unit :=
  Step "Harvesting file manifests with heat.exe";;
  Heat HeatExe AppFiles PyDistDir "AppFileComponents" "INSTALLFOLDER"
       "AppSourceDir" (Join_Path InstallerDir "AppFiles.wxs") "App_";;
  Heat HeatExe JREFiles JREDir "JREComponents" "JRE_FOLDER"
       "JRESourceDir" (Join_Path InstallerDir "JREFiles.wxs") "JRE_";;
  Heat HeatExe OWASPDCFiles OWASPDCDir "OWASPDCComponents" "OWASPDC_FOLDER"
       "OWASPDCSourceDir" (Join_Path InstallerDir "OWASPDCFiles.wxs") "DC_".

Definition WxsSources : list string :=
  [Join_Path InstallerDir "owasp-scanner.wxs";
   Join_Path InstallerDir "AppFiles.wxs";
   Join_Path InstallerDir "JREFiles.wxs";
   Join_Path InstallerDir "OWASPDCFiles.wxs"].

(** Compile: lines 267-285. *)
Definition compile (CandleExe : string) : Run unit :=
  Step "Compiling WiX sources with candle.exe";;
  code ← native CandleExe
           (["-nologo"; "-arch"; "x64";
             "-dVersion=" +:+ Version p;
             "-dAppSourceDir=" +:+ PyDistDir;
             "-dJRESourceDir=" +:+ JREDir;
             "-dOWASPDCSourceDir=" +:+ OWASPDCDir;
             "-ext"; "WixUtilExtension";
             "-out"; InstallerDir +:+ "\"] ++ WxsSources)
           (exit_code_of w run_candle);
  when (negb (Z.eqb code 0)) (Fail "candle.exe failed");;
  OK "WiX sources compiled".

Definition light_args : list string :=
  ["-nologo"; "-ext"; "WixUIExtension"; "-ext"; "WixUtilExtension";
   "-cultures:en-US"; "-out"; MsiOut] ++ wixobj_files w.

(** Link: lines 288-299. *)
Definition link (LightExe : string) : Run unit :=
  Step "Linking MSI with light.exe";;
  cmdlet "Get-ChildItem" [InstallerDir; "*.wixobj"] (succeeds w list_wixobj);;
  code ← native LightExe light_args (exit_code_of w run_light);
  when (negb (Z.eqb code 0)) (Fail "light.exe failed").

(** Done: lines 302-311.  [msi_size w] is the size [Get-Item] reported,
    rounded to megabytes. *)
Definition report : Run unit :=
  cmdlet "Get-Item" [MsiOut] (succeeds w get_item_msi);;
  Write_Host "";;
  Write_Host "============================================";;
  Write_Host "  MSI built successfully!";;
  Write_Host ("  " +:+ MsiOut +:+ "  (" +:+ msi_size w +:+ " MB)");;
  Write_Host "============================================";;
  Write_Host "";;
  Write_Host "Upload to GitHub release:";;
  Write_Host ("  gh release upload v" +:+ Version p +:+ " " +:+ MsiOut);;
  Write_Host "".

(** The steps up to the two guarded builds. *)
Definition prepare : Run (string * string * string) :=
  cmdlet "New-Item" [CacheDir] (succeeds w new_cache_dir);;
  exes ← locate_wix;
  check_tools;;
  build_venv;;
  mret exes.

(** The steps after them. *)
Definition package (exes : string * string * string) : Run unit :=
  let '(HeatExe, CandleExe, LightExe) := exes in
  stage_jre;;
  stage_owaspdc;;
  harvest HeatExe;;
  compile CandleExe;;
  link LightExe;;
  report.

(** The whole script. *)
Definition build_msi : Run unit :=
  exes ← prepare;
  frontend_build;;
  pyinstaller;;
  package exes.

End Script.

(** The events that start [light.exe] with the script's link arguments. *)
Definition is_light_run (w : World) (p : Params) (e : Event) : bool :=
  match e with
  | Native _ args _ => bool_decide (args = light_args w p)
  | _ => false
  end.

(** The two npm commands of the frontend build. *)
Definition is_npm_run (e : Event) : bool :=
  match e with
  | Native _ ("install" :: "--silent" :: _) _ => true
  | Native _ ("run" :: "build" :: _) _ => true
  | _ => false
  end.

(** The PyInstaller command. *)
Definition is_pyinstaller_run (e : Event) : bool :=
  match e with
  | Native _ ("owasp-scanner.spec" :: _) _ => true
  | _ => false
  end.

End BuildMsi.

(** ** JSON values and the webhook payloads the sources document *)
Module Json.

Inductive Value : Type :=
| Null
| Bool (b : bool)
| Number (n : Z)
| Str (s : string)
| Array (items : list Value)
| Object (fields : list (string * Value)).

(** The value of a key of an object (the first binding), when present. *)
Fixpoint field (key : string) (fields : list (string * Value))
  : option Value :=
  match fields with
  | [] => None
  | (k, v) :: rest => if String.eqb k key then Some v else field key rest
  end.

End Json.

(** frontend/src/pages/IntegrationsPage.jsx: the payloads the page's
    "Webhook Integration Guide" shows, and the README's curl example. *)
Module IntegrationsPage.
Import Json.

(** Lines 79-84 of the page. *)
Definition guide_payload : Value :=
  Object [("source", Str "jenkins");
          ("project_name", Str "my-app");
          ("artifact_url", Str "https://...");
          ("metadata", Object [])].

(** The Jenkins pipeline example: lines 95-96. *)
Definition jenkins_payload (JOB_NAME ARTIFACT_URL : string) : Value :=
  Object [("source", Str "jenkins");
          ("project_name", Str JOB_NAME);
          ("artifact_url", Str ARTIFACT_URL)].

(** The Azure DevOps example: lines 111-115. *)
Definition azure_payload (repository artifact_url : string) : Value :=
  Object [("source", Str "azure");
          ("project_name", Str repository);
          ("artifact_url", Str artifact_url)].

(** The README's curl example. *)
Definition readme_payload : Value :=
  Object [("source", Str "jenkins");
          ("project_name", Str "my-app-v1.2.3");
          ("artifact_url", Str "https://your-nexus/my-app-1.2.3.jar")].

End IntegrationsPage.

(** ** The webhook receiver *)
Module Webhook.
Import Json.

(** Modelled from the spec: the body of
    [POST /api/integrations/webhook/{token}], "accepting {source,
    project_name, artifact_url, metadata}"; the receiver is part of the
    backend, which is not among the sources. *)
Record Payload : Type := mkPayload {
  source : string;
  project_name : string;
  artifact_url : option string;
  metadata : option (list (string * Value))
}.

(** Modelled from the spec: an optional string field, absent, [null] or a
    string ([None] when it has another type). *)
Definition optional_string (v : option Value) : option (option string) :=
  match v with
  | None | Some Null => Some None
  | Some (Str s) => Some (Some s)
  | Some _ => None
  end.

(** Modelled from the spec: an optional object field. *)
Definition optional_object (v : option Value)
  : option (option (list (string * Value))) :=
  match v with
  | None | Some Null => Some None
  | Some (Object fs) => Some (Some fs)
  | Some _ => None
  end.

(** Modelled from the spec: validation of the request body by the receiver:
    [source] and [project_name] are required strings, [artifact_url] and
    [metadata] are optional; other fields are ignored. *)
Definition parse (body : Value) : option Payload :=
  match body with
  | Object fs =>
      match field "source" fs, field "project_name" fs,
            optional_string (field "artifact_url" fs),
            optional_object (field "metadata" fs) with
      | Some (Str s), Some (Str n), Some url, Some md =>
          Some {| source := s; project_name := n;
                  artifact_url := url; metadata := md |}
      | _, _, _, _ => None
      end
  | _ => None
  end.

(** Modelled from the spec: the receiver's answer, a 2xx status for a body
    it accepts and the 4xx of an invalid request otherwise.  The spec does
    not say how the token of the URL is checked; the answer here depends on
    the body alone. *)
Definition receive (token : string) (body : Value) : Z :=
  match parse body with
  | Some _ => 200
  | None => 422
  end.

(** Modelled from the spec: the documented shape of the body, an object with a string [source], a
    string [project_name], and, when present, a string [artifact_url] and an
    object [metadata]. *)
Definition matches_schema (body : Value) : Prop :=
  exists fs, body = Object fs
    /\ (exists s, field "source" fs = Some (Str s))
    /\ (exists n, field "project_name" fs = Some (Str n))
    /\ (field "artifact_url" fs = None
        \/ exists u, field "artifact_url" fs = Some (Str u))
    /\ (field "metadata" fs = None
        \/ exists m, field "metadata" fs = Some (Object m)).

End Webhook.

(** ** ScanResults.jsx: the selection, the AI analysis and the summary bar *)
Module ScanResultsUI.
Import Rows ScanResults.

(** [handleSelect]: lines 30-32. *)
Definition handleSelect (id : Z) (checked : bool) (prev : list Z) : list Z :=
  if checked then prev ++ [id]
  else List.filter (fun x => negb (Z.eqb x id)) prev.

Definition setSelectedIds (ids : list Z) (st : State) : State :=
  {| selectedIds := ids; filterSeverity := filterSeverity st;
     filterFP := filterFP st; showSuppressed := showSuppressed st |}.

Definition setFilterSeverity (f : string) (st : State) : State :=
  {| selectedIds := selectedIds st; filterSeverity := f;
     filterFP := filterFP st; showSuppressed := showSuppressed st |}.

Definition setShowSuppressed (b : bool) (st : State) : State :=
  {| selectedIds := selectedIds st; filterSeverity := filterSeverity st;
     filterFP := filterFP st; showSuppressed := b |}.

(** The ids of the vulnerabilities on display: [sorted.map((v) => v.id)]. *)
Definition shown_ids (st : State) (scan : Scan) : list Z :=
  map id (sorted st scan).

(** [handleSelectAll]: lines 34-37. *)
Definition handleSelectAll (st : State) (scan : Scan) : State :=
  let ids := shown_ids st scan in
  setSelectedIds
    (if Nat.eqb (length (selectedIds st)) (length ids) then [] else ids) st.

(** What the server answered to [scansAPI.analyze]. *)
Inductive AnalyzeReply : Type :=
| Analyzed
| AnalysisFailed (detail : option string).

(** [handleAnalyze]: lines 39-53 ([scan_id scan] is the source's
    [scan.id]).  Returns the state, the [analysisError] cell ([None] when
    the handler returned before touching it) and the effects. *)
Definition handleAnalyze (reply : AnalyzeReply) (st : State) (scan : Scan)
  : State * option string * list Effect :=
  let ids := if Nat.ltb 0 (length (selectedIds st)) then selectedIds st
             else shown_ids st scan in
  if Nat.eqb (length ids) 0 then (st, None, [])
  else
    match reply with
    | Analyzed =>
        (setSelectedIds [] st, Some "",
         [Send (Api.scans_analyze (scan_id scan) ids); Refresh])
    | AnalysisFailed detail =>
        (st, Some (Js.or_else detail "AI analysis failed"),
         [Send (Api.scans_analyze (scan_id scan) ids)])
    end.

(** [fpCount] and [analyzedCount]: lines 69-70. *)
Definition fpCount (scan : Scan) : nat :=
  length (List.filter (fun v => Js.truthy (ai_is_false_positive v))
                      (vulns scan)).

Definition analyzedCount (scan : Scan) : nat :=
  length (List.filter (fun v => negb (unanalyzed v)) (vulns scan)).

(** The "confirmed risks" figure of the AI summary: line 99. *)
Definition confirmedCount (scan : Scan) : Z :=
  (Z.of_nat (analyzedCount scan) - Z.of_nat (fpCount scan))%Z.

(** [v.ai_is_false_positive === false]. *)
Definition confirmed_risk (v : Vulnerability) : bool :=
  negb (Js.strict_neq_false (ai_is_false_positive v)).

End ScanResultsUI.

(** ** ResultsPage.jsx: what the page renders *)
Module ResultsPageView.
Import Rows ResultsPage.

Inductive Card : Type :=
| RunningCard (title : string)
| FailedCard (reason : string)
| ConsoleLog
| NoVulnerabilities
| Results.

(** What the component returns.  [TypeError] stands for the exception
    [scan.status] raises when [scan] is [null] (line 64). *)
Inductive View : Type :=
| Spinner
| ErrorView (message : string)
| Page (label : option string) (cards : list Card)
| TypeError.

(** The cards under the header: lines 91-138. *)
Definition cards (s : Scan) : list Card :=
  (if String.eqb (status s) "pending" || String.eqb (status s) "running"
   then [RunningCard (if String.eqb (status s) "pending" then "Scan Queued"
                      else "Scanning Dependencies...")]
   else [])
  ++ match failure_reason s with
     | Some reason => [FailedCard reason]
     | None => []
     end
  ++ (if shows_log s then [ConsoleLog] else [])
  ++ (if String.eqb (status s) "completed"
      then [if Z.eqb (total_vulnerabilities s) 0 then NoVulnerabilities
            else Results]
      else []).

(** The component body: lines 44-140. *)
Definition render (st : State) : View :=
  if loading st then Spinner
  else if negb (String.eqb (error st) "") then ErrorView (error st)
  else match scan st with
       | Some s => Page (statusInfo s) (cards s)
       | None => TypeError
       end.

(** The state after the fetches that have settled so far, oldest first
    ([None] for a rejected one). *)
Definition after_fetches (replies : list (option Scan)) : State :=
  fold_left (fun st data => fetchScan data st) replies initial.

Definition is_state_card (c : Card) : bool :=
  match c with
  | ConsoleLog => false
  | _ => true
  end.

End ResultsPageView.

(** ** ScanLog.jsx: the log text and its lines *)
Module ScanLogView.

(** ['\n']. *)
Definition newline : ascii := ascii_of_nat 10.

(** [fetchLog]: lines 226-233.  [Some data] is the body of a successful
    [scansAPI.getLog], [None] a rejected call (silently ignored). *)
Definition fetchLog (reply : option (option string)) (log : string) : string :=
  match reply with
  | Some data => Js.or_else data ""
  | None => log
  end.

(** [log.split('\n')]: line 259. *)
Definition lines (log : string) : list string := Js.split newline log.

Inductive Body : Type :=
| Placeholder (text : string)
| Lines (rows : list string).

(** The body of the console: lines 312-323. *)
Definition body (log scanStatus : string) : Body :=
  let ls := lines log in
  if Nat.eqb (length ls) 0
     || (Nat.eqb (length ls) 1 && negb (Js.truthy_str (head ls)))
  then Placeholder (if ScanLog.isActive scanStatus then "Waiting for output..."
                    else "No log available.")
  else Lines ls.

(** [\w] and [\d] of a regular expression without the [u] flag. *)
Definition is_digit (c : ascii) : bool :=
  let n := nat_of_ascii c in Nat.leb 48 n && Nat.leb n 57.

Definition is_word_char (c : ascii) : bool :=
  let n := nat_of_ascii c in
  is_digit c || (Nat.leb 65 n && Nat.leb n 90)
  || (Nat.leb 97 n && Nat.leb n 122) || Nat.eqb n 95.

(** Matching a literal at the start of the text under the [i] flag: the
    text after the match.  Without the [u] flag a letter of the literal
    matches its two ASCII forms and nothing else. *)
Fixpoint match_literal (literal text : string) : option string :=
  match literal, text with
  | EmptyString, _ => Some text
  | String k literal', String c text' =>
      if Ascii.eqb (Js.lower_ascii k) (Js.lower_ascii c)
      then match_literal literal' text'
      else None
  | String _ _, EmptyString => None
  end.

(** [\b] after a word character: the text ends or goes on with a non-word
    character. *)
Definition boundary (text : string) : bool :=
  match text with
  | EmptyString => true
  | String c _ => negb (is_word_char c)
  end.

(** [/\b(w1|w2|...)\b/i.test(text)] for words made of letters.
    [after_word] tells whether the character before [text] is a word
    character. *)
Fixpoint test_words (words : list string) (after_word : bool) (text : string)
  : bool :=
  (negb after_word
   && existsb (fun w => match match_literal w text with
                        | Some rest => boundary rest
                        | None => false
                        end) words)
  || match text with
     | EmptyString => false
     | String c rest => test_words words (is_word_char c) rest
     end.

(** [\d+] at the start of the text. *)
Definition starts_with_digit (text : string) : bool :=
  match text with
  | String c _ => is_digit c
  | EmptyString => false
  end.

(** [\d{4}-\d+] at the start of the text. *)
Definition match_cve_number (text : string) : bool :=
  match text with
  | String a (String b (String c (String d (String dash rest)))) =>
      is_digit a && is_digit b && is_digit c && is_digit d
      && Ascii.eqb dash "-" && starts_with_digit rest
  | _ => false
  end.

(** [/CVE-\d{4}-\d+/i.test(text)]. *)
Fixpoint test_cve (text : string) : bool :=
  match match_literal "CVE-" text with
  | Some rest => match_cve_number rest
  | None => false
  end
  || match text with
     | EmptyString => false
     | String _ rest => test_cve rest
     end.

(** Two lines that differ only in the case of the letters [A] to [Z]. *)
Fixpoint same_up_to_case (a b : string) : bool :=
  match a, b with
  | EmptyString, EmptyString => true
  | String x a', String y b' =>
      Ascii.eqb (Js.lower_ascii x) (Js.lower_ascii y)
      && same_up_to_case a' b'
  | _, _ => false
  end.

(** The colour class of [LogLine]: lines 197-204. *)
Definition LogLine_class (line : string) : string :=
  if test_words ["ERROR"; "EXCEPTION"; "FATAL"; "SEVERE"] false line
  then "text-red-400"
  else if test_words ["WARN"; "WARNING"] false line then "text-yellow-400"
  else if test_words ["INFO"] false line then "text-blue-300"
  else if test_words ["DEBUG"] false line then "text-gray-500"
  else if test_cve line then "text-orange-400"
  else if test_words ["Done"; "Complete"; "Success"; "Finished"] false line
  then "text-green-400"
  else "text-gray-400".

End ScanLogView.

(** ** FileUpload.jsx: the events of the form *)
Module FileUploadUI.
Import FileUpload.

Inductive Event : Type :=
| Drop (dropped : option File)
| Change (picked : option File)
| DragOver
| DragLeave
| Remove
| ClickUpload (reply : UploadReply).

(** One event: the handlers of lines 50-52, 65, 92 and 110.  The upload
    button is disabled while nothing is selected. *)
Definition step (ev : Event) (st : State) : State * list Effect :=
  match ev with
  | Drop dropped => (handleDrop dropped st, [])
  | Change picked => (onChange picked st, [])
  | DragOver => (setDragging true st, [])
  | DragLeave => (setDragging false st, [])
  | Remove => (setFile None st, [])
  | ClickUpload reply => handleUpload reply st
  end.

Fixpoint run (evs : list Event) (st : State) : State * list Effect :=
  match evs with
  | [] => (st, [])
  | ev :: rest =>
      let (st1, effects) := step ev st in
      let (st2, more) := run rest st1 in
      (st2, effects ++ more)
  end.

(** The check of [validateAndSet] on a file. *)
Definition passes_check (f : File) : bool :=
  match ext_of f with
  | Some ext => Js.includes SUPPORTED ext
  | None => false
  end.

Definition posted (e : Effect) : option File :=
  match e with
  | PostUpload f => Some f
  | Navigate _ => None
  end.

End FileUploadUI.

(** ** LoginPage.jsx and Navbar.jsx: signing in and out *)
Module Session.
Import Api.

(** The body of a successful login response: [data.access_token] and
    [JSON.stringify(data.user)]. *)
Record LoginData : Type := mkLoginData {
  access_token : string;
  user_json : string
}.

(** The [mode] and [error] cells of the login page. *)
Record Form : Type := mkForm {
  mode : string;
  error : string
}.

Definition setItem (key value : string) (b : Browser) : Browser :=
  {| localStorage := <[key := value]> (localStorage b);
     location_href := location_href b |}.

Definition removeItem (key : string) (b : Browser) : Browser :=
  {| localStorage := delete key (localStorage b);
     location_href := location_href b |}.

(** [navigate(path)] of react-router. *)
Definition navigate (to : string) (b : Browser) : Browser :=
  {| localStorage := localStorage b; location_href := to |}.

(** [err.response?.data?.detail || 'Something went wrong']. *)
Definition error_text (err_response : option Response) : string :=
  Js.or_else (match err_response with
              | Some r => detail r
              | None => None
              end) "Something went wrong".

(** [handleSubmit] in login mode: LoginPage.jsx lines 25-33.  The request
    goes through the axios instance, interceptor included; [data] is the
    body of the response when it is a success. *)
Definition submit_login (reply : Reply) (data : LoginData) (f : Form)
    (b : Browser) : Form * Browser :=
  match request auth_login reply b with
  | (b1, Fulfilled _) =>
      ({| mode := mode f; error := "" |},
       navigate "/" (setItem "user" (user_json data)
                             (setItem "token" (access_token data) b1)))
  | (b1, RejectedWith err_response) =>
      ({| mode := mode f; error := error_text err_response |}, b1)
  end.

(** [handleSubmit] in register mode: lines 19-24. *)
Definition submit_register (reply : Reply) (f : Form) (b : Browser)
  : Form * Browser :=
  match request auth_register reply b with
  | (b1, Fulfilled _) => ({| mode := "login"; error := "" |}, b1)
  | (b1, RejectedWith err_response) =>
      ({| mode := mode f; error := error_text err_response |}, b1)
  end.

(** [handleSubmit]: lines 14-34. *)
Definition handleSubmit (reply : Reply) (data : LoginData) (f : Form)
    (b : Browser) : Form * Browser :=
  if String.eqb (mode f) "register" then submit_register reply f b
  else submit_login reply data f b.

(** [handleLogout] of the navigation bar: Navbar.jsx lines 9-13. *)
Definition handleLogout (b : Browser) : Browser :=
  navigate "/login" (removeItem "user" (removeItem "token" b)).

End Session.

(** ** CicdIntegration.jsx: the form and the trigger buttons *)
Module CicdIntegration.

Record IntegrationType : Type := mkType {
  value : string;
  label : string;
  fields : list string
}.

Definition INTEGRATION_TYPES : list IntegrationType :=
  [ {| value := "azure"; label := "Azure DevOps";
       fields := ["org_url"; "project"; "pat"; "pipeline_id"] |};
    {| value := "jenkins"; label := "Jenkins";
       fields := ["url"; "username"; "token"; "default_job"] |};
    {| value := "aws"; label := "AWS CodePipeline";
       fields := ["access_key_id"; "secret_access_key"; "region";
                  "pipeline_name"] |} ].

Definition FIELD_LABELS : gmap string string :=
  list_to_map
    [ ("org_url", "Organization URL"); ("project", "Project Name");
      ("pat", "Personal Access Token"); ("pipeline_id", "Pipeline ID");
      ("url", "Jenkins URL"); ("username", "Username");
      ("token", "API Token"); ("default_job", "Default Job Name");
      ("access_key_id", "AWS Access Key ID");
      ("secret_access_key", "AWS Secret Access Key");
      ("region", "AWS Region"); ("pipeline_name", "Pipeline Name") ].

(** The [form] cell: line 30. *)
Record Form : Type := mkForm {
  name : string;
  type : string;
  config : gmap string string
}.

Definition empty_form : Form :=
  {| name := ""; type := "azure"; config := ∅ |}.

(** [INTEGRATION_TYPES.find((t) => t.value === form.type)]: line 36. *)
Definition selectedType (f : Form) : option IntegrationType :=
  List.find (fun t => String.eqb (value t) (type f)) INTEGRATION_TYPES.

(** [selectedType?.fields]: the inputs the form renders (line 174). *)
Definition rendered_fields (f : Form) : list string :=
  match selectedType f with
  | Some t => fields t
  | None => []
  end.

(** What the user can do to the form. *)
Inductive Edit : Type :=
| SetName (text : string)
| SetType (option_value : string)
| SetField (field text : string)
| Saved
| SaveFailed.

(** The [onChange] handlers of lines 157, 166 and 182-184, and the reset
    of [handleSave] (line 44). *)
Definition edit (e : Edit) (f : Form) : Form :=
  match e with
  | SetName text => {| name := text; type := type f; config := config f |}
  | SetType v => {| name := name f; type := v; config := ∅ |}
  | SetField field text =>
      {| name := name f; type := type f;
         config := <[field := text]> (config f) |}
  | Saved => empty_form
  | SaveFailed => f
  end.

(** An edit the rendered form offers: the type select lists the three
    types, and there is an input per field of the selected type. *)
Definition offered (e : Edit) (f : Form) : Prop :=
  match e with
  | SetType v => In v (map value INTEGRATION_TYPES)
  | SetField field _ => In field (rendered_fields f)
  | _ => True
  end.

(** The forms a user can reach. *)
Inductive reachable : Form -> Prop :=
| reach_empty : reachable empty_form
| reach_edit f e : reachable f -> offered e f -> reachable (edit e f).

(** The [status] cell: the outcome of the last trigger per integration id
    ([None] in the map stands for the [null] stored while the request is
    in flight). *)
Record TriggerStatus : Type := mkStatus { ok : bool; msg : string }.

Inductive TriggerReply : Type :=
| Triggered
| TriggerFailed (detail : option string).

(** [handleTrigger]: lines 59-73; the [status] cell when the request has
    settled. *)
Definition handleTrigger (id : Z) (reply : TriggerReply)
    (status : gmap Z (option TriggerStatus)) : gmap Z (option TriggerStatus) :=
  let pending := <[id := None]> status in
  match reply with
  | Triggered =>
      <[id := Some {| ok := true; msg := "Pipeline triggered successfully!" |}]>
        pending
  | TriggerFailed detail =>
      <[id := Some {| ok := false;
                      msg := Js.or_else detail "Trigger failed" |}]> pending
  end.

End CicdIntegration.

(** ** setup-windows.ps1: the whole script *)
Module SetupScript.
Import PowerShell SetupWindows.

Inductive Package : Type := Python | NodeJS | Java.

(** The directories of step 3, in the script's order. *)
Inductive Dir : Type := UPLOAD_DIR | REPORT_DIR | DC_DATA | DATA_DIR.

(** The checks of step 7, in the script's order. *)
Inductive Check : Type :=
| check_uvicorn
| check_dc_bat
| check_upload_dir
| check_reports_dir
| check_env_file
| check_node_modules.

(** What the machine answers to the script.  [install] holds the answers
    to steps 4 and 5; the answer to a native command is its exit code,
    [None] when running it raised a terminating error. *)
Record Machine : Type := mkMachine {
  install : SetupWindows.World;
  USERPROFILE : string;
  TEMP : string;
  winget_found : bool;
  command_found : Package -> bool;
  version_probe : Package -> option Z;
  winget_install : Package -> option Z;
  version_report : Package -> option Z;
  dcBat_found : bool;
  download_ok : bool;
  expand_ok : bool;
  remove_zip_ok : bool;
  dcBat_extracted : bool;
  dir_exists : Dir -> bool;
  new_item_ok : Dir -> bool;
  env_exists : bool;
  secret_key : option (Z * string);
  anthropic_key : string;
  set_content_ok : bool;
  check_ok : Check -> bool
}.

Definition WingetId (p : Package) : string :=
  match p with
  | Python => "Python.Python.3.12"
  | NodeJS => "OpenJS.NodeJS.LTS"
  | Java => "EclipseAdoptium.Temurin.21.JDK"
  end.

Definition DisplayName (p : Package) : string :=
  match p with
  | Python => "Python 3.12"
  | NodeJS => "Node.js LTS"
  | Java => "Java 21 (Temurin)"
  end.

Definition TestCmd (p : Package) : string :=
  match p with
  | Python => "python"
  | NodeJS => "node"
  | Java => "java"
  end.

Section Script.
Variable m : Machine.

Definition DC_DIR : string := "C:\dependency-check".
Definition dcBat : string := Join_Path DC_DIR "bin\dependency-check.bat".

Definition dir_path (d : Dir) : string :=
  match d with
  | UPLOAD_DIR => Join_Path (USERPROFILE m) "owasp-scanner\uploads"
  | REPORT_DIR => Join_Path (USERPROFILE m) "owasp-scanner\reports"
  | DC_DATA => "C:\dependency-check-data"
  | DATA_DIR => Join_Path (ROOT (install m)) "backend\data"
  end.

(** [Ensure-Package]: lines 27-45 (the version text of the messages is
    left out). *)
Definition Ensure_Package (p : Package) : Run unit :=
  if command_found m p then
    native (TestCmd p) ["--version"] (version_probe m p);;
    Write_OK (DisplayName p +:+ " already installed")
  else
    Write_Info ("Installing " +:+ DisplayName p +:+ " via winget...");;
    code ← native "winget"
             ["install"; "--id"; WingetId p; "--silent";
              "--accept-package-agreements"; "--accept-source-agreements"]
             (winget_install m p);
    when (negb (Z.eqb code 0))
      (Write_Err ("winget install failed for " +:+ DisplayName p
                  +:+ ". Install manually then re-run.");;
       exit 1);;
    Write_OK (DisplayName p +:+ " installed.").

(** Step 1: lines 52-69 (the version texts are left out of the last three
    lines). *)
Definition step1 : Run unit :=
  Write_Step "1" "7" "Checking prerequisites (Python, Node.js, Java)...";;
  when (negb (winget_found m))
    (Write_Err "winget not found. Install 'App Installer' from the Microsoft Store then re-run.";;
     exit 1);;
  Ensure_Package Python;;
  Ensure_Package NodeJS;;
  Ensure_Package Java;;
  native "python" ["--version"] (version_report m Python);;
  native "node" ["--version"] (version_report m NodeJS);;
  native "java" ["-version"] (version_report m Java);;
  Write_OK "Python : ";;
  Write_OK "Node   : ";;
  Write_OK "Java   : ".

Definition dc_zip : string :=
  Join_Path (TEMP m) "dependency-check-10.0.4.zip".

(** Step 2: lines 71-100. *)
Definition step2 : Run unit :=
  Write_Step "2" "7" "Setting up OWASP Dependency Check 10.0.4...";;
  if dcBat_found m then Write_OK ("Already installed at " +:+ DC_DIR)
  else
    Write_Info "Downloading dependency-check-10.0.4-release.zip...";;
    try_catch
      (cmdlet "Invoke-WebRequest"
         ["https://github.com/jeremylong/DependencyCheck/releases/download/v10.0.4/dependency-check-10.0.4-release.zip";
          dc_zip] (download_ok m))
      (Write_Err "Download failed";;
       Write_Err "Download manually from https://github.com/jeremylong/DependencyCheck/releases";;
       Write_Err ("and extract so that " +:+ dcBat +:+ " exists.");;
       exit 1);;
    Write_Info "Extracting to C:\...";;
    cmdlet "Expand-Archive" [dc_zip; "C:\"] (expand_ok m);;
    cmdlet "Remove-Item" [dc_zip] (remove_zip_ok m);;
    when (negb (dcBat_extracted m))
      (Write_Err ("Extraction done but " +:+ dcBat
                  +:+ " not found. Check the archive structure.");;
       exit 1);;
    Write_OK ("OWASP Dependency Check installed at " +:+ DC_DIR).

(** Step 3: lines 102-112. *)
Definition step3 : Run unit :=
  Write_Step "3" "7" "Creating application directories...";;
  foreach [UPLOAD_DIR; REPORT_DIR; DC_DATA; DATA_DIR] (fun d =>
    if negb (dir_exists m d) then
      cmdlet "New-Item" [dir_path d] (new_item_ok m d);;
      Write_OK ("Created : " +:+ dir_path d)
    else Write_OK ("Exists  : " +:+ dir_path d)).

Definition envPath : string := Join_Path (ROOT (install m)) ".env".

(** The lines written to [.env]: lines 178-205. *)
Definition env_lines (secretKey : string) : list string :=
  ["# OWASP Dependency Scanner - Environment (Windows)";
   "# Auto-generated by setup-windows.ps1";
   "";
   "SECRET_KEY=" +:+ secretKey;
   "ACCESS_TOKEN_EXPIRE_MINUTES=60";
   "";
   "DATABASE_URL=sqlite:///./data/app.db";
   "";
   "ANTHROPIC_API_KEY=" +:+ anthropic_key m;
   "";
   "OWASP_DC_PATH=" +:+ DC_DIR +:+ "\bin\dependency-check.bat";
   "OWASP_DC_DATA_DIR=" +:+ dir_path DC_DATA;
   "";
   "UPLOAD_DIR=" +:+ dir_path UPLOAD_DIR;
   "REPORTS_DIR=" +:+ dir_path REPORT_DIR;
   "";
   "AZURE_ORG_URL=";
   "AZURE_PAT=";
   "";
   "JENKINS_URL=";
   "JENKINS_USER=";
   "JENKINS_TOKEN=";
   "";
   "AWS_ACCESS_KEY_ID=";
   "AWS_SECRET_ACCESS_KEY=";
   "AWS_REGION=us-east-1"].

(** Step 6: lines 160-210.  [secret_key m] is the exit code of the key
    generator and what it printed, [None] when it could not be started;
    [Substring(0, 8)] raises on a key shorter than eight characters. *)
Definition step6 : Run unit :=
  Write_Step "6" "7" "Configuring environment file (.env)...";;
  if env_exists m then Write_OK ".env already exists - skipping generation."
  else
    match secret_key m with
    | None =>
        native (venvPy (install m))
               ["-c"; "import secrets; print(secrets.token_hex(32))"] None;;
        mret tt
    | Some (code, secretKey) =>
        native (venvPy (install m))
               ["-c"; "import secrets; print(secrets.token_hex(32))"]
               (Some code);;
        Write_Host "";;
        Write_Host "  Anthropic API key is needed for AI false-positive analysis.";;
        Write_Host "  Get one at: https://console.anthropic.com";;
        Write_Host "  Leave blank to skip AI (can be added later in .env).";;
        Write_Host "";;
        cmdlet "Read-Host" ["  Enter ANTHROPIC_API_KEY"] true;;
        cmdlet "Set-Content" (envPath :: env_lines secretKey)
               (set_content_ok m);;
        Write_OK ".env written with auto-generated SECRET_KEY.";;
        when (Nat.ltb (String.length secretKey) 8)
          (throw "Substring");;
        Write_OK ("SECRET_KEY prefix: " +:+ substring 0 8 secretKey +:+ "...")
    end.

Definition check_label (c : Check) : string :=
  match c with
  | check_uvicorn => "Python venv (uvicorn)"
  | check_dc_bat => "OWASP DC bat"
  | check_upload_dir => "Upload dir"
  | check_reports_dir => "Reports dir"
  | check_env_file => ".env file"
  | check_node_modules => "node_modules"
  end.

Definition checks : list Check :=
  [check_uvicorn; check_dc_bat; check_upload_dir; check_reports_dir;
   check_env_file; check_node_modules].

(** [$allOk] after the loop of lines 227-235. *)
Definition allOk : bool := forallb (check_ok m) checks.

(** Step 7 and the closing banner: lines 212-257. *)
Definition step7 : Run unit :=
  Write_Step "7" "7" "Verifying installation...";;
  foreach checks (fun c =>
    if check_ok m c then Write_OK (check_label c)
    else Write_Err (check_label c +:+ " - NOT FOUND"));;
  Write_Host "";;
  Write_Host "============================================================";;
  (if allOk then
     Write_Host "  Setup complete!";;
     Write_Host "";;
     Write_Host "  Start the app:  start-windows.bat";;
     Write_Host "";;
     Write_Host "  Or manually:";;
     Write_Host "    Terminal 1:  cd backend  && .venv\Scripts\activate && uvicorn app.main:app --reload --port 8000";;
     Write_Host "    Terminal 2:  cd frontend && npm run dev";;
     Write_Host "";;
     Write_Host "  App:       http://localhost:3000";;
     Write_Host "  API docs:  http://localhost:8000/docs"
   else
     Write_Host "  Setup finished with errors - review [!!] messages above.");;
  Write_Host "============================================================";;
  Write_Host "".

(** The banner: lines 46-49. *)
Definition banner : Run unit :=
  Write_Host "";;
  Write_Host "============================================================";;
  Write_Host "  OWASP Dependency Scanner - Automated Windows Setup";;
  Write_Host "============================================================".

(** The script up to its verification step. *)
Definition provision : Run unit :=
  banner;;
  step1;;
  step2;;
  step3;;
  step4 (install m);;
  step5 (install m);;
  step6.

(** The script. *)
Definition setup : Run unit :=
  provision;;
  step7.

End Script.

(** The runs of [winget install --id ...]. *)
Definition is_winget_install (e : Event) : bool :=
  match e with
  | Native _ ("install" :: "--id" :: _) _ => true
  | _ => false
  end.

End SetupScript.

(** ** setup-windows.bat: the launcher *)
Module SetupBat.

Inductive End_ : Type :=
| ExitB (code : Z)
| LastLine.

(** [if errorlevel 1]: the error level is 1 or more. *)
Definition errorlevel_1 (errorlevel : Z) : bool := Z.leb 1 errorlevel.

(** The launcher: [net_session] is the error level after [net session],
    [powershell] the exit code of the setup script (consulted only when the
    script is started).  Returns the lines echoed (blank lines and the
    quotes of the second line left out) and how the batch file ends. *)
Definition launcher (net_session powershell : Z) : list string * End_ :=
  if errorlevel_1 net_session then
    ([" [!] Administrator privileges required.";
      "     Right-click this file and choose Run as administrator."],
     ExitB 1)
  else if errorlevel_1 powershell then
    ([" Setup encountered errors. See messages above."], ExitB 1)
  else ([], LastLine).

End SetupBat.

(** ** build-msi.ps1: the id rewriting of [Heat] *)
Module HeatXml.

(** An element of the harvested fragment. *)
Inductive Node : Type :=
| Element (tag : string) (attrs : list (string * string))
          (children : list Node).

(** [GetAttribute]: the value, the empty string when there is none. *)
Fixpoint GetAttribute (name : string) (attrs : list (string * string))
  : string :=
  match attrs with
  | [] => ""
  | (k, v) :: rest => if String.eqb k name then v else GetAttribute name rest
  end.

(** [SetAttribute]: replaces the value, appends the attribute when there is
    none. *)
Fixpoint SetAttribute (name value : string) (attrs : list (string * string))
  : list (string * string) :=
  match attrs with
  | [] => [(name, value)]
  | (k, v) :: rest =>
      if String.eqb k name then (k, value) :: rest
      else (k, v) :: SetAttribute name value rest
  end.

(** The anchor directories of line 249. *)
Definition anchors : list string :=
  ["INSTALLFOLDER"; "JRE_FOLDER"; "OWASPDC_FOLDER"; "TARGETDIR"].

(** [$id -notin @(...)]: PowerShell compares without regard to case. *)
Definition notin_anchors (id : string) : bool :=
  negb (Js.includes (map Js.toLowerCase anchors) (Js.toLowerCase id)).

(** The body shared by the four loops: lines 239-240. *)
Definition prefix_id (IdPrefix : string) (attrs : list (string * string))
  : list (string * string) :=
  let id := GetAttribute "Id" attrs in
  if negb (String.eqb id "") then SetAttribute "Id" (IdPrefix +:+ id) attrs
  else attrs.

(** What the four loops of lines 238-257 do to the attributes of one
    element, by its tag. *)
Definition rewrite_attrs (IdPrefix tag : string)
    (attrs : list (string * string)) : list (string * string) :=
  if String.eqb tag "Component" || String.eqb tag "File"
     || String.eqb tag "ComponentRef"
  then prefix_id IdPrefix attrs
  else if String.eqb tag "Directory"
  then if notin_anchors (GetAttribute "Id" attrs)
       then prefix_id IdPrefix attrs else attrs
  else attrs.

(** The document after the loops. *)
Fixpoint rewrite (IdPrefix : string) (n : Node) : Node :=
  match n with
  | Element tag attrs children =>
      Element tag (rewrite_attrs IdPrefix tag attrs)
              (map (rewrite IdPrefix) children)
  end.

(** The elements of a document, in document order. *)
Fixpoint elements (n : Node) : list (string * list (string * string)) :=
  match n with
  | Element tag attrs children =>
      (tag, attrs) :: flat_map elements children
  end.

(** The ids of [GetElementsByTagName(tag)]. *)
Definition ids (tag : string) (n : Node) : list string :=
  map (fun e => GetAttribute "Id" (snd e))
      (List.filter (fun e => String.eqb (fst e) tag) (elements n)).

(** What the rewriting makes of an id. *)
Definition prefixed (IdPrefix id : string) : string :=
  if String.eqb id "" then "" else IdPrefix +:+ id.

End HeatXml.

(** ** build-msi.ps1: the command lines of the packaging steps *)
Module BuildMsiEvents.
Import PowerShell BuildMsi.

(** The arguments [compile] passes to [candle.exe]. *)
Definition candle_args (w : World) (p : Params) : list string :=
  ["-nologo"; "-arch"; "x64";
   "-dVersion=" +:+ Version p;
   "-dAppSourceDir=" +:+ PyDistDir w;
   "-dJRESourceDir=" +:+ JREDir w;
   "-dOWASPDCSourceDir=" +:+ OWASPDCDir w;
   "-ext"; "WixUtilExtension";
   "-out"; InstallerDir w +:+ "\"] ++ WxsSources w.

(** The component group each harvest fills. *)
Definition CgId (h : Harvest) : string :=
  match h with
  | AppFiles => "AppFileComponents"
  | JREFiles => "JREComponents"
  | OWASPDCFiles => "OWASPDCComponents"
  end.

(** The id prefix of each harvest: lines 262-264. *)
Definition IdPrefix (h : Harvest) : string :=
  match h with
  | AppFiles => "App_"
  | JREFiles => "JRE_"
  | OWASPDCFiles => "DC_"
  end.

(** A run of [heat.exe] for the harvest [h] that exited with [code]. *)
Definition is_heat_run (h : Harvest) (code : Z) (e : Event) : bool :=
  match e with
  | Native _ ("dir" :: _ :: "-nologo" :: "-gg" :: "-sfrag" :: "-sreg"
                    :: "-srd" :: "-cg" :: cg :: _) (Some c) =>
      String.eqb cg (CgId h) && Z.eqb c code
  | _ => false
  end.

(** The line that announces the MSI: line 305. *)
Definition is_success_line (e : Event) : bool :=
  match e with
  | Host msg => String.eqb msg "  MSI built successfully!"
  | _ => false
  end.

End BuildMsiEvents.

(** ** The operations of the scripts and of the frontend that can fail *)
Module Operations.
Import PowerShell.

(** How many events of a run [sel] selects. *)
Definition started {A : Type} (sel : Event -> bool) (r : Run A) : nat :=
  length (List.filter sel (trace r)).

Definition at_most {A : Type} (sel : Event -> bool) (n : nat) (r : Run A)
  : Prop :=
  started sel r <= n.

(** [args] begins with [prefix]. *)
Fixpoint begins (prefix args : list string) : bool :=
  match prefix, args with
  | [], _ => true
  | p :: prefix', a :: args' => String.eqb p a && begins prefix' args'
  | _ :: _, [] => false
  end.

(** The commands of setup-windows.ps1 that install, download or extract:
    lines 35, 83, 92, 123, 130, 133 and 136, 150. *)
Inductive SetupOp : Type :=
| op_winget (p : SetupScript.Package)
| op_download
| op_expand
| op_venv
| op_pip_upgrade
| op_pip_install
| op_npm_install.

(** The events that start the operation, told by their arguments. *)
Definition setup_runs (op : SetupOp) (e : Event) : bool :=
  match e with
  | Native _ args _ =>
      match op with
      | op_winget p =>
          begins ["install"; "--id"; SetupScript.WingetId p] args
      | op_venv => begins ["-m"; "venv"] args
      | op_pip_upgrade => begins ["install"; "--upgrade"; "pip"] args
      | op_pip_install => begins ["install"; "-r"] args
      | op_npm_install => begins ["install"] args && Nat.eqb (length args) 1
      | _ => false
      end
  | Cmdlet name _ _ =>
      match op with
      | op_download => String.eqb name "Invoke-WebRequest"
      | op_expand => String.eqb name "Expand-Archive"
      | _ => false
      end
  | Host _ => false
  end.

(** How often a run of the setup script may start an operation. *)
Definition setup_bound (op : SetupOp) : nat :=
  match op with
  | op_pip_install => 2
  | _ => 1
  end.

(** The downloads and the external commands of build-msi.ps1: lines 56,
    134, 142, 146, 151, 159, 161, 178, 228, 276 and 293. *)
Inductive BuildOp : Type :=
| b_download (a : BuildMsi.Asset)
| b_venv
| b_pip_upgrade
| b_pip_pyinstaller
| b_pip_requirements
| b_npm_install
| b_npm_build
| b_pyinstaller
| b_heat (h : BuildMsi.Harvest)
| b_candle
| b_light.

Definition build_runs (op : BuildOp) (e : Event) : bool :=
  match e with
  | Native _ args _ =>
      match op with
      | b_venv => begins ["-m"; "venv"] args
      | b_pip_upgrade => begins ["-m"; "pip"; "install"; "--upgrade"] args
      | b_pip_pyinstaller =>
          begins ["-m"; "pip"; "install"; "pyinstaller"] args
      | b_pip_requirements => begins ["-m"; "pip"; "install"; "-r"] args
      | b_npm_install => begins ["install"; "--silent"] args
      | b_npm_build => begins ["run"; "build"] args
      | b_pyinstaller => begins ["owasp-scanner.spec"] args
      | b_heat h =>
          begins ["dir"] args
          && begins ["-nologo"; "-gg"; "-sfrag"; "-sreg"; "-srd"; "-cg";
                     BuildMsiEvents.CgId h] (tl (tl args))
      | b_candle => begins ["-nologo"; "-arch"] args
      | b_light => begins ["-nologo"; "-ext"; "WixUIExtension"] args
      | b_download _ => false
      end
  | Cmdlet name args _ =>
      match op with
      | b_download a =>
          String.eqb name "Invoke-WebRequest" && begins [BuildMsi.url a] args
      | _ => false
      end
  | Host _ => false
  end.

(** The requests among the effects of a handler of ScanResults.jsx. *)
Definition requests (effects : list ScanResults.Effect) : list Api.Call :=
  omap (fun e => match e with
                 | ScanResults.Send c => Some c
                 | ScanResults.Refresh => None
                 end) effects.

(** The uploads among the effects of a handler of FileUpload.jsx. *)
Definition uploads (effects : list FileUpload.Effect)
  : list FileUpload.File :=
  omap FileUploadUI.posted effects.

End Operations.

(** ** Sample inputs *)
Module Samples.

Definition expired_session : Api.Response :=
  {| Api.status := 401; Api.detail := Some "Could not validate credentials" |}.

Definition logged_in : Api.Browser :=
  {| Api.localStorage := <["user" := "{}"]> ∅;
     Api.location_href := "/results/3" |}.

(** The answer to a request the backend carried out. *)
Definition ok_200 : Api.Response :=
  {| Api.status := 200; Api.detail := None |}.

Definition never_analyzed : Rows.Vulnerability :=
  {| Rows.id := 7; Rows.severity := "HIGH"; Rows.is_suppressed := false;
     Rows.ai_is_false_positive := Js.null |}.

Definition one_finding : Rows.Scan :=
  {| Rows.scan_id := 1; Rows.status := "completed";
     Rows.error_message := None; Rows.total_vulnerabilities := 1;
     Rows.vulnerabilities := Some [never_analyzed] |}.

(** A failed scan whose persisted message is the empty string. *)
Definition empty_message_row : Backend.Row :=
  {| Backend.row_status := Backend.failed;
     Backend.row_error_message := Some "" |}.

Definition failed_row : Backend.Row :=
  {| Backend.row_status := Backend.failed;
     Backend.row_error_message :=
       Some "Dependency Check exited with code 13" |}.

(** A file whose name has no dot. *)
Definition dotless_jar : FileUpload.File :=
  {| FileUpload.name := "jar"; FileUpload.size := 1024 |}.

(** Scan 1 in a given status. *)
Definition scan_1 (status : string) : Rows.Scan :=
  {| Rows.scan_id := 1; Rows.status := status; Rows.error_message := None;
     Rows.total_vulnerabilities := 0; Rows.vulnerabilities := None |}.

(** A dashboard session: the first fetch and the one the re-run effect
    sends both find scan 1 running; a tick; scan 1 is completed when that
    fetch returns; two more ticks. *)
Definition scan_completes : list DashboardPage.Event :=
  [DashboardPage.Resolved [scan_1 "running"];
   DashboardPage.Resolved [scan_1 "running"];
   DashboardPage.Tick;
   DashboardPage.Resolved [scan_1 "completed"];
   DashboardPage.Tick;
   DashboardPage.Tick].

(** A machine on which building the wheels from source fails and the
    prebuilt wheels install. *)
Definition wheel_build_fails : SetupWindows.World :=
  {| SetupWindows.ROOT := "C:\owasp-scanner";
     SetupWindows.venvPy_exists := true;
     SetupWindows.python_venv := Some 0%Z;
     SetupWindows.pip_upgrade := Some 0%Z;
     SetupWindows.pip_install := Some 1%Z;
     SetupWindows.pip_install_only_binary := Some 0%Z;
     SetupWindows.push_location := true;
     SetupWindows.npm_install := Some 0%Z |}.

(** A build machine without WiX on its PATH and without earlier build
    output, on which every download and every command succeeds. *)
Definition build_machine : BuildMsi.World :=
  {| BuildMsi.PSScriptRoot := "C:\src\owasp-scanner";
     BuildMsi.Get_Command := fun name =>
       if Js.includes ["python"; "node"; "npm"] name
       then Some ("C:\tools\" +:+ name) else None;
     BuildMsi.Test_Path := fun site =>
       match site with
       | BuildMsi.wix_exe _ | BuildMsi.owaspdc_dir_extracted => true
       | _ => false
       end;
     BuildMsi.exit_code_of := fun _ => Some 0%Z;
     BuildMsi.succeeds := fun _ => true;
     BuildMsi.jre_extracted :=
       Some "C:\src\owasp-scanner\installer\_jre_tmp\jdk-21.0.5+11-jre";
     BuildMsi.wixobj_files :=
       ["C:\src\owasp-scanner\installer\owasp-scanner.wixobj";
        "C:\src\owasp-scanner\installer\AppFiles.wixobj";
        "C:\src\owasp-scanner\installer\JREFiles.wixobj";
        "C:\src\owasp-scanner\installer\OWASPDCFiles.wixobj"];
     BuildMsi.msi_size := "212.4" |}.

(** [.\build-msi.ps1 -SkipFrontendBuild]. *)
Definition skip_frontend_build_only : BuildMsi.Params :=
  {| BuildMsi.SkipFrontendBuild := true; BuildMsi.SkipPyInstaller := false;
     BuildMsi.SkipDownloads := false; BuildMsi.Version := "1.0.0" |}.

End Samples.
Import Samples.

(** ** More sample inputs *)
Module MoreSamples.

Definition finding (id : Z) (severity : string) (suppressed : bool)
    (fp : Js.OptBool) : Rows.Vulnerability :=
  {| Rows.id := id; Rows.severity := severity;
     Rows.is_suppressed := suppressed; Rows.ai_is_false_positive := fp |}.

(** A completed scan with five findings: two judged false positives (one of
    them suppressed), two confirmed, one never analyzed. *)
Definition mixed_scan : Rows.Scan :=
  {| Rows.scan_id := 7; Rows.status := "completed";
     Rows.error_message := None; Rows.total_vulnerabilities := 5;
     Rows.vulnerabilities :=
       Some [finding 1 "LOW" false (Js.boolean true);
             finding 2 "CRITICAL" false (Js.boolean false);
             finding 3 "HIGH" true (Js.boolean true);
             finding 4 "CRITICAL" false Js.null;
             finding 5 "NONE" false (Js.boolean false)] |}.

(** The results list with "show suppressed" ticked. *)
Definition showing_suppressed : ScanResults.State :=
  ScanResultsUI.setShowSuppressed true ScanResults.initial.

(** A machine on which everything is installed already and every step of
    the setup works, but [frontend\node_modules] is not there when the
    script verifies the installation. *)
Definition node_modules_missing : SetupScript.Machine :=
  {| SetupScript.install :=
       {| SetupWindows.ROOT := "C:\owasp-scanner";
          SetupWindows.venvPy_exists := true;
          SetupWindows.python_venv := Some 0%Z;
          SetupWindows.pip_upgrade := Some 0%Z;
          SetupWindows.pip_install := Some 0%Z;
          SetupWindows.pip_install_only_binary := Some 0%Z;
          SetupWindows.push_location := true;
          SetupWindows.npm_install := Some 0%Z |};
     SetupScript.USERPROFILE := "C:\Users\dev";
     SetupScript.TEMP := "C:\Temp";
     SetupScript.winget_found := true;
     SetupScript.command_found := fun _ => true;
     SetupScript.version_probe := fun _ => Some 0%Z;
     SetupScript.winget_install := fun _ => Some 0%Z;
     SetupScript.version_report := fun _ => Some 0%Z;
     SetupScript.dcBat_found := true;
     SetupScript.download_ok := true;
     SetupScript.expand_ok := true;
     SetupScript.remove_zip_ok := true;
     SetupScript.dcBat_extracted := true;
     SetupScript.dir_exists := fun _ => true;
     SetupScript.new_item_ok := fun _ => true;
     SetupScript.env_exists := true;
     SetupScript.secret_key := Some (0%Z, "0123456789abcdef");
     SetupScript.anthropic_key := "";
     SetupScript.set_content_ok := true;
     SetupScript.check_ok :=
       fun c => match c with
                | SetupScript.check_node_modules => false
                | _ => true
                end |}.

(** A machine with nothing installed, on which every step works and the
    wheels install at the second attempt. *)
Definition fresh_machine : SetupScript.Machine :=
  {| SetupScript.install :=
       {| SetupWindows.ROOT := "C:\owasp-scanner";
          SetupWindows.venvPy_exists := false;
          SetupWindows.python_venv := Some 0%Z;
          SetupWindows.pip_upgrade := Some 0%Z;
          SetupWindows.pip_install := Some 1%Z;
          SetupWindows.pip_install_only_binary := Some 0%Z;
          SetupWindows.push_location := true;
          SetupWindows.npm_install := Some 0%Z |};
     SetupScript.USERPROFILE := "C:\Users\dev";
     SetupScript.TEMP := "C:\Temp";
     SetupScript.winget_found := true;
     SetupScript.command_found := fun _ => false;
     SetupScript.version_probe := fun _ => Some 0%Z;
     SetupScript.winget_install := fun _ => Some 0%Z;
     SetupScript.version_report := fun _ => Some 0%Z;
     SetupScript.dcBat_found := false;
     SetupScript.download_ok := true;
     SetupScript.expand_ok := true;
     SetupScript.remove_zip_ok := true;
     SetupScript.dcBat_extracted := true;
     SetupScript.dir_exists := fun _ => false;
     SetupScript.new_item_ok := fun _ => true;
     SetupScript.env_exists := false;
     SetupScript.secret_key := Some (0%Z, "0123456789abcdef");
     SetupScript.anthropic_key := "";
     SetupScript.set_content_ok := true;
     SetupScript.check_ok := fun _ => true |}.

(** A machine on which creating the virtual environment and upgrading pip
    exit with an error code, and the packages install. *)
Definition venv_creation_fails : SetupWindows.World :=
  {| SetupWindows.ROOT := "C:\owasp-scanner";
     SetupWindows.venvPy_exists := false;
     SetupWindows.python_venv := Some 1%Z;
     SetupWindows.pip_upgrade := Some 2%Z;
     SetupWindows.pip_install := Some 0%Z;
     SetupWindows.pip_install_only_binary := Some 0%Z;
     SetupWindows.push_location := true;
     SetupWindows.npm_install := Some 0%Z |}.

(** The build machine after a first build: the three archives are in the
    cache. *)
Definition warm_cache : BuildMsi.World :=
  {| BuildMsi.PSScriptRoot := BuildMsi.PSScriptRoot build_machine;
     BuildMsi.Get_Command := BuildMsi.Get_Command build_machine;
     BuildMsi.Test_Path := fun site =>
       match site with
       | BuildMsi.cached _ => true
       | _ => BuildMsi.Test_Path build_machine site
       end;
     BuildMsi.exit_code_of := BuildMsi.exit_code_of build_machine;
     BuildMsi.succeeds := BuildMsi.succeeds build_machine;
     BuildMsi.jre_extracted := BuildMsi.jre_extracted build_machine;
     BuildMsi.wixobj_files := BuildMsi.wixobj_files build_machine;
     BuildMsi.msi_size := BuildMsi.msi_size build_machine |}.

(** What [heat.exe] writes for a directory that holds one DLL. *)
Definition harvested_fragment : HeatXml.Node :=
  HeatXml.Element "Wix" []
    [HeatXml.Element "Fragment" []
       [HeatXml.Element "DirectoryRef" [("Id", "INSTALLFOLDER")]
          [HeatXml.Element "Component"
             [("Id", "cmp1"); ("Guid", "{0A1B}")]
             [HeatXml.Element "File"
                [("Id", "vcruntime140.dll"); ("KeyPath", "yes");
                 ("Source", "$(var.AppSourceDir)\vcruntime140.dll")] []]];
        HeatXml.Element "ComponentGroup" [("Id", "AppFileComponents")]
          [HeatXml.Element "ComponentRef" [("Id", "cmp1")] []]]].

End MoreSamples.
Import MoreSamples.

(* ====================================================================== *)
(** * Part II: properties                                                  *)
(* ====================================================================== *)

(** ** The false-positive filter of the results list *)
Section FalsePositiveFilter.
Import Rows ScanResults.

Lemma insert_sorted_In (v x : Vulnerability) (l : list Vulnerability) :
  In x (insert_sorted v l) <-> x = v \/ In x l.
Proof.
  induction l as [|y l IH]; simpl.
  - intuition congruence.
  - destruct (Z.leb (rank v) (rank y)); simpl.
    + intuition congruence.
    + rewrite IH. intuition congruence.
Qed.

(** Sorting shows exactly the vulnerabilities that passed the filter. *)
Lemma sort_by_severity_In (x : Vulnerability) (l : list Vulnerability) :
  In x (sort_by_severity l) <-> In x l.
Proof.
  induction l as [|y l IH]; simpl; [tauto|].
  rewrite insert_sorted_In, IH. intuition congruence.
Qed.

Lemma sorted_In (st : State) (scan : Scan) (v : Vulnerability) :
  In v (sorted st scan) <-> In v (vulns scan) /\ keeps st v = true.
Proof.
  unfold sorted, filtered. rewrite sort_by_severity_In. apply filter_In.
Qed.

(** An unanalyzed vulnerability fails both non-trivial settings of the
    filter, whatever the other controls say. *)
Lemma unanalyzed_fails_FP (st : State) (v : Vulnerability) :
  unanalyzed v = true -> keeps (setFilterFP "FP" st) v = false.
Proof.
  unfold unanalyzed, keeps. simpl.
  destruct (ai_is_false_positive v); try discriminate; intros _; simpl;
    repeat (match goal with |- context [if ?b then _ else _] => destruct b end);
    reflexivity.
Qed.

Lemma unanalyzed_fails_REAL (st : State) (v : Vulnerability) :
  unanalyzed v = true -> keeps (setFilterFP "REAL" st) v = false.
Proof.
  unfold unanalyzed, keeps. simpl.
  destruct (ai_is_false_positive v); try discriminate; intros _; simpl;
    repeat (match goal with |- context [if ?b then _ else _] => destruct b end);
    reflexivity.
Qed.

(** Under "All Results" only the suppression and severity controls count. *)
Lemma keeps_ALL (st : State) (v : Vulnerability) :
  (showSuppressed st = true \/ is_suppressed v = false) ->
  (filterSeverity st = "ALL" \/ severity v = filterSeverity st) ->
  keeps (setFilterFP "ALL" st) v = true.
Proof.
  intros Hs Hv. unfold keeps. simpl.
  assert (negb (showSuppressed st) && is_suppressed v = false) as ->.
  { destruct Hs as [-> | ->]; [reflexivity | apply andb_false_r]. }
  assert (negb (String.eqb (filterSeverity st) "ALL")
          && negb (String.eqb (severity v) (filterSeverity st)) = false) as ->.
  { destruct Hv as [-> | ->]; [reflexivity|].
    rewrite String.eqb_refl. apply andb_false_r. }
  reflexivity.
Qed.

(** C9.  A vulnerability whose [ai_is_false_positive] is [null] or
    [undefined], and which the suppression and severity controls let
    through, is shown under "All Results" and is shown neither under "False
    Positives Only" nor under "Confirmed Risks Only": the two filters do not
    partition the visible list. *)
Theorem unanalyzed_shown_only_under_ALL :
  forall (st : State) (scan : Scan) (v : Vulnerability),
    In v (vulns scan) ->
    unanalyzed v = true ->
    (showSuppressed st = true \/ is_suppressed v = false) ->
    (filterSeverity st = "ALL" \/ severity v = filterSeverity st) ->
    In v (sorted (setFilterFP "ALL" st) scan)
    /\ ~ In v (sorted (setFilterFP "FP" st) scan)
    /\ ~ In v (sorted (setFilterFP "REAL" st) scan).
Proof.
  intros st scan v Hin Hun Hs Hv. repeat split.
  - apply sorted_In. split; [exact Hin | now apply keeps_ALL].
  - rewrite sorted_In. intros [_ Hk].
    rewrite (unanalyzed_fails_FP st v Hun) in Hk. discriminate.
  - rewrite sorted_In. intros [_ Hk].
    rewrite (unanalyzed_fails_REAL st v Hun) in Hk. discriminate.
Qed.

Lemma unanalyzed_shown_only_under_ALL_witness :
  In never_analyzed (sorted (setFilterFP "ALL" initial) one_finding)
  /\ ~ In never_analyzed (sorted (setFilterFP "FP" initial) one_finding)
  /\ ~ In never_analyzed (sorted (setFilterFP "REAL" initial) one_finding).
Proof.
  apply (unanalyzed_shown_only_under_ALL initial one_finding never_analyzed).
  - simpl. left. reflexivity.
  - reflexivity.
  - right. reflexivity.
  - left. reflexivity.
Defined.

(** An analyzed vulnerability is on exactly one side. *)
Lemma analyzed_on_one_side (st : State) (v : Vulnerability) :
  unanalyzed v = false ->
  keeps (setFilterFP "ALL" st) v = true ->
  keeps (setFilterFP "FP" st) v = negb (keeps (setFilterFP "REAL" st) v).
Proof.
  unfold unanalyzed, keeps. simpl.
  destruct (ai_is_false_positive v) as [| |[|]]; try discriminate;
    intros _; simpl;
    repeat (match goal with |- context [if ?b then _ else _] => destruct b end);
    simpl; congruence.
Qed.

End FalsePositiveFilter.

(** ** The 401 interceptor of the API client *)
Section Unauthorized.
Import Api.

Lemma validateStatus_401 : validateStatus 401 = false.
Proof. reflexivity. Qed.

(** After the handler ran on a 401, the stored user is gone and the browser
    is sent to the login page. *)
Lemma onRejected_401 (r : Response) (b : Browser) :
  status r = 401%Z ->
  onRejected (Some r) b
  = {| localStorage := delete "user" (localStorage b);
       location_href := "/login" |}.
Proof. intros H. unfold onRejected. rewrite H. reflexivity. Qed.

(** Without the stored user every route ends on the login page. *)
Lemma logged_out_routes (b : Browser) (route : Route) :
  localStorage b !! "user" = None ->
  render route b = LoginPage \/ render route b = NavigateTo "/login".
Proof.
  intros H. destruct route; simpl; [now left | ..];
    unfold ProtectedRoute; rewrite H; simpl; now right.
Qed.

(** C10.  Whatever function of the API client sent the request, a response
    with HTTP status 401 makes the interceptor remove [user] from
    localStorage and point the browser at [/login] (the promise is still
    rejected with the same response); from then on every route renders the
    login page or a redirect to it. *)
Theorem unauthorized_response_logs_out :
  forall (c : Call) (r : Response) (b : Browser),
    status r = 401%Z ->
    localStorage (fst (request c (GotResponse r) b)) !! "user" = None
    /\ location_href (fst (request c (GotResponse r) b)) = "/login"
    /\ snd (request c (GotResponse r) b) = RejectedWith (Some r)
    /\ forall route : Route,
         render route (fst (request c (GotResponse r) b)) = LoginPage
         \/ render route (fst (request c (GotResponse r) b))
            = NavigateTo "/login".
Proof.
  intros c r b H.
  assert (request c (GotResponse r) b
          = ({| localStorage := delete "user" (localStorage b);
                location_href := "/login" |}, RejectedWith (Some r))) as ->.
  { unfold request. rewrite H, validateStatus_401.
    now rewrite onRejected_401. }
  simpl. repeat split.
  - apply lookup_delete_eq.
  - intros route. apply logged_out_routes. simpl. apply lookup_delete_eq.
Qed.

Lemma unauthorized_response_logs_out_witness :
  localStorage (fst (request (scans_get 3) (GotResponse expired_session)
                             logged_in)) !! "user" = None
  /\ location_href (fst (request (scans_get 3) (GotResponse expired_session)
                                 logged_in)) = "/login"
  /\ snd (request (scans_get 3) (GotResponse expired_session) logged_in)
     = RejectedWith (Some expired_session)
  /\ forall route : Route,
       render route (fst (request (scans_get 3) (GotResponse expired_session)
                                  logged_in)) = LoginPage
       \/ render route (fst (request (scans_get 3)
                                     (GotResponse expired_session) logged_in))
          = NavigateTo "/login".
Proof.
  apply (unauthorized_response_logs_out (scans_get 3) expired_session logged_in).
  reflexivity.
Defined.

(** Other failures leave the session alone. *)
Lemma other_errors_keep_session (c : Call) (reply : Reply) (b : Browser) :
  (forall r, reply = GotResponse r -> status r <> 401%Z) ->
  fst (request c reply b) = b.
Proof.
  intros H. unfold request. destruct reply as [r|]; simpl; [|reflexivity].
  destruct (validateStatus (status r)); simpl; [reflexivity|].
  destruct (Z.eqb_spec (status r) 401); [|reflexivity].
  exfalso. now apply (H r).
Qed.

End Unauthorized.

(** ** Suppressing a vulnerability *)
Section Suppress.
Import Rows.

Lemma toggle_suppressed_involutive (v : Vulnerability) :
  Backend.toggle_suppressed (Backend.toggle_suppressed v) = v.
Proof.
  destruct v as [i sev sup ai]. unfold Backend.toggle_suppressed. simpl.
  now rewrite negb_involutive.
Qed.

Lemma suppress_twice (vulnId : Z) (vs : list Vulnerability) :
  Backend.suppress vulnId (Backend.suppress vulnId vs) = vs.
Proof.
  unfold Backend.suppress. rewrite map_map.
  induction vs as [|v vs IH]; simpl; [reflexivity|]. f_equal; [|exact IH].
  destruct (Z.eqb (id v) vulnId) eqn:E; simpl; rewrite E.
  - apply toggle_suppressed_involutive.
  - reflexivity.
Qed.

Lemma suppress_lookup (vulnId : Z) (vs : list Vulnerability) (i : nat)
      (v : Vulnerability) :
  vs !! i = Some v ->
  Backend.suppress vulnId vs !! i
  = Some (if Z.eqb (id v) vulnId then Backend.toggle_suppressed v else v).
Proof.
  intros H. unfold Backend.suppress. rewrite list_lookup_fmap, H.
  reflexivity.
Qed.

(** What a click does when the PATCH is answered with a success status. *)
Lemma handleSuppress_fulfilled (r : Api.Response) (scan : Scan) (vulnId : Z)
      (b : Api.Browser) :
  Api.validateStatus (Api.status r) = true ->
  ScanResults.handleSuppress (Api.GotResponse r) scan vulnId b
  = (b, [ScanResults.Send (Api.scans_suppress (scan_id scan) vulnId);
         ScanResults.Refresh]).
Proof.
  intros H. unfold ScanResults.handleSuppress, Api.request.
  now rewrite H.
Qed.

Lemma after_click_fulfilled (r : Api.Response) (scan : Scan) (vulnId : Z)
      (b : Api.Browser) (vs : list Vulnerability) :
  Api.validateStatus (Api.status r) = true ->
  Backend.after_click (Api.GotResponse r) scan vulnId b vs
  = Backend.suppress vulnId vs.
Proof.
  intros H. unfold Backend.after_click.
  rewrite (handleSuppress_fulfilled r scan vulnId b H). simpl.
  now rewrite H.
Qed.

(** C4.  One click on a card's suppress button sends one body-less PATCH
    for that vulnerability and, when it is answered with a success status,
    refreshes the scan.  Handling the request flips [is_suppressed] of the
    vulnerability with that id and changes none of its other fields, leaves
    every other vulnerability of the scan as it was, and handling a second
    click restores every vulnerability of the scan. *)
Theorem suppress_toggles_single_flag :
  forall (r : Api.Response) (scan : Scan) (vulnId : Z) (b : Api.Browser)
         (vs : list Vulnerability),
    Api.validateStatus (Api.status r) = true ->
    snd (ScanResults.handleSuppress (Api.GotResponse r) scan vulnId b)
    = [ScanResults.Send (Api.scans_suppress (scan_id scan) vulnId);
       ScanResults.Refresh]
    /\ Api.has_body (Api.scans_suppress (scan_id scan) vulnId) = false
    /\ length (Backend.after_click (Api.GotResponse r) scan vulnId b vs)
       = length vs
    /\ (forall (i : nat) (v : Vulnerability),
          vs !! i = Some v ->
          exists v' : Vulnerability,
            Backend.after_click (Api.GotResponse r) scan vulnId b vs !! i
            = Some v'
            /\ is_suppressed v'
               = (if Z.eqb (id v) vulnId then negb (is_suppressed v)
                  else is_suppressed v)
            /\ id v' = id v
            /\ severity v' = severity v
            /\ ai_is_false_positive v' = ai_is_false_positive v)
    /\ Backend.after_click (Api.GotResponse r) scan vulnId b
         (Backend.after_click (Api.GotResponse r) scan vulnId b vs)
       = vs.
Proof.
  intros r scan vulnId b vs H.
  rewrite !(after_click_fulfilled r scan vulnId b _ H).
  rewrite (handleSuppress_fulfilled r scan vulnId b H).
  split; [reflexivity|]. split; [reflexivity|]. split; [|split].
  - unfold Backend.suppress. apply length_map.
  - intros i v Hv. rewrite (suppress_lookup vulnId vs i v Hv).
    eexists. split; [reflexivity|].
    destruct (Z.eqb (id v) vulnId); repeat split.
  - apply suppress_twice.
Qed.

Lemma suppress_toggles_single_flag_witness :
  snd (ScanResults.handleSuppress (Api.GotResponse ok_200) one_finding 7
                                  logged_in)
  = [ScanResults.Send (Api.scans_suppress (scan_id one_finding) 7);
     ScanResults.Refresh]
  /\ Api.has_body (Api.scans_suppress (scan_id one_finding) 7) = false
  /\ length (Backend.after_click (Api.GotResponse ok_200) one_finding 7
                                 logged_in [never_analyzed])
     = length [never_analyzed]
  /\ (forall (i : nat) (v : Vulnerability),
        [never_analyzed] !! i = Some v ->
        exists v' : Vulnerability,
          Backend.after_click (Api.GotResponse ok_200) one_finding 7
                              logged_in [never_analyzed] !! i
          = Some v'
          /\ is_suppressed v'
             = (if Z.eqb (id v) 7 then negb (is_suppressed v)
                else is_suppressed v)
          /\ id v' = id v
          /\ severity v' = severity v
          /\ ai_is_false_positive v' = ai_is_false_positive v)
  /\ Backend.after_click (Api.GotResponse ok_200) one_finding 7 logged_in
       (Backend.after_click (Api.GotResponse ok_200) one_finding 7
                            logged_in [never_analyzed])
     = [never_analyzed].
Proof.
  apply (suppress_toggles_single_flag ok_200 one_finding 7 logged_in
           [never_analyzed]).
  reflexivity.
Defined.

(** A click whose PATCH is rejected, or gets no answer, sends the same
    request, changes no vulnerability and does not refresh the scan. *)
Lemma rejected_suppress_changes_nothing (reply : Api.Reply) (scan : Scan)
      (vulnId : Z) (b : Api.Browser) (vs : list Vulnerability) :
  Backend.carried_out reply = false ->
  snd (ScanResults.handleSuppress reply scan vulnId b)
  = [ScanResults.Send (Api.scans_suppress (scan_id scan) vulnId)]
  /\ Backend.after_click reply scan vulnId b vs = vs.
Proof.
  intros H. unfold Backend.after_click, ScanResults.handleSuppress,
    Api.request.
  destruct reply as [r|]; simpl in H |- *.
  - rewrite H. simpl. rewrite H. now split.
  - now split.
Qed.

End Suppress.

(** ** The life cycle of a scan row *)
Section LifeCycle.
Import Backend.

Lemma transition_progress (s s' : ScanStatus) :
  transition s s' -> progress s < progress s'.
Proof. destruct 1; simpl; lia. Qed.

Lemma terminal_no_transition (s s' : ScanStatus) :
  terminal s = true -> ~ transition s s'.
Proof. intros Ht Hs. destruct Hs; discriminate. Qed.

Lemma transitions_progress (s s' : ScanStatus) :
  transitions s s' -> progress s <= progress s'.
Proof.
  induction 1 as [s | s1 s2 s3 H12 _ IH]; [lia|].
  apply transition_progress in H12. lia.
Qed.

Lemma terminal_stays (s s' : ScanStatus) :
  transitions s s' -> terminal s = true -> s' = s.
Proof.
  induction 1 as [s | s1 s2 s3 H12 _ _]; intros Ht; [reflexivity|].
  exfalso. exact (terminal_no_transition _ _ Ht H12).
Qed.

(** C1.  Along any sequence of status changes of a scan the status never
    moves backward (its place in pending, running, {completed, failed} never
    decreases, and strictly increases when the status changed), and once it
    is completed or failed it never changes again. *)
Theorem status_only_moves_forward :
  forall s s' : ScanStatus,
    transitions s s' ->
    progress s <= progress s'
    /\ (s' <> s -> progress s < progress s')
    /\ (terminal s = true -> s' = s)
    /\ ~ (s = running /\ s' = pending)
    /\ ~ (s = completed /\ s' = running).
Proof.
  intros s s' H. pose proof (transitions_progress _ _ H) as Hle.
  repeat split.
  - exact Hle.
  - intros Hne. destruct H as [s | s1 s2 s3 H12 H23]; [congruence|].
    apply transition_progress in H12. apply transitions_progress in H23. lia.
  - now apply terminal_stays.
  - intros [-> ->]. simpl in Hle. lia.
  - intros [-> ->]. simpl in Hle. lia.
Qed.

Lemma status_only_moves_forward_witness :
  progress pending <= progress completed
  /\ (completed <> pending -> progress pending < progress completed)
  /\ (terminal pending = true -> completed = pending)
  /\ ~ (pending = running /\ completed = pending)
  /\ ~ (pending = completed /\ completed = running).
Proof.
  apply (status_only_moves_forward pending completed).
  apply (move pending running completed start_scan).
  apply (move running completed completed finish_scan).
  apply no_move.
Defined.

(** The results page labels the four statuses and keeps polling exactly
    while the status it was sent can still change. *)
Lemma page_knows_every_status (id : Z) (r : Row) :
  exists label : string,
    ResultsPage.STATUS_MAP (Rows.status (to_json id r))
    = ResultsPage.entry label.
Proof. simpl. destruct (row_status r); eexists; reflexivity. Qed.

Lemma page_polls_until_terminal (id : Z) (r : Row) (st : ResultsPage.State) :
  ResultsPage.poll_interval (ResultsPage.fetchScan (Some (to_json id r)) st)
  = if terminal (row_status r) then None else Some 4000%Z.
Proof.
  unfold ResultsPage.poll_interval. simpl.
  destruct (row_status r); reflexivity.
Qed.

(** Every status is reached from [pending]. *)
Lemma every_status_reached (s : ScanStatus) : transitions pending s.
Proof.
  destruct s.
  - apply no_move.
  - eapply move; [apply start_scan | apply no_move].
  - eapply move; [apply start_scan|].
    eapply move; [apply finish_scan | apply no_move].
  - eapply move; [apply start_scan|].
    eapply move; [apply fail_scan | apply no_move].
Qed.

(** The rows the life cycle writes: the status follows [transition], and
    the error message is there exactly on failed rows. *)
Lemma writes_transition (r r' : Row) :
  writes r r' -> transition (row_status r) (row_status r').
Proof. destruct 1 as [r H | r H | r msg H]; simpl; rewrite H; constructor. Qed.

Lemma reachable_error_message (r : Row) :
  reachable r ->
  (row_status r = failed -> exists msg, row_error_message r = Some msg)
  /\ (row_status r <> failed -> row_error_message r = None).
Proof.
  induction 1 as [| r r' Hr [IHf IHn] Hw].
  - split; [discriminate | reflexivity].
  - destruct Hw as [r H | r H | r msg H]; simpl.
    + split; [discriminate|]. intros _. apply IHn. congruence.
    + split; [discriminate|]. intros _. apply IHn. congruence.
    + split; [eauto | congruence].
Qed.

End LifeCycle.

(** ** The failure card of the results page *)
Section FailureReason.
Import Rows ResultsPage.

Lemma or_else_shown (v : option string) (dflt : string) :
  Js.or_else v dflt
  = if Js.truthy_str v then default dflt v else dflt.
Proof.
  destruct v as [s|]; simpl; [|reflexivity].
  destruct (String.eqb s ""); reflexivity.
Qed.

Lemma failure_reason_failed (s : Scan) :
  status s = "failed" ->
  failure_reason s
  = Some (Js.or_else (error_message s) "An unknown error occurred").
Proof. intros H. unfold failure_reason. rewrite H. reflexivity. Qed.

Lemma failure_reason_status_name (id : Z) (r : Backend.Row) :
  failure_reason (Backend.to_json id r)
  = match Backend.row_status r with
    | Backend.failed =>
        Some (Js.or_else (Backend.row_error_message r)
                         "An unknown error occurred")
    | _ => None
    end.
Proof. unfold failure_reason. simpl. destruct (Backend.row_status r); reflexivity. Qed.

Lemma empty_message_row_reachable : Backend.reachable empty_message_row.
Proof.
  eapply Backend.reach_write.
  - eapply Backend.reach_write; [apply Backend.reach_new|].
    apply (Backend.w_start Backend.new_row). reflexivity.
  - apply (Backend.w_fail _ ""). reflexivity.
Qed.

(** A persisted message that is the empty string is falsy, so the card
    treats it like a missing one. *)
Lemma empty_message_shows_default :
  failure_reason (Backend.to_json 5 empty_message_row)
  = Some "An unknown error occurred".
Proof. reflexivity. Qed.

(** C7.  A scan row that ended in the failed state carries exactly one
    [error_message] string, and the failure card shows that string as the
    failure reason, the default text standing in only when the message is
    absent in the sense of the card's [||]: falsy, which for a persisted
    string means empty.  A row in any other state carries no
    [error_message] and shows no failure card.  On any failed scan the page
    is sent, the card shows the default text when [error_message] is
    [null], [undefined] or empty, and the message otherwise. *)
Theorem failed_row_error_message :
  forall (id : Z) (r : Backend.Row),
    Backend.reachable r ->
    (Backend.row_status r = Backend.failed ->
       exists msg : string,
         Backend.row_error_message r = Some msg
         /\ (msg <> "" -> failure_reason (Backend.to_json id r) = Some msg)
         /\ (msg = "" ->
             failure_reason (Backend.to_json id r)
             = Some "An unknown error occurred"))
    /\ (Backend.row_status r <> Backend.failed ->
          Backend.row_error_message r = None
          /\ failure_reason (Backend.to_json id r) = None)
    /\ (forall s : Scan,
          status s = "failed" ->
          failure_reason s
          = Some match error_message s with
                 | Some msg =>
                     if String.eqb msg "" then "An unknown error occurred"
                     else msg
                 | None => "An unknown error occurred"
                 end).
Proof.
  intros id r Hr. destruct (reachable_error_message r Hr) as [Hf Hn].
  rewrite failure_reason_status_name. split; [|split].
  - intros Hs. destruct (Hf Hs) as [msg Hm]. exists msg. rewrite Hs, Hm.
    split; [reflexivity|]. simpl. split.
    + intros Hne. apply String.eqb_neq in Hne. now rewrite Hne.
    + intros ->. reflexivity.
  - intros Hs. split; [now apply Hn|].
    destruct (Backend.row_status r); congruence.
  - intros s Hs. rewrite (failure_reason_failed s Hs).
    destruct (error_message s); reflexivity.
Qed.

Lemma failed_row_error_message_witness :
  exists msg : string,
    Backend.row_error_message failed_row = Some msg
    /\ (msg <> "" -> failure_reason (Backend.to_json 5 failed_row) = Some msg)
    /\ (msg = "" ->
        failure_reason (Backend.to_json 5 failed_row)
        = Some "An unknown error occurred").
Proof.
  assert (Backend.reachable failed_row) as Hr.
  { eapply Backend.reach_write.
    - eapply Backend.reach_write; [apply Backend.reach_new|].
      apply (Backend.w_start Backend.new_row). reflexivity.
    - apply (Backend.w_fail _ "Dependency Check exited with code 13").
      reflexivity. }
  destruct (failed_row_error_message 5 failed_row Hr) as [Hfailed _].
  apply Hfailed. reflexivity.
Defined.

(** The card on any scan the page may receive: the default text stands in
    exactly when [error_message] is falsy ([null], [undefined] or empty). *)
Lemma failure_reason_default (s : Scan) :
  status s = "failed" ->
  Js.truthy_str (error_message s) = false ->
  failure_reason s = Some "An unknown error occurred".
Proof.
  intros Hs Ht. rewrite (failure_reason_failed s Hs), or_else_shown, Ht.
  reflexivity.
Qed.

Lemma failure_reason_message (s : Scan) (msg : string) :
  status s = "failed" ->
  error_message s = Some msg -> msg <> "" ->
  failure_reason s = Some msg.
Proof.
  intros Hs Hm Hne. rewrite (failure_reason_failed s Hs), Hm. simpl.
  apply String.eqb_neq in Hne. now rewrite Hne.
Qed.

End FailureReason.

(** ** The webhook receiver *)
Section WebhookSchema.
Import Json Webhook.

(** C6.  Every JSON body of the documented shape, an object with a string
    [source] and a string [project_name] and, optionally, a string
    [artifact_url] and an object [metadata], is accepted by the receiver of
    [POST /api/integrations/webhook/{token}], which reads exactly those
    fields. *)
Theorem webhook_accepts_schema :
  forall (token : string) (body : Value),
    matches_schema body ->
    receive token body = 200%Z
    /\ exists payload : Payload,
         parse body = Some payload
         /\ (forall fs, body = Object fs ->
               field "source" fs = Some (Str (source payload))
               /\ field "project_name" fs = Some (Str (project_name payload))
               /\ optional_string (field "artifact_url" fs)
                  = Some (artifact_url payload)
               /\ optional_object (field "metadata" fs)
                  = Some (metadata payload)).
Proof.
  intros token body (fs & -> & [s Hs] & [n Hn] & Hu & Hm).
  assert (exists url, optional_string (field "artifact_url" fs) = Some url)
    as [url Hurl].
  { destruct Hu as [-> | [u ->]]; simpl; eauto. }
  assert (exists md, optional_object (field "metadata" fs) = Some md)
    as [md Hmd].
  { destruct Hm as [-> | [m ->]]; simpl; eauto. }
  assert (parse (Object fs)
          = Some {| source := s; project_name := n;
                    artifact_url := url; metadata := md |}) as Hp.
  { unfold parse. rewrite Hs, Hn, Hurl, Hmd. reflexivity. }
  split.
  - unfold receive. rewrite Hp. reflexivity.
  - eexists. split; [exact Hp|]. intros fs' [= <-]. simpl. auto.
Qed.

Lemma guide_payload_matches : matches_schema IntegrationsPage.guide_payload.
Proof.
  eexists. split; [reflexivity|]. simpl.
  repeat split; eauto.
Qed.

Lemma webhook_accepts_schema_witness :
  receive "your-token" IntegrationsPage.guide_payload = 200%Z
  /\ exists payload : Payload,
       parse IntegrationsPage.guide_payload = Some payload
       /\ (forall fs, IntegrationsPage.guide_payload = Object fs ->
             field "source" fs = Some (Str (source payload))
             /\ field "project_name" fs = Some (Str (project_name payload))
             /\ optional_string (field "artifact_url" fs)
                = Some (artifact_url payload)
             /\ optional_object (field "metadata" fs)
                = Some (metadata payload)).
Proof.
  apply (webhook_accepts_schema "your-token" IntegrationsPage.guide_payload).
  eexists. split; [reflexivity|]. simpl. repeat split; eauto.
Defined.

(** The payloads the pipeline examples send carry no [metadata] and are
    accepted as well. *)
Lemma pipeline_payloads_accepted (token job url : string) :
  receive token (IntegrationsPage.jenkins_payload job url) = 200%Z
  /\ receive token (IntegrationsPage.azure_payload job url) = 200%Z
  /\ receive token IntegrationsPage.readme_payload = 200%Z.
Proof. repeat split. Qed.

(** A body without [project_name] is refused. *)
Lemma missing_project_name_refused (token : string) :
  receive token (Object [("source", Str "jenkins")]) = 422%Z.
Proof. reflexivity. Qed.

End WebhookSchema.

(** ** The extension check of the upload form *)
Section UploadValidation.
Import FileUpload.

(** The last piece of a split at the dots. *)
Lemma split_not_nil (sep : ascii) (s : string) : Js.split sep s <> [].
Proof.
  destruct s as [|c s]; simpl; [discriminate|].
  destruct (Ascii.eqb c sep); [discriminate|].
  destruct (Js.split sep s); discriminate.
Qed.

Lemma pop_split_dotless (s : string) :
  contains_dot s = false -> Js.split "." s = [s].
Proof.
  induction s as [|c s IH]; simpl; [reflexivity|].
  destruct (Ascii.eqb c "."); simpl; [discriminate|].
  intros H. now rewrite (IH H).
Qed.

Lemma pop_split_dot (s : string) :
  Js.pop (Js.split "." (String "." s)) = Js.pop (Js.split "." s).
Proof.
  simpl. unfold Js.pop. pose proof (split_not_nil "." s) as H.
  destruct (Js.split "." s); [congruence | reflexivity].
Qed.

Lemma pop_split_other (c : ascii) (s : string) :
  Ascii.eqb c "." = false -> contains_dot s = true ->
  Js.pop (Js.split "." (String c s)) = Js.pop (Js.split "." s).
Proof.
  intros Hc Hs. simpl. rewrite Hc. unfold Js.pop.
  destruct (Js.split "." s) as [|piece [|piece' pieces]] eqn:E.
  - now destruct (split_not_nil "." s).
  - exfalso. clear Hc. revert piece E Hs.
    induction s as [|d s IH]; simpl; [discriminate|].
    destruct (Ascii.eqb d ".") eqn:Ed; simpl.
    + intros piece [= _ E]. now destruct (split_not_nil "." s).
    + intros piece E Hs. destruct (Js.split "." s) as [|q [|q' qs]] eqn:E'.
      * now destruct (split_not_nil "." s).
      * now apply (IH q).
      * discriminate.
  - reflexivity.
Qed.

(** [toLowerCase] neither adds nor removes dots. *)
Lemma lower_ascii_dot (c : ascii) :
  Ascii.eqb (Js.lower_ascii c) "." = Ascii.eqb c ".".
Proof. destruct c as [[] [] [] [] [] [] [] []]; reflexivity. Qed.

Lemma split_toLowerCase (s : string) :
  Js.split "." (Js.toLowerCase s) = map Js.toLowerCase (Js.split "." s).
Proof.
  induction s as [|c s IH]; simpl; [reflexivity|].
  rewrite lower_ascii_dot, IH.
  destruct (Ascii.eqb c "."); [reflexivity|].
  destruct (Js.split "." s); reflexivity.
Qed.

Lemma contains_dot_toLowerCase (s : string) :
  contains_dot (Js.toLowerCase s) = contains_dot s.
Proof.
  induction s as [|c s IH]; simpl; [reflexivity|].
  now rewrite lower_ascii_dot, IH.
Qed.

Lemma pop_map (f : string -> string) (l : list string) :
  Js.pop (map f l) = option_map f (Js.pop l).
Proof.
  unfold Js.pop. induction l as [|x [|y l] IH]; simpl in *; auto.
Qed.

(** The extension the component computes is the last piece of the
    lower-cased name. *)
Lemma ext_of_lower (f : File) :
  ext_of f
  = option_map (String ".") (Js.pop (Js.split "." (Js.toLowerCase (name f)))).
Proof.
  unfold ext_of. rewrite split_toLowerCase, pop_map.
  destruct (Js.pop (Js.split "." (name f))); reflexivity.
Qed.

(** A dotless string has no suffix that starts with a dot. *)
Lemma ends_with_dotless (s x : string) :
  contains_dot s = false -> ends_with s (String "." x) = false.
Proof.
  induction s as [|c s IH]; [reflexivity|].
  cbn [ends_with contains_dot]. intros H.
  apply orb_false_iff in H as [Hc Hs].
  rewrite (IH Hs), orb_false_r.
  apply String.eqb_neq. intros [= -> _]. discriminate.
Qed.

(** On a name with a dot, "ends in [.x]" and "the last piece is [x]" say
    the same. *)
Lemma ends_with_last_piece (t x piece : string) :
  contains_dot t = true -> contains_dot x = false ->
  Js.pop (Js.split "." t) = Some piece ->
  ends_with t (String "." x) = String.eqb piece x.
Proof.
  intros Ht Hx. revert piece Ht.
  induction t as [|c t IH]; intros piece Ht Hp; [discriminate|].
  cbn [ends_with]. simpl in Ht.
  destruct (Ascii.eqb c ".") eqn:Ec.
  - apply Ascii.eqb_eq in Ec. subst c. rewrite pop_split_dot in Hp.
    destruct (contains_dot t) eqn:Hdot.
    + rewrite (IH piece eq_refl Hp), orb_comm.
      assert (String.eqb (String "." t) (String "." x) = false) as ->.
      { apply String.eqb_neq. intros [= ->]. congruence. }
      apply orb_false_r.
    + rewrite (ends_with_dotless t x Hdot), orb_false_r.
      rewrite (pop_split_dotless t Hdot) in Hp. injection Hp as <-.
      simpl. reflexivity.
  - simpl in Ht. rewrite (pop_split_other c t Ec Ht) in Hp.
    rewrite (IH piece Ht Hp).
    assert (String.eqb (String c t) (String "." x) = false) as ->.
    { apply String.eqb_neq. intros [= -> _]. discriminate. }
    reflexivity.
Qed.

(** On a name with a dot the component's test is the "ends in a supported
    extension" one. *)
Lemma includes_has_supported_extension (f : File) (ext : string) :
  contains_dot (name f) = true ->
  ext_of f = Some ext ->
  Js.includes SUPPORTED ext = has_supported_extension (name f).
Proof.
  intros Hdot Hext. rewrite ext_of_lower in Hext.
  destruct (Js.pop (Js.split "." (Js.toLowerCase (name f)))) as [piece|] eqn:Hp;
    [|discriminate].
  injection Hext as <-.
  rewrite <- contains_dot_toLowerCase in Hdot.
  unfold Js.includes, has_supported_extension, SUPPORTED.
  cbn [existsb].
  repeat match goal with
         | |- context [ends_with ?t (String "." ?x)] =>
             rewrite (ends_with_last_piece t x piece Hdot eq_refl Hp)
         end.
  reflexivity.
Qed.

Lemma ext_of_total (f : File) : exists ext, ext_of f = Some ext.
Proof.
  unfold ext_of, Js.pop. pose proof (split_not_nil "." (name f)) as H.
  destruct (last (Js.split "." (name f))) as [piece|] eqn:E; [eauto|].
  apply last_None in E. congruence.
Qed.

(** A file whose name has a dot and does not end in a supported extension
    is refused: the error is set and the selected file stays what it was, so
    the upload button cannot submit it. *)
Lemma validateAndSet_refuses (f : File) (st : State) :
  contains_dot (name f) = true ->
  has_supported_extension (name f) = false ->
  validateAndSet f st = setError unsupported_message st
  /\ file (validateAndSet f st) = file st
  /\ forall reply, ~ In (PostUpload f) (snd (handleUpload reply st)) ->
       ~ In (PostUpload f)
            (snd (handleUpload reply (validateAndSet f st))).
Proof.
  intros Hdot Hno. destruct (ext_of_total f) as [ext Hext].
  assert (validateAndSet f st = setError unsupported_message st) as ->.
  { unfold validateAndSet. rewrite Hext.
    now rewrite (includes_has_supported_extension f ext Hdot Hext), Hno. }
  repeat split. intros reply H. unfold handleUpload in *. simpl.
  destruct (file st); [|exact H]. destruct reply; simpl in *; exact H.
Qed.

(** And one that does is selected. *)
Lemma validateAndSet_selects (f : File) (st : State) :
  contains_dot (name f) = true ->
  has_supported_extension (name f) = true ->
  validateAndSet f st = setFile (Some f) (setError "" st).
Proof.
  intros Hdot Hyes. destruct (ext_of_total f) as [ext Hext].
  unfold validateAndSet. rewrite Hext.
  now rewrite (includes_has_supported_extension f ext Hdot Hext), Hyes.
Qed.

(** C3 (the code misses a case).  A file whose name has no dot at all has
    no extension, yet [validateAndSet] takes the whole name for one: the
    file named [jar] is selected without an error, and the upload button
    then posts it. *)
Theorem validateAndSet_selects_dotless_jar :
  contains_dot (name dotless_jar) = false
  /\ has_supported_extension (name dotless_jar) = false
  /\ ext_of dotless_jar = Some ".jar"
  /\ validateAndSet dotless_jar initial
     = {| file := Some dotless_jar; dragging := false; uploading := false;
          error := "" |}
  /\ handleDrop (Some dotless_jar) initial
     = validateAndSet dotless_jar initial
  /\ snd (handleUpload (Created 12) (validateAndSet dotless_jar initial))
     = [PostUpload dotless_jar; Navigate 12].
Proof. repeat split. Qed.

(** In general a name without a dot is checked as if it were its own
    extension. *)
Lemma validateAndSet_dotless (f : File) (st : State) :
  contains_dot (name f) = false ->
  has_supported_extension (name f) = false
  /\ validateAndSet f st
     = if Js.includes SUPPORTED (String "." (Js.toLowerCase (name f)))
       then setFile (Some f) (setError "" st)
       else setError unsupported_message st.
Proof.
  intros Hdot. split.
  - rewrite <- contains_dot_toLowerCase in Hdot.
    unfold has_supported_extension, SUPPORTED. cbn [existsb].
    repeat match goal with
           | |- context [ends_with ?t (String "." ?x)] =>
               rewrite (ends_with_dotless t x Hdot)
           end.
    reflexivity.
  - assert (ext_of f = Some (String "." (Js.toLowerCase (name f)))) as Hext.
    { unfold ext_of. now rewrite (pop_split_dotless (name f) Hdot). }
    unfold validateAndSet. rewrite Hext.
    destruct (Js.includes SUPPORTED (String "." (Js.toLowerCase (name f))));
      reflexivity.
Qed.

End UploadValidation.

(** ** Status polling *)
Section Polling.
Import Rows.

(** The results page polls every 4 s exactly while the scan it holds is
    neither completed nor failed. *)
Lemma results_page_polls (st : ResultsPage.State) (s : Scan) :
  ResultsPage.scan st = Some s ->
  (status s = "pending" \/ status s = "running" ->
     ResultsPage.poll_interval st = Some 4000%Z)
  /\ (status s = "completed" \/ status s = "failed" ->
        ResultsPage.poll_interval st = None).
Proof.
  intros H. unfold ResultsPage.poll_interval. rewrite H.
  split; intros [-> | ->]; reflexivity.
Qed.

Lemma results_page_stops (data : Scan) (st : ResultsPage.State) :
  status data = "completed" \/ status data = "failed" ->
  ResultsPage.poll_interval (ResultsPage.fetchScan (Some data) st) = None.
Proof.
  intros H.
  now apply (results_page_polls (ResultsPage.fetchScan (Some data) st) data).
Qed.

(** The console log polls every 2 s exactly while the status it was given
    is pending or running. *)
Lemma scan_log_polls (scanStatus : string) :
  (scanStatus = "pending" \/ scanStatus = "running" ->
     ScanLog.poll_interval scanStatus = Some 2000%Z)
  /\ (scanStatus = "completed" \/ scanStatus = "failed" ->
        ScanLog.poll_interval scanStatus = None).
Proof. split; intros [-> | ->]; reflexivity. Qed.

(** The dashboard's timer runs every 5 s and fetches when the scans its
    callback closed over contain an active one. *)
Lemma dashboard_tick (st : DashboardPage.State) :
  snd (DashboardPage.step DashboardPage.Tick st)
  = if DashboardPage.hasActive (DashboardPage.closure_scans st)
    then [DashboardPage.FetchScans] else [].
Proof. reflexivity. Qed.

(** A fetch that returns as many scans as before does not re-run the
    effect: the callback keeps the scans of the older render. *)
Lemma dashboard_closure_is_stale (data : list Scan)
      (st : DashboardPage.State) :
  length data = DashboardPage.dep_length st ->
  DashboardPage.closure_scans
    (fst (DashboardPage.step (DashboardPage.Resolved data) st))
  = DashboardPage.closure_scans st
  /\ DashboardPage.scans
       (fst (DashboardPage.step (DashboardPage.Resolved data) st))
     = data.
Proof.
  intros H. unfold DashboardPage.step, DashboardPage.rerender. simpl.
  rewrite H, Nat.eqb_refl. split; reflexivity.
Qed.

(** C5 (the dashboard misses it).  The dashboard is opened while scan 1 is
    running; the later fetches return the same scan, first running, then
    completed.  The list has kept its length, so the timer's callback still
    tests the scans of the first fetch: at the next tick the dashboard
    fetches again although no scan it shows is pending or running. *)
Theorem dashboard_polls_after_completion :
  DashboardPage.hasActive
    (DashboardPage.scans (fst (DashboardPage.session scan_completes))) = false
  /\ DashboardPage.closure_scans
       (fst (DashboardPage.session scan_completes)) = [scan_1 "running"]
  /\ snd (DashboardPage.session scan_completes)
     = [[DashboardPage.FetchScans; DashboardPage.SetInterval 5000];
        [DashboardPage.ClearInterval; DashboardPage.FetchScans;
         DashboardPage.SetInterval 5000];
        [];
        [DashboardPage.FetchScans];
        [];
        [DashboardPage.FetchScans];
        [DashboardPage.FetchScans]].
Proof. repeat split. Qed.

(** It goes on for as long as the number of scans stays the same. *)
Lemma dashboard_polls_forever (st : DashboardPage.State) (data : list Scan) :
  DashboardPage.hasActive (DashboardPage.closure_scans st) = true ->
  length data = DashboardPage.dep_length st ->
  snd (DashboardPage.step DashboardPage.Tick
         (fst (DashboardPage.step (DashboardPage.Resolved data) st)))
  = [DashboardPage.FetchScans].
Proof.
  intros Ha Hl. rewrite dashboard_tick.
  destruct (dashboard_closure_is_stale data st Hl) as [-> _].
  now rewrite Ha.
Qed.

End Polling.

(** ** The dependency installation of the setup script *)
Section DependencyInstallation.
Import PowerShell SetupWindows.

(** Membership in an explicit trace. *)
Ltac in_trace := repeat (first [left; reflexivity | right]).

(** Case analysis on what the two runs of pip answered. *)
Ltac pip_cases w :=
  unfold install_packages;
  destruct (pip_install w) as [[|?|?]|];
  destruct (pip_install_only_binary w) as [[|?|?]|].

(** The claim's "no code path automatically re-attempts a failed operation"
    fails: when the first [pip install -r requirements.txt] exits with a
    non-zero code, the script itself runs the installation a second time. *)
Lemma pip_install_attempted_twice :
  ~ (forall w : World, attempts is_pip_install (install_dependencies w) <= 1).
Proof.
  intros H. specialize (H wheel_build_fails). vm_compute in H. lia.
Qed.

(** In the dependency-installation step of the setup script a failed
    [pip install -r requirements.txt] is re-attempted by the script itself,
    exactly once and restricted to prebuilt wheels: the second run happens
    exactly when the first one exited with a non-zero code, it is announced
    by "Retrying with prebuilt wheels only...", there is never a third run,
    and the step ends with [exit 1] exactly when the second run exited with
    a non-zero code as well. *)
Lemma pip_install_retried_once :
  forall w : World,
    attempts is_pip_install (install_packages w) <= 2
    /\ (In (Native (venvPip w) (install_only_binary_args w)
                   (pip_install_only_binary w))
           (trace (install_packages w))
        <-> exists c, pip_install w = Some c /\ c <> 0%Z)
    /\ (In retry_notice (trace (install_packages w))
        <-> exists c, pip_install w = Some c /\ c <> 0%Z)
    /\ (attempts is_pip_install (install_packages w) = 2
        <-> exists c, pip_install w = Some c /\ c <> 0%Z)
    /\ (result (install_packages w) = inr (Exit 1)
        <-> exists c c2, pip_install w = Some c /\ c <> 0%Z
                         /\ pip_install_only_binary w = Some c2
                         /\ c2 <> 0%Z).
Proof.
  intros w. split; [|split; [|split; [|split]]].
  - pip_cases w; vm_compute; lia.
  - split.
    + intros H. destruct (pip_install w) as [[|c|c]|] eqn:E;
        [exfalso | eexists; split; [reflexivity|lia] ..| exfalso];
        unfold install_packages in H; rewrite E in H;
        destruct (pip_install_only_binary w) as [[|?|?]|];
        vm_compute in H; intuition discriminate.
    + intros (c & Hc & Hne). unfold install_packages. rewrite Hc.
      destruct c as [|c|c]; [congruence | ..];
        destruct (pip_install_only_binary w) as [[|?|?]|];
        cbn; solve [in_trace].
  - split.
    + intros H. destruct (pip_install w) as [[|c|c]|] eqn:E;
        [exfalso | eexists; split; [reflexivity|lia] ..| exfalso];
        unfold install_packages in H; rewrite E in H;
        destruct (pip_install_only_binary w) as [[|?|?]|];
        vm_compute in H; intuition discriminate.
    + intros (c & Hc & Hne). unfold install_packages. rewrite Hc.
      destruct c as [|c|c]; [congruence | ..];
        destruct (pip_install_only_binary w) as [[|?|?]|];
        cbn; solve [in_trace].
  - split.
    + intros H. destruct (pip_install w) as [[|c|c]|] eqn:E;
        [exfalso | eexists; split; [reflexivity|lia] ..| exfalso];
        unfold install_packages in H; rewrite E in H;
        destruct (pip_install_only_binary w) as [[|?|?]|];
        vm_compute in H; discriminate.
    + intros (c & Hc & Hne). unfold install_packages. rewrite Hc.
      destruct c as [|c|c]; [congruence | ..];
        destruct (pip_install_only_binary w) as [[|?|?]|];
        reflexivity.
  - split.
    + intros H. unfold install_packages in H.
      destruct (pip_install w) as [[|c|c]|] eqn:E;
        destruct (pip_install_only_binary w) as [[|c2|c2]|] eqn:E2;
        try (vm_compute in H; discriminate);
        do 2 eexists; repeat split; lia.
    + intros (c & c2 & Hc & Hne & Hc2 & Hne2). unfold install_packages.
      rewrite Hc, Hc2.
      destruct c as [|c|c]; [congruence | ..];
        (destruct c2 as [|c2|c2]; [congruence | ..]); reflexivity.
Qed.

(** The first run suffices when it succeeds. *)
Lemma pip_install_first_try (w : World) :
  pip_install w = Some 0%Z ->
  attempts is_pip_install (install_packages w) = 1
  /\ result (install_packages w) = inl tt.
Proof. intros H. unfold install_packages. rewrite H. split; reflexivity. Qed.

(** The retry rescues the step when prebuilt wheels install. *)
Lemma pip_install_second_try (w : World) (c : Z) :
  pip_install w = Some c -> c <> 0%Z ->
  pip_install_only_binary w = Some 0%Z ->
  result (install_packages w) = inl tt.
Proof.
  intros H Hne H2. unfold install_packages. rewrite H, H2.
  destruct c; [congruence | reflexivity..].
Qed.

(** The npm installation of step 5 is not retried. *)
Lemma npm_install_attempted_once (w : World) :
  attempts is_npm_install (step5 w) <= 1.
Proof.
  unfold step5. destruct (push_location w);
    destruct (npm_install w) as [[|?|?]|]; vm_compute; lia.
Qed.

Lemma npm_install_failure_exits (w : World) (c : Z) :
  push_location w = true -> npm_install w = Some c -> c <> 0%Z ->
  result (step5 w) = inr (Exit 1).
Proof.
  intros Hp Hn Hne. unfold step5. rewrite Hp, Hn.
  destruct c; [congruence | reflexivity..].
Qed.

End DependencyInstallation.

(** ** Facts about runs of scripts *)
Section RunFacts.
Import PowerShell.
Context {A B : Type}.

Lemma result_bind (m : Run A) (k : A -> Run B) :
  result (m ≫= k)
  = match result m with
    | inl a => result (k a)
    | inr s => inr s
    end.
Proof. unfold mbind, run_bind, bind. destruct (result m); reflexivity. Qed.

Lemma trace_bind (m : Run A) (k : A -> Run B) :
  trace (m ≫= k)
  = match result m with
    | inl a => trace m ++ trace (k a)
    | inr _ => trace m
    end.
Proof. unfold mbind, run_bind, bind. destruct (result m); reflexivity. Qed.

Lemma exit_code_bind (m : Run A) (k : A -> Run B) :
  exit_code (m ≫= k)
  = match result m with
    | inl a => exit_code (k a)
    | inr _ => exit_code m
    end.
Proof.
  unfold exit_code. rewrite result_bind. destruct (result m); reflexivity.
Qed.

(** A successful sequence ran both of its parts to the end. *)
Lemma bind_completed (m : Run A) (k : A -> Run B) (b : B) :
  result (m ≫= k) = inl b ->
  exists a, result m = inl a /\ result (k a) = inl b
            /\ trace (m ≫= k) = trace m ++ trace (k a).
Proof.
  rewrite result_bind, trace_bind.
  destruct (result m) as [a|s]; [eauto | discriminate].
Qed.

(** A sequence stops where its first part stops. *)
Lemma bind_stopped (m : Run A) (k : A -> Run B) (s : Stop) :
  result m = inr s ->
  result (m ≫= k) = inr s /\ trace (m ≫= k) = trace m.
Proof. intros H. rewrite result_bind, trace_bind, H. split; reflexivity. Qed.

Lemma always_bind (P : Event -> Prop) (m : Run A) (k : A -> Run B) :
  always P m -> (forall a, always P (k a)) -> always P (m ≫= k).
Proof.
  unfold always. intros Hm Hk. rewrite trace_bind.
  destruct (result m) as [a|s]; [|exact Hm].
  apply Forall_app. split; [exact Hm | apply Hk].
Qed.

(** When the first part stops, only its events count. *)
Lemma always_bind_stopped (P : Event -> Prop) (m : Run A) (k : A -> Run B)
      (s : Stop) :
  result m = inr s -> always P m -> always P (m ≫= k).
Proof. unfold always. intros H Hm. now rewrite trace_bind, H. Qed.

Lemma orderly_bind (m : Run A) (k : A -> Run B) :
  orderly m -> (forall a, orderly (k a)) -> orderly (m ≫= k).
Proof.
  unfold orderly. intros Hm Hk s. rewrite exit_code_bind, result_bind.
  destruct (result m) as [a|s'] eqn:E; [apply Hk|].
  intros [= <-]. now apply (Hm s').
Qed.

End RunFacts.

Section RunPrimitives.
Import PowerShell.

Lemma always_ret {A : Type} (P : Event -> Prop) (a : A) :
  always P (mret a : Run A).
Proof. constructor. Qed.

Lemma always_host (P : Event -> Prop) (msg : string) :
  P (Host msg) -> always P (Write_Host msg).
Proof. intros H. repeat constructor. exact H. Qed.

Lemma always_exit (P : Event -> Prop) (n : Z) : always P (exit n).
Proof. constructor. Qed.

Lemma always_native (P : Event -> Prop) exe args outcome :
  P (Native exe args outcome) -> always P (native exe args outcome).
Proof. intros H. destruct outcome; repeat constructor; exact H. Qed.

Lemma always_cmdlet (P : Event -> Prop) name args ok :
  P (Cmdlet name args ok) -> always P (cmdlet name args ok).
Proof. intros H. repeat constructor. exact H. Qed.

Lemma always_cmdlet_quiet (P : Event -> Prop) name args ok :
  P (Cmdlet name args ok) -> always P (cmdlet_quiet name args ok).
Proof. intros H. repeat constructor. exact H. Qed.

Lemma always_when (P : Event -> Prop) (c : bool) (body : Run unit) :
  always P body -> always P (when c body).
Proof. intros H. destruct c; [exact H | constructor]. Qed.

Lemma orderly_ret {A : Type} (a : A) : orderly (mret a : Run A).
Proof. intros s H. discriminate H. Qed.

Lemma orderly_host (msg : string) : orderly (Write_Host msg).
Proof. intros s H. discriminate H. Qed.

Lemma orderly_exit_1 : orderly (exit 1).
Proof. intros s H. reflexivity. Qed.

Lemma orderly_native exe args outcome : orderly (native exe args outcome).
Proof. intros s H. destruct outcome; [discriminate H | reflexivity]. Qed.

Lemma orderly_cmdlet name args ok : orderly (cmdlet name args ok).
Proof. intros s H. destruct ok; [discriminate H | reflexivity]. Qed.

Lemma orderly_cmdlet_quiet name args ok : orderly (cmdlet_quiet name args ok).
Proof. intros s H. discriminate H. Qed.

Lemma orderly_when (c : bool) (body : Run unit) :
  orderly body -> orderly (when c body).
Proof. intros H. destruct c; [exact H | apply orderly_ret]. Qed.

(** An event of a part is an event of the whole. *)
Lemma In_trace_bind_l {A B : Type} (e : Event) (m : Run A) (k : A -> Run B) :
  In e (trace m) -> In e (trace (m ≫= k)).
Proof.
  intros H. rewrite trace_bind. destruct (result m); [|exact H].
  apply in_or_app. now left.
Qed.

Lemma In_trace_bind_r {A B : Type} (e : Event) (m : Run A) (k : A -> Run B)
      (a : A) :
  result m = inl a -> In e (trace (k a)) -> In e (trace (m ≫= k)).
Proof.
  intros Hm H. rewrite trace_bind, Hm. apply in_or_app. now right.
Qed.

End RunPrimitives.

(** Decomposition of a script into its commands. *)
Ltac always_step :=
  lazymatch goal with
  | |- PowerShell.always _ (_ ≫= _) =>
      apply always_bind; [|intros ?]
  | |- PowerShell.always _ (mret _) => apply always_ret
  | |- PowerShell.always _ (PowerShell.when _ _) => apply always_when
  | |- PowerShell.always _ (PowerShell.Write_Host _) => apply always_host
  | |- PowerShell.always _ (PowerShell.exit _) => apply always_exit
  | |- PowerShell.always _ (PowerShell.native _ _ _) => apply always_native
  | |- PowerShell.always _ (PowerShell.cmdlet _ _ _) => apply always_cmdlet
  | |- PowerShell.always _ (PowerShell.cmdlet_quiet _ _ _) =>
      apply always_cmdlet_quiet
  | |- PowerShell.always _ (if ?c then _ else _) => destruct c
  | |- PowerShell.always _ (match ?x with Some _ => _ | None => _ end) =>
      destruct x
  | |- PowerShell.always _ _ =>
      match goal with x : (_ * _)%type |- _ => destruct x end
  end.

Ltac orderly_step :=
  lazymatch goal with
  | |- PowerShell.orderly (_ ≫= _) => apply orderly_bind; [|intros ?]
  | |- PowerShell.orderly (mret _) => apply orderly_ret
  | |- PowerShell.orderly (PowerShell.when _ _) => apply orderly_when
  | |- PowerShell.orderly (PowerShell.Write_Host _) => apply orderly_host
  | |- PowerShell.orderly (PowerShell.exit 1) => apply orderly_exit_1
  | |- PowerShell.orderly (PowerShell.native _ _ _) => apply orderly_native
  | |- PowerShell.orderly (PowerShell.cmdlet _ _ _) => apply orderly_cmdlet
  | |- PowerShell.orderly (PowerShell.cmdlet_quiet _ _ _) =>
      apply orderly_cmdlet_quiet
  | |- PowerShell.orderly (if ?c then _ else _) => destruct c
  | |- PowerShell.orderly (match ?x with Some _ => _ | None => _ end) =>
      destruct x
  | |- PowerShell.orderly _ =>
      match goal with x : (_ * _)%type |- _ => destruct x end
  end.

Section BuildMsiFacts.
Import PowerShell BuildMsi.

Ltac open_script :=
  unfold build_msi, prepare, package, locate_wix, check_tools, build_venv,
    frontend_build, pyinstaller, stage_jre, stage_owaspdc, harvest, Heat,
    compile, link, report, Download, Remove_Item, Expand_Archive,
    Step, OK, Warn, Fail;
  cbn [foreach].

(** Every early end of the script is an exit with code 1. *)
Lemma build_msi_orderly (w : World) (p : Params) : orderly (build_msi w p).
Proof. open_script. repeat orderly_step. Qed.

Ltac not_light :=
  first [ reflexivity
        | apply bool_decide_eq_false; unfold light_args; simpl;
          intros H; discriminate H ].

(** [light.exe] is not started before the packaging steps. *)
Lemma prepare_no_light (w : World) (p : Params) :
  always (fun e => is_light_run w p e = false) (prepare w p).
Proof. open_script. repeat always_step; not_light. Qed.

Lemma frontend_build_no_light (w : World) (p : Params) :
  always (fun e => is_light_run w p e = false) (frontend_build w p).
Proof. open_script. repeat always_step; not_light. Qed.

Lemma pyinstaller_no_light (w : World) (p : Params) :
  always (fun e => is_light_run w p e = false) (pyinstaller w p).
Proof. open_script. repeat always_step; not_light. Qed.

(** The guards of the two skipped builds. *)
Lemma frontend_guard (w : World) (p : Params) :
  SkipFrontendBuild p = true -> Test_Path w frontend_dist = false ->
  frontend_build w p
  = {| trace :=
         [Host "    WARN: Skipping frontend build";
          Host "ERROR: frontend/dist missing -- run without -SkipFrontendBuild first."];
       result := inr (Exit 1) |}.
Proof. intros H1 H2. unfold frontend_build. rewrite H1, H2. reflexivity. Qed.

Lemma pyinstaller_guard (w : World) (p : Params) :
  SkipPyInstaller p = true -> Test_Path w py_dist = false ->
  pyinstaller w p
  = {| trace :=
         [Host "    WARN: Skipping PyInstaller";
          Host "ERROR: PyInstaller output missing -- run without -SkipPyInstaller first."];
       result := inr (Exit 1) |}.
Proof. intros H1 H2. unfold pyinstaller. rewrite H1, H2. reflexivity. Qed.

(** A run that stops at one of the two guards. *)
Lemma stopped_at_guard (w : World) (p : Params) :
  (exists s, result (frontend_build w p) = inr s)
  \/ (exists s, result (pyinstaller w p) = inr s) ->
  exit_code (build_msi w p) = 1%Z
  /\ always (fun e => is_light_run w p e = false) (build_msi w p).
Proof.
  intros Hstop. split.
  - assert (exists s, result (build_msi w p) = inr s) as [s Hs].
    { unfold build_msi. rewrite result_bind.
      destruct (result (prepare w p)) as [exes|s0]; [|eauto].
      rewrite result_bind. destruct Hstop as [[s Hs] | [s Hs]].
      - rewrite Hs. eauto.
      - destruct (result (frontend_build w p)); [|eauto].
        rewrite result_bind, Hs. eauto. }
    exact (build_msi_orderly w p s Hs).
  - unfold build_msi. apply always_bind; [apply prepare_no_light|].
    intros exes. destruct Hstop as [[s Hs] | [s Hs]].
    + apply (always_bind_stopped _ _ _ s Hs), frontend_build_no_light.
    + apply always_bind; [apply frontend_build_no_light|]. intros _.
      apply (always_bind_stopped _ _ _ s Hs), pyinstaller_no_light.
Qed.

(** What the three switches switch off. *)
Lemma skip_frontend_build (w : World) (p : Params) :
  SkipFrontendBuild p = true ->
  always (fun e => is_npm_run e = false) (build_msi w p).
Proof.
  intros H. open_script. rewrite H. cbn [negb].
  repeat always_step; first [reflexivity | unfold light_args; reflexivity].
Qed.

Lemma skip_pyinstaller (w : World) (p : Params) :
  SkipPyInstaller p = true ->
  always (fun e => is_pyinstaller_run e = false) (build_msi w p).
Proof.
  intros H. open_script. rewrite H. cbn [negb].
  repeat always_step; first [reflexivity | unfold light_args; reflexivity].
Qed.

Lemma skip_downloads (w : World) (p : Params) :
  SkipDownloads p = true ->
  always (fun e => is_cmdlet "Invoke-WebRequest" e = false) (build_msi w p).
Proof.
  intros H. open_script. rewrite H. cbn [negb when].
  repeat always_step; reflexivity.
Qed.

(** The last two steps of a run that reached its last line. *)
Lemma link_completed (w : World) (p : Params) (LightExe : string) (u : unit) :
  result (link w p LightExe) = inl u ->
  In (Native LightExe (light_args w p) (Some 0%Z))
     (trace (link w p LightExe)).
Proof.
  unfold link, Step.
  destruct (succeeds w list_wixobj);
    destruct (exit_code_of w run_light) as [[|?|?]|];
    try (intros H; discriminate H).
  intros _. right. right. left. reflexivity.
Qed.

Lemma report_completed (w : World) (p : Params) (u : unit) :
  result (report w p) = inl u ->
  In (Cmdlet "Get-Item" [MsiOut w p] true) (trace (report w p)).
Proof.
  unfold report.
  destruct (succeeds w get_item_msi); [|intros H; discriminate H].
  intros _. left. reflexivity.
Qed.

Lemma completed_run_links (w : World) (p : Params) :
  result (build_msi w p) = inl tt ->
  (exists LightExe : string,
     In (Native LightExe (light_args w p) (Some 0%Z))
        (trace (build_msi w p)))
  /\ In (Cmdlet "Get-Item" [MsiOut w p] true) (trace (build_msi w p)).
Proof.
  intros H. unfold build_msi in *.
  apply bind_completed in H as ([[HeatExe CandleExe] LightExe] & Hprep & H & _).
  pose proof H as Hrest.
  apply bind_completed in H as (? & Hfront & H & _).
  pose proof H as Hrest2.
  apply bind_completed in H as (? & Hpy & H & _).
  pose proof H as Hpack. unfold package in H.
  apply bind_completed in H as (? & Hjre & H & _).
  apply bind_completed in H as (? & Hdc & H & _).
  apply bind_completed in H as (? & Hharvest & H & _).
  apply bind_completed in H as (? & Hcompile & H & _).
  apply bind_completed in H as (u & Hlink & Hreport & _).
  split.
  - exists LightExe.
    eapply In_trace_bind_r; [exact Hprep|].
    eapply In_trace_bind_r; [exact Hfront|].
    eapply In_trace_bind_r; [exact Hpy|]. unfold package.
    eapply In_trace_bind_r; [exact Hjre|].
    eapply In_trace_bind_r; [exact Hdc|].
    eapply In_trace_bind_r; [exact Hharvest|].
    eapply In_trace_bind_r; [exact Hcompile|].
    apply In_trace_bind_l. now apply (link_completed w p LightExe u).
  - eapply In_trace_bind_r; [exact Hprep|].
    eapply In_trace_bind_r; [exact Hfront|].
    eapply In_trace_bind_r; [exact Hpy|]. unfold package.
    eapply In_trace_bind_r; [exact Hjre|].
    eapply In_trace_bind_r; [exact Hdc|].
    eapply In_trace_bind_r; [exact Hharvest|].
    eapply In_trace_bind_r; [exact Hcompile|].
    eapply In_trace_bind_r; [exact Hlink|].
    now apply (report_completed w p tt).
Qed.

(** C8.  The build script has the three switches [-SkipFrontendBuild],
    [-SkipPyInstaller] and [-SkipDownloads], which switch off the npm
    commands, the PyInstaller command and the downloads; a run that reaches
    its last line has linked [owasp-scanner-<Version>.msi] under the
    script's directory with [light.exe] (exit code 0) and found the file;
    and a run with [-SkipFrontendBuild] without [frontend/dist], or with
    [-SkipPyInstaller] without the PyInstaller output directory, ends with
    exit code 1 and never starts [light.exe]. *)
Theorem build_msi_contract :
  forall (w : World) (p : Params),
    (SkipFrontendBuild p = true ->
       always (fun e => is_npm_run e = false) (build_msi w p))
    /\ (SkipPyInstaller p = true ->
          always (fun e => is_pyinstaller_run e = false) (build_msi w p))
    /\ (SkipDownloads p = true ->
          always (fun e => is_cmdlet "Invoke-WebRequest" e = false)
                 (build_msi w p))
    /\ (result (build_msi w p) = inl tt ->
          MsiOut w p
          = Join_Path (PSScriptRoot w)
                      ("owasp-scanner-" +:+ Version p +:+ ".msi")
          /\ (exists LightExe : string,
                In (Native LightExe (light_args w p) (Some 0%Z))
                   (trace (build_msi w p)))
          /\ (exists before after : list string,
                light_args w p = before ++ ["-out"; MsiOut w p] ++ after)
          /\ In (Cmdlet "Get-Item" [MsiOut w p] true)
                (trace (build_msi w p)))
    /\ (SkipFrontendBuild p = true -> Test_Path w frontend_dist = false ->
          exit_code (build_msi w p) = 1%Z
          /\ always (fun e => is_light_run w p e = false) (build_msi w p))
    /\ (SkipPyInstaller p = true -> Test_Path w py_dist = false ->
          exit_code (build_msi w p) = 1%Z
          /\ always (fun e => is_light_run w p e = false) (build_msi w p)).
Proof.
  intros w p. repeat apply conj.
  - apply skip_frontend_build.
  - apply skip_pyinstaller.
  - apply skip_downloads.
  - intros H. destruct (completed_run_links w p H) as [Hl Hg].
    repeat split; [exact Hl | | exact Hg].
    exists ["-nologo"; "-ext"; "WixUIExtension"; "-ext"; "WixUtilExtension";
            "-cultures:en-US"], (wixobj_files w).
    reflexivity.
  - intros H1 H2. apply stopped_at_guard. left.
    rewrite (frontend_guard w p H1 H2). eauto.
  - intros H1 H2. apply stopped_at_guard. right.
    rewrite (pyinstaller_guard w p H1 H2). eauto.
Qed.

Lemma build_msi_contract_witness :
  (exists LightExe : string,
     In (Native LightExe (light_args build_machine default_params)
                (Some 0%Z))
        (trace (build_msi build_machine default_params)))
  /\ exit_code (build_msi build_machine skip_frontend_build_only) = 1%Z.
Proof.
  split.
  - destruct (build_msi_contract build_machine default_params)
      as (_ & _ & _ & Hdone & _).
    apply Hdone. vm_compute. reflexivity.
  - destruct (build_msi_contract build_machine skip_frontend_build_only)
      as (_ & _ & _ & _ & Hguard & _).
    apply Hguard; reflexivity.
Defined.

(** On that machine the default run links the MSI as its last command. *)
Example build_machine_default_run :
  exit_code (build_msi build_machine default_params) = 0%Z
  /\ MsiOut build_machine default_params
     = "C:\src\owasp-scanner\owasp-scanner-1.0.0.msi".
Proof. split; vm_compute; reflexivity. Qed.

End BuildMsiFacts.

(** ** The results list: order, selection, analysis and summary *)
Section ResultsList.
Import Rows ScanResults ScanResultsUI.

Lemma indexOf_from_range (a : list string) (x : string) (i : Z) :
  (In x a /\ (i <= Js.indexOf_from i a x)%Z)
  \/ (~ In x a /\ Js.indexOf_from i a x = (-1)%Z).
Proof.
  revert i. induction a as [|y a IH]; intros i; simpl.
  - right. split; [tauto | reflexivity].
  - destruct (String.eqb_spec y x) as [->|Hne].
    + left. split; [now left | lia].
    + destruct (IH (i + 1)%Z) as [[Hin Hle] | [Hnin ->]].
      * left. split; [now right | lia].
      * right. split; [|reflexivity]. intros [H|H]; [congruence | tauto].
Qed.

Lemma insert_sorted_perm (v : Vulnerability) (l : list Vulnerability) :
  Permutation (insert_sorted v l) (v :: l).
Proof.
  induction l as [|x l IH]; simpl; [reflexivity|].
  destruct (Z.leb (rank v) (rank x)); [reflexivity|].
  rewrite IH. apply perm_swap.
Qed.

Lemma sort_by_severity_perm (l : list Vulnerability) :
  Permutation (sort_by_severity l) l.
Proof.
  induction l as [|x l IH]; simpl; [reflexivity|].
  rewrite insert_sorted_perm. now constructor.
Qed.

Lemma insert_sorted_ordered (v : Vulnerability) (l : list Vulnerability) :
  StronglySorted (fun a b => (rank a <= rank b)%Z) l ->
  StronglySorted (fun a b => (rank a <= rank b)%Z) (insert_sorted v l).
Proof.
  induction 1 as [|x l Hl IH Hx]; simpl.
  - repeat constructor.
  - destruct (Z.leb_spec (rank v) (rank x)) as [Hle|Hgt].
    + constructor; [now constructor|].
      constructor; [exact Hle|].
      rewrite List.Forall_forall in *. intros y Hy.
      specialize (Hx y Hy). simpl in Hx. lia.
    + constructor; [exact IH|].
      rewrite List.Forall_forall. intros y Hy.
      apply insert_sorted_In in Hy as [->|Hy]; [lia|].
      rewrite List.Forall_forall in Hx. now apply Hx.
Qed.

Lemma sort_by_severity_ordered (l : list Vulnerability) :
  StronglySorted (fun a b => (rank a <= rank b)%Z) (sort_by_severity l).
Proof.
  induction l as [|x l IH]; simpl; [constructor|].
  now apply insert_sorted_ordered.
Qed.

(** Inserting keeps the order of the vulnerabilities of one severity: the
    new one goes in front of those of its own rank. *)
Lemma insert_sorted_rank_class (k : Z) (v : Vulnerability)
      (l : list Vulnerability) :
  List.filter (fun x => Z.eqb (rank x) k) (insert_sorted v l)
  = List.filter (fun x => Z.eqb (rank x) k) (v :: l).
Proof.
  induction l as [|x l IH]; [reflexivity|].
  cbn [insert_sorted].
  destruct (Z.leb_spec (rank v) (rank x)) as [Hle|Hgt]; [reflexivity|].
  cbn [List.filter] in *. rewrite IH.
  destruct (Z.eqb_spec (rank x) k), (Z.eqb_spec (rank v) k);
    try reflexivity; lia.
Qed.

Lemma sort_by_severity_rank_class (k : Z) (l : list Vulnerability) :
  List.filter (fun x => Z.eqb (rank x) k) (sort_by_severity l)
  = List.filter (fun x => Z.eqb (rank x) k) l.
Proof.
  induction l as [|x l IH]; [reflexivity|].
  cbn [sort_by_severity fold_right]. fold (sort_by_severity l).
  rewrite insert_sorted_rank_class. cbn [List.filter]. now rewrite IH.
Qed.

(** X1.  The list on display holds exactly the vulnerabilities that passed
    the filters, ordered by the position of their severity in
    [SEVERITY_ORDER]; vulnerabilities of one severity keep the order the
    server sent them in; and a severity outside [SEVERITY_ORDER] has
    position -1, so such vulnerabilities come before the critical ones. *)
Theorem sorted_is_stable_severity_order (st : State) (scan : Scan) :
  Permutation (sorted st scan) (filtered st scan)
  /\ StronglySorted (fun a b => (rank a <= rank b)%Z) (sorted st scan)
  /\ (forall k : Z,
        List.filter (fun v => Z.eqb (rank v) k) (sorted st scan)
        = List.filter (fun v => Z.eqb (rank v) k) (filtered st scan))
  /\ (forall v : Vulnerability,
        (In (severity v) SEVERITY_ORDER /\ (0 <= rank v)%Z)
        \/ (~ In (severity v) SEVERITY_ORDER /\ rank v = (-1)%Z)).
Proof.
  unfold sorted. repeat split.
  - apply sort_by_severity_perm.
  - apply sort_by_severity_ordered.
  - intros k. apply sort_by_severity_rank_class.
  - intros v. apply indexOf_from_range.
Qed.

Lemma filter_length_mono {A : Type} (p q : A -> bool) (l : list A) :
  (forall x, p x = true -> q x = true) ->
  length (List.filter p l) <= length (List.filter q l).
Proof.
  intros H. induction l as [|x l IH]; simpl; [lia|].
  destruct (p x) eqn:Hp.
  - rewrite (H x Hp). simpl. lia.
  - destruct (q x); simpl; lia.
Qed.

Lemma analyzed_split (l : list Vulnerability) :
  length (List.filter (fun v => negb (unanalyzed v)) l)
  = length (List.filter (fun v => Js.truthy (ai_is_false_positive v)) l)
    + length (List.filter confirmed_risk l).
Proof.
  induction l as [|x l IH]; simpl; [reflexivity|].
  unfold unanalyzed, confirmed_risk in *.
  destruct (ai_is_false_positive x) as [| |[|]]; simpl; lia.
Qed.

Lemma sorted_length (st : State) (scan : Scan) :
  length (sorted st scan) = length (filtered st scan).
Proof. apply Permutation_length, sort_by_severity_perm. Qed.

(** X2.  The figures of the AI summary count over every vulnerability of
    the scan, suppressed or not: the false positives are among the analyzed
    ones, "confirmed risks" is the number of vulnerabilities whose verdict
    is [false], and under "FP only" or "Real only" the list never shows
    more rows than the matching figure, whatever the other controls say. *)
Theorem summary_counts_bound_lists (st : State) (scan : Scan) :
  fpCount scan <= analyzedCount scan <= length (vulns scan)
  /\ confirmedCount scan
     = Z.of_nat (length (List.filter confirmed_risk (vulns scan)))
  /\ length (sorted (setFilterFP "FP" st) scan) <= fpCount scan
  /\ (Z.of_nat (length (sorted (setFilterFP "REAL" st) scan))
      <= confirmedCount scan)%Z.
Proof.
  assert (Hc : confirmedCount scan
               = Z.of_nat (length (List.filter confirmed_risk (vulns scan)))).
  { unfold confirmedCount, analyzedCount, fpCount.
    rewrite analyzed_split. lia. }
  repeat split.
  - unfold fpCount, analyzedCount. apply filter_length_mono.
    intros x. unfold unanalyzed.
    destruct (ai_is_false_positive x) as [| |[|]]; simpl; congruence.
  - unfold analyzedCount. apply List.filter_length_le.
  - exact Hc.
  - rewrite sorted_length. unfold filtered, fpCount.
    apply filter_length_mono. intros x. unfold keeps. simpl.
    destruct (Js.truthy (ai_is_false_positive x)); [reflexivity|].
    destruct (negb (showSuppressed st) && is_suppressed x);
      [intros H; exact H|].
    destruct (negb (String.eqb (filterSeverity st) "ALL")
              && negb (String.eqb (severity x) (filterSeverity st)));
      intros H; exact H.
  - rewrite Hc, sorted_length. apply inj_le. unfold filtered.
    apply filter_length_mono. intros x. unfold keeps, confirmed_risk. simpl.
    destruct (Js.strict_neq_false (ai_is_false_positive x)); [|reflexivity].
    destruct (negb (showSuppressed st) && is_suppressed x);
      [intros H; exact H|].
    destruct (negb (String.eqb (filterSeverity st) "ALL")
              && negb (String.eqb (severity x) (filterSeverity st)));
      [intros H; exact H|].
    destruct (Js.truthy (ai_is_false_positive x)); intros H; exact H.
Qed.

(** X3.  With "show suppressed" ticked and every severity shown, the
    "FP only" list has as many rows as the summary counts false positives,
    and the "Real only" list as many as it counts confirmed risks. *)
Theorem summary_counts_match_lists (st : State) (scan : Scan) :
  showSuppressed st = true ->
  filterSeverity st = "ALL" ->
  length (sorted (setFilterFP "FP" st) scan) = fpCount scan
  /\ Z.of_nat (length (sorted (setFilterFP "REAL" st) scan))
     = confirmedCount scan.
Proof.
  intros Hs Hf.
  assert (Hc : confirmedCount scan
               = Z.of_nat (length (List.filter confirmed_risk (vulns scan)))).
  { unfold confirmedCount, analyzedCount, fpCount.
    rewrite analyzed_split. lia. }
  split.
  - rewrite sorted_length. unfold filtered, fpCount. f_equal.
    apply filter_ext. intros x. unfold keeps. simpl. rewrite Hs, Hf. simpl.
    destruct (ai_is_false_positive x) as [| |[|]]; reflexivity.
  - rewrite Hc, sorted_length. unfold filtered. do 2 f_equal.
    apply filter_ext. intros x. unfold keeps, confirmed_risk. simpl.
    rewrite Hs, Hf. simpl.
    destruct (ai_is_false_positive x) as [| |[|]]; reflexivity.
Qed.

Lemma summary_counts_match_lists_witness :
  length (sorted (setFilterFP "FP" showing_suppressed) mixed_scan)
  = fpCount mixed_scan
  /\ Z.of_nat (length (sorted (setFilterFP "REAL" showing_suppressed)
                              mixed_scan))
     = confirmedCount mixed_scan.
Proof.
  apply (summary_counts_match_lists showing_suppressed mixed_scan);
    reflexivity.
Defined.

(** X4.  Every analysis request [handleAnalyze] sends is for the scan on
    display and names at least one vulnerability: the ticked ones, or
    everything the list shows when none is ticked. *)
Theorem analyze_request_never_empty (reply : AnalyzeReply) (st : State)
    (scan : Scan) (c : Api.Call) :
  In (Send c) (snd (handleAnalyze reply st scan)) ->
  exists ids : list Z,
    c = Api.scans_analyze (scan_id scan) ids
    /\ ids <> []
    /\ (selectedIds st <> [] -> ids = selectedIds st)
    /\ (selectedIds st = [] -> ids = shown_ids st scan).
Proof.
  unfold handleAnalyze.
  destruct (selectedIds st) as [|i sel] eqn:Hsel; cbn [length Nat.ltb Nat.leb].
  - destruct (shown_ids st scan) as [|j shown] eqn:Hshown; cbn [length Nat.eqb].
    + intros [].
    + intros H. exists (j :: shown).
      assert (Hc : Send c = Send (Api.scans_analyze (scan_id scan) (j :: shown))).
      { destruct reply; simpl in H; destruct H as [H|[H|[]]] || destruct H as [H|[]];
          congruence. }
      injection Hc as ->. repeat split; congruence.
  - intros H. exists (i :: sel).
    assert (Hc : Send c = Send (Api.scans_analyze (scan_id scan) (i :: sel))).
    { destruct reply; simpl in H; destruct H as [H|[H|[]]] || destruct H as [H|[]];
        congruence. }
    injection Hc as ->. repeat split; congruence.
Qed.

Lemma analyze_request_never_empty_witness :
  In (Send (Api.scans_analyze 7 [5; 2; 4; 1]%Z))
     (snd (handleAnalyze Analyzed ScanResults.initial mixed_scan))
  /\ exists ids : list Z,
       Api.scans_analyze 7 [5; 2; 4; 1]%Z = Api.scans_analyze (scan_id mixed_scan) ids
       /\ ids <> []
       /\ (selectedIds ScanResults.initial <> []
           -> ids = selectedIds ScanResults.initial)
       /\ (selectedIds ScanResults.initial = []
           -> ids = shown_ids ScanResults.initial mixed_scan).
Proof.
  assert (H : In (Send (Api.scans_analyze 7 [5; 2; 4; 1]%Z))
                 (snd (handleAnalyze Analyzed ScanResults.initial mixed_scan))).
  { left. reflexivity. }
  split; [exact H|].
  exact (analyze_request_never_empty Analyzed ScanResults.initial mixed_scan
           (Api.scans_analyze 7 [5; 2; 4; 1]%Z) H).
Defined.

(** X5.  Unticking a vulnerability removes every occurrence of its id from
    the selection and nothing else, so ticking a vulnerability that was not
    selected and unticking it again gives back the selection as it was. *)
Theorem untick_undoes_tick (id : Z) (prev : list Z) :
  ~ In id (handleSelect id false prev)
  /\ (forall x : Z, x <> id ->
        (In x (handleSelect id false prev) <-> In x prev))
  /\ (~ In id prev ->
        handleSelect id false (handleSelect id true prev) = prev).
Proof.
  unfold handleSelect. split; [|split].
  - rewrite filter_In. intros [_ H].
    now rewrite Z.eqb_refl in H.
  - intros x Hx. rewrite filter_In. split; [tauto|].
    intros H. split; [exact H|].
    now apply negb_true_iff, Z.eqb_neq.
  - intros Hnin. rewrite List.filter_app. simpl. rewrite Z.eqb_refl. simpl.
    rewrite app_nil_r. induction prev as [|y prev IH]; [reflexivity|].
    simpl. destruct (Z.eqb_spec y id) as [->|Hne].
    + exfalso. apply Hnin. now left.
    + simpl. f_equal. apply IH. intros H. apply Hnin. now right.
Qed.

(** X6.  "Select all" ticks exactly the vulnerabilities on display when the
    number of ticked ones differs from the number displayed, and a second
    click then clears the selection. *)
Theorem select_all_toggles (st : State) (scan : Scan) :
  length (selectedIds st) <> length (shown_ids st scan) ->
  selectedIds (handleSelectAll st scan) = shown_ids st scan
  /\ selectedIds (handleSelectAll (handleSelectAll st scan) scan) = [].
Proof.
  intros H. apply Nat.eqb_neq in H.
  assert (H1 : handleSelectAll st scan
               = setSelectedIds (shown_ids st scan) st).
  { unfold handleSelectAll. cbv zeta. now rewrite H. }
  rewrite H1. split; [reflexivity|].
  unfold handleSelectAll. cbv zeta.
  replace (shown_ids (setSelectedIds (shown_ids st scan) st) scan)
    with (shown_ids st scan) by reflexivity.
  cbn [selectedIds setSelectedIds]. now rewrite Nat.eqb_refl.
Qed.

Lemma select_all_toggles_witness :
  selectedIds (handleSelectAll ScanResults.initial mixed_scan)
  = shown_ids ScanResults.initial mixed_scan
  /\ selectedIds (handleSelectAll
                    (handleSelectAll ScanResults.initial mixed_scan)
                    mixed_scan) = [].
Proof.
  apply (select_all_toggles ScanResults.initial mixed_scan).
  vm_compute. discriminate.
Defined.

End ResultsList.

(** ** What the results page renders *)
Section ResultsPageRendering.
Import Rows ResultsPage ResultsPageView.

Lemma after_fetches_snoc (replies : list (option Scan)) (data : option Scan) :
  after_fetches (replies ++ [data]) = fetchScan data (after_fetches replies).
Proof. unfold after_fetches. now rewrite fold_left_app. Qed.

(** X7.  The results page shows at most one of the cards that tell the
    state of the scan (queued or scanning, failed, no vulnerabilities,
    results), and the console log for every scan that is not pending. *)
Theorem state_cards_are_exclusive (s : Scan) :
  length (List.filter is_state_card (cards s)) <= 1
  /\ (In ConsoleLog (cards s) <-> status s <> "pending").
Proof.
  unfold cards, failure_reason, shows_log.
  destruct (String.eqb_spec (status s) "pending") as [Ep|Ep];
    destruct (String.eqb_spec (status s) "running") as [Er|Er];
    destruct (String.eqb_spec (status s) "completed") as [Ec|Ec];
    destruct (String.eqb_spec (status s) "failed") as [Ef|Ef];
    try (rewrite Ep in *; discriminate);
    try (rewrite Er in *; discriminate);
    try (rewrite Ec in *; discriminate);
    simpl; try destruct (Z.eqb (total_vulnerabilities s) 0); simpl;
    (split; [lia|]); split; try tauto; try congruence;
    intros H; repeat (destruct H as [H|H]; [discriminate H|]);
    try destruct H; auto.
Qed.

Lemma after_fetches_scan (replies : list (option Scan)) :
  scan (after_fetches replies) = last (omap (fun r => r) replies).
Proof.
  induction replies as [|d replies IH] using rev_ind; [reflexivity|].
  rewrite after_fetches_snoc, omap_app. destruct d as [d|]; simpl.
  - now rewrite last_snoc.
  - now rewrite app_nil_r.
Qed.

Lemma omap_Some {A : Type} (l : list A) : omap (fun r => r) (map Some l) = l.
Proof. induction l as [|x l IH]; simpl; [reflexivity | now f_equal]. Qed.

(** X8.  The results page shows the outcome of the latest fetch, the scan
    or the error view, and keeps the scan of the latest fetch that
    succeeded: the fetches that failed have no influence on whether the
    page goes on polling. *)
Theorem page_shows_latest_fetch (replies : list (option Scan)) :
  scan (after_fetches replies) = last (omap (fun r => r) replies)
  /\ poll_interval (after_fetches replies)
     = poll_interval (after_fetches (map Some (omap (fun r => r) replies)))
  /\ render (after_fetches replies)
     = match last replies with
       | None => Spinner
       | Some None => ErrorView "Scan not found or access denied"
       | Some (Some d) => Page (statusInfo d) (cards d)
       end.
Proof.
  split; [apply after_fetches_scan|]. split.
  - unfold poll_interval.
    now rewrite !after_fetches_scan, omap_Some.
  - destruct replies as [|d replies _] using rev_ind; [reflexivity|].
    rewrite after_fetches_snoc, last_snoc. destruct d as [d|]; reflexivity.
Qed.

Lemma includes_In (a : list string) (x : string) :
  Js.includes a x = true <-> In x a.
Proof.
  unfold Js.includes. rewrite existsb_exists. split.
  - intros (y & Hy & E). apply String.eqb_eq in E. now subst.
  - intros H. exists x. split; [exact H | apply String.eqb_refl].
Qed.

(** X9.  A scan whose status is none of the four of [STATUS_MAP] shows the
    console log as its only card and is polled every four seconds.  Its
    label is "Queued", the fallback to [STATUS_MAP.pending], unless the
    status is the name of a property that objects inherit from
    [Object.prototype] ([constructor], [toString], ...): the lookup then
    finds the inherited value, no fallback is taken, and the label is
    [undefined]. *)
Theorem unknown_status_polls_as_queued (s : Scan) :
  ~ In (status s) ["pending"; "running"; "completed"; "failed"] ->
  poll_interval (fetchScan (Some s) initial) = Some 4000%Z
  /\ render (fetchScan (Some s) initial) = Page (statusInfo s) [ConsoleLog]
  /\ (~ In (status s) Object_prototype -> statusInfo s = Some "Queued")
  /\ (In (status s) Object_prototype -> statusInfo s = None).
Proof.
  intros H. simpl in H.
  assert (Hp : String.eqb (status s) "pending" = false)
    by (apply String.eqb_neq; intros E; rewrite E in H; tauto).
  assert (Hr : String.eqb (status s) "running" = false)
    by (apply String.eqb_neq; intros E; rewrite E in H; tauto).
  assert (Hc : String.eqb (status s) "completed" = false)
    by (apply String.eqb_neq; intros E; rewrite E in H; tauto).
  assert (Hf : String.eqb (status s) "failed" = false)
    by (apply String.eqb_neq; intros E; rewrite E in H; tauto).
  split; [|split; [|split]].
  - unfold poll_interval. simpl. now rewrite Hc, Hf.
  - unfold render, cards, failure_reason, shows_log. simpl.
    now rewrite Hp, Hr, Hc, Hf.
  - intros Hn. unfold statusInfo, STATUS_MAP. rewrite Hp, Hr, Hc, Hf.
    destruct (Js.includes Object_prototype (status s)) eqn:E;
      [|reflexivity].
    exfalso. apply Hn. now apply includes_In.
  - intros Hi. unfold statusInfo, STATUS_MAP. rewrite Hp, Hr, Hc, Hf.
    apply includes_In in Hi. now rewrite Hi.
Qed.

Lemma unknown_status_polls_as_queued_witness :
  poll_interval (fetchScan (Some (scan_1 "cancelled")) initial)
  = Some 4000%Z
  /\ render (fetchScan (Some (scan_1 "cancelled")) initial)
     = Page (statusInfo (scan_1 "cancelled")) [ConsoleLog]
  /\ (~ In (status (scan_1 "cancelled")) Object_prototype ->
      statusInfo (scan_1 "cancelled") = Some "Queued")
  /\ (In (status (scan_1 "cancelled")) Object_prototype ->
      statusInfo (scan_1 "cancelled") = None).
Proof.
  apply (unknown_status_polls_as_queued (scan_1 "cancelled")).
  simpl. intros [H|[H|[H|[H|[]]]]]; discriminate H.
Defined.

(** The label of a scan whose status is [constructor]. *)
Example constructor_status_has_no_label :
  render (fetchScan (Some (scan_1 "constructor")) initial)
  = Page None [ConsoleLog].
Proof. reflexivity. Qed.

End ResultsPageRendering.

(** ** The console log *)
Section ConsoleLog.
Import ScanLogView.

Lemma split_join (sep : ascii) (s : string) :
  Js.join (String sep "") (Js.split sep s) = s.
Proof.
  unfold Js.join. induction s as [|c s IH]; [reflexivity|].
  cbn [Js.split]. destruct (Ascii.eqb_spec c sep) as [->|Hne].
  - destruct (Js.split sep s) as [|piece pieces] eqn:E.
    + now apply split_not_nil in E.
    + change (String.concat (String sep "") ("" :: piece :: pieces))
        with (String sep (String.concat (String sep "") (piece :: pieces))).
      now rewrite IH.
  - destruct (Js.split sep s) as [|piece pieces] eqn:E.
    + now apply split_not_nil in E.
    + rewrite <- IH. destruct pieces as [|q pieces]; reflexivity.
Qed.

(** X10.  Joining the lines of the log with newlines gives back the log;
    the console shows its placeholder exactly when the log is empty, and
    otherwise one row per line of the log. *)
Theorem console_placeholder_iff_empty_log (log scanStatus : string) :
  Js.join (String newline "") (lines log) = log
  /\ ((exists text : string, body log scanStatus = Placeholder text)
      <-> log = "")
  /\ (log <> "" -> body log scanStatus = Lines (lines log)).
Proof.
  split; [apply split_join|].
  assert (H : log = "" \/ (log <> "" /\ body log scanStatus = Lines (lines log))).
  { pose proof (split_join newline log) as Hj. unfold body. fold (lines log) in Hj.
    cbv zeta. destruct (lines log) as [|l1 [|l2 ls]] eqn:E.
    - now apply split_not_nil in E.
    - cbn [length Nat.eqb head orb andb Js.truthy_str].
      destruct (String.eqb_spec l1 "") as [->|Hne]; simpl.
      + left. now rewrite <- Hj.
      + right. split; [|reflexivity]. intros ->. simpl in E.
        injection E as <-. now apply Hne.
    - right. split; [|reflexivity]. intros ->. discriminate E. }
  split.
  - split.
    + intros [text Ht]. destruct H as [H|[_ H]]; [exact H|].
      rewrite H in Ht. discriminate Ht.
    + intros ->. eexists. reflexivity.
  - intros Hne. destruct H as [H|[_ H]]; [contradiction | exact H].
Qed.

Lemma is_digit_lower (c : ascii) : is_digit (Js.lower_ascii c) = is_digit c.
Proof. destruct c as [[] [] [] [] [] [] [] []]; reflexivity. Qed.

Lemma is_word_char_lower (c : ascii) :
  is_word_char (Js.lower_ascii c) = is_word_char c.
Proof. destruct c as [[] [] [] [] [] [] [] []]; reflexivity. Qed.

Lemma lower_ascii_idem (c : ascii) :
  Js.lower_ascii (Js.lower_ascii c) = Js.lower_ascii c.
Proof. destruct c as [[] [] [] [] [] [] [] []]; reflexivity. Qed.

Lemma match_literal_lower (w text : string) :
  match_literal w (Js.toLowerCase text)
  = option_map Js.toLowerCase (match_literal w text).
Proof.
  revert text. induction w as [|k w IH]; intros text; [reflexivity|].
  destruct text as [|c text]; [reflexivity|].
  cbn [match_literal Js.toLowerCase]. rewrite lower_ascii_idem.
  destruct (Ascii.eqb (Js.lower_ascii k) (Js.lower_ascii c));
    [apply IH | reflexivity].
Qed.

Lemma boundary_lower (text : string) :
  boundary (Js.toLowerCase text) = boundary text.
Proof.
  destruct text as [|c text]; [reflexivity|].
  simpl. now rewrite is_word_char_lower.
Qed.

Lemma existsb_pointwise {A : Type} (f g : A -> bool) (l : list A) :
  (forall x, f x = g x) -> existsb f l = existsb g l.
Proof.
  intros H. induction l as [|x l IH]; simpl; [reflexivity|].
  now rewrite H, IH.
Qed.

Lemma test_words_lower (words : list string) (after_word : bool)
      (text : string) :
  test_words words after_word (Js.toLowerCase text)
  = test_words words after_word text.
Proof.
  revert after_word. induction text as [|c text IH]; intros after_word.
  - reflexivity.
  - cbn [test_words Js.toLowerCase]. rewrite IH, is_word_char_lower.
    f_equal. f_equal. apply existsb_pointwise. intros w.
    change (String (Js.lower_ascii c) (Js.toLowerCase text))
      with (Js.toLowerCase (String c text)).
    rewrite match_literal_lower.
    destruct (match_literal w (String c text)); [|reflexivity].
    apply boundary_lower.
Qed.

Lemma starts_with_digit_lower (text : string) :
  starts_with_digit (Js.toLowerCase text) = starts_with_digit text.
Proof.
  destruct text as [|c text]; [reflexivity|].
  simpl. apply is_digit_lower.
Qed.

Lemma lower_ascii_dash (c : ascii) :
  Ascii.eqb (Js.lower_ascii c) "-" = Ascii.eqb c "-".
Proof. destruct c as [[] [] [] [] [] [] [] []]; reflexivity. Qed.

Lemma match_cve_number_lower (text : string) :
  match_cve_number (Js.toLowerCase text) = match_cve_number text.
Proof.
  destruct text as [|a [|b [|c [|d [|dash rest]]]]]; try reflexivity.
  cbn [match_cve_number Js.toLowerCase].
  now rewrite !is_digit_lower, lower_ascii_dash, starts_with_digit_lower.
Qed.

Lemma test_cve_lower (text : string) :
  test_cve (Js.toLowerCase text) = test_cve text.
Proof.
  induction text as [|c text IH]; [reflexivity|].
  cbn [test_cve Js.toLowerCase]. rewrite IH. f_equal.
  change (String (Js.lower_ascii c) (Js.toLowerCase text))
    with (Js.toLowerCase (String c text)).
  rewrite match_literal_lower.
  destruct (match_literal "CVE-" (String c text)); [|reflexivity].
  apply match_cve_number_lower.
Qed.

Lemma same_up_to_case_lower (a b : string) :
  same_up_to_case a b = true -> Js.toLowerCase a = Js.toLowerCase b.
Proof.
  revert b. induction a as [|x a IH]; intros [|y b]; simpl;
    try discriminate; [reflexivity|].
  intros H. apply andb_true_iff in H as [Hc Hr].
  apply Ascii.eqb_eq in Hc. rewrite Hc. f_equal. now apply IH.
Qed.

Lemma LogLine_class_lower (line : string) :
  LogLine_class (Js.toLowerCase line) = LogLine_class line.
Proof.
  unfold LogLine_class. now rewrite !test_words_lower, test_cve_lower.
Qed.

(** X11.  The colour of a log line does not depend on the case of its
    letters A to Z: two lines that differ only in that get the same
    class. *)
Theorem log_line_colour_ignores_case (line1 line2 : string) :
  same_up_to_case line1 line2 = true ->
  LogLine_class line1 = LogLine_class line2.
Proof.
  intros H. rewrite <- (LogLine_class_lower line1),
    <- (LogLine_class_lower line2).
  now rewrite (same_up_to_case_lower _ _ H).
Qed.

Lemma log_line_colour_ignores_case_witness :
  LogLine_class "[ERROR] Analysis Failed"
  = LogLine_class "[error] analysis FAILED".
Proof.
  apply (log_line_colour_ignores_case "[ERROR] Analysis Failed"
           "[error] analysis FAILED").
  reflexivity.
Defined.

End ConsoleLog.

(** ** The dashboard between two changes of the number of scans *)
Section DashboardEffect.
Import Rows DashboardPage.

(** The effect's dependency is the length of the list on display, and the
    list the interval callback sees is as long. *)
Lemma step_keeps_lengths (ev : Event) (st : State) :
  dep_length st = length (scans st) ->
  length (closure_scans st) = length (scans st) ->
  dep_length (fst (step ev st)) = length (scans (fst (step ev st)))
  /\ length (closure_scans (fst (step ev st)))
     = length (scans (fst (step ev st))).
Proof.
  intros Hd Hc. destruct ev as [data| | |id]; simpl; try tauto;
    unfold rerender; simpl;
    match goal with
    | |- context [Nat.eqb ?a ?b] => destruct (Nat.eqb_spec a b) as [E|E]
    end; simpl; split; congruence.
Qed.

Lemma run_keeps_lengths (evs : list Event) (st : State) :
  dep_length st = length (scans st) ->
  length (closure_scans st) = length (scans st) ->
  dep_length (fst (run evs st)) = length (scans (fst (run evs st)))
  /\ length (closure_scans (fst (run evs st)))
     = length (scans (fst (run evs st))).
Proof.
  revert st. induction evs as [|ev evs IH]; intros st Hd Hc; [now split|].
  simpl. destruct (step_keeps_lengths ev st Hd Hc) as [Hd1 Hc1].
  destruct (step ev st) as [st1 acts]. simpl in *.
  specialize (IH st1 Hd1 Hc1).
  destruct (run evs st1) as [st2 more]. exact IH.
Qed.

Lemma session_keeps_lengths (evs : list Event) :
  dep_length (fst (session evs)) = length (scans (fst (session evs)))
  /\ length (closure_scans (fst (session evs)))
     = length (scans (fst (session evs))).
Proof.
  unfold session. simpl.
  pose proof (run_keeps_lengths evs
                {| scans := []; loading := true; dep_length := 0;
                   closure_scans := [] |} eq_refl eq_refl) as H.
  destruct (run evs _) as [st more]. exact H.
Qed.

Lemma filter_all_length {A : Type} (p : A -> bool) (l : list A) (x : A) :
  In x l -> p x = false -> length (List.filter p l) < length l.
Proof.
  intros Hin Hp. induction l as [|y l IH]; [destruct Hin|].
  simpl. pose proof (List.filter_length_le p l) as Hle.
  destruct Hin as [->|Hin].
  - rewrite Hp. lia.
  - specialize (IH Hin). destruct (p y); simpl; lia.
Qed.

(** X12.  Once the effect has run with a list in which no scan is pending
    or running, the dashboard sends no request of its own accord for as
    long as the number of scans stays the same: neither the ticks of its
    interval nor fetches that fail or return as many scans make it fetch. *)
Theorem dashboard_idle_until_count_changes (evs : list Event) (st : State) :
  hasActive (closure_scans st) = false ->
  Forall (fun ev => match ev with
                    | Resolved data => length data = dep_length st
                    | FetchFailed | Tick => True
                    | Deleted _ => False
                    end) evs ->
  Forall (fun acts => acts = []) (snd (run evs st))
  /\ closure_scans (fst (run evs st)) = closure_scans st.
Proof.
  revert st. induction evs as [|ev evs IH]; intros st Ha Hev.
  - split; [constructor | reflexivity].
  - inversion Hev as [|? ? Hhd Htl]; subst. simpl.
    assert (H1 : snd (step ev st) = []
                 /\ closure_scans (fst (step ev st)) = closure_scans st
                 /\ dep_length (fst (step ev st)) = dep_length st).
    { destruct ev as [data| | |id]; simpl.
      - unfold rerender. simpl. rewrite Hhd, Nat.eqb_refl. now repeat split.
      - now repeat split.
      - unfold on_tick. rewrite Ha. now repeat split.
      - destruct Hhd. }
    destruct (step ev st) as [st1 acts]. simpl in H1.
    destruct H1 as (-> & Hc & Hd).
    specialize (IH st1). rewrite Hc, Hd in IH. specialize (IH Ha Htl).
    destruct (run evs st1) as [st2 more]. simpl in *.
    destruct IH as [IH1 IH2]. split; [now constructor | exact IH2].
Qed.

Lemma dashboard_idle_until_count_changes_witness :
  Forall (fun acts => acts = [])
         (snd (run [Tick; Resolved [scan_1 "running"]; Tick; FetchFailed; Tick]
                   (fst (session [Resolved [scan_1 "completed"]]))))
  /\ closure_scans
       (fst (run [Tick; Resolved [scan_1 "running"]; Tick; FetchFailed; Tick]
                 (fst (session [Resolved [scan_1 "completed"]]))))
     = closure_scans (fst (session [Resolved [scan_1 "completed"]])).
Proof.
  apply (dashboard_idle_until_count_changes
           [Tick; Resolved [scan_1 "running"]; Tick; FetchFailed; Tick]
           (fst (session [Resolved [scan_1 "completed"]]))).
  - reflexivity.
  - repeat constructor.
Defined.

(** X13.  Deleting a scan that is on display changes the number of scans,
    so the effect is cleaned up and run again: the old interval is cleared,
    the list is fetched once more, and the new interval's callback sees the
    list without the deleted scan. *)
Theorem delete_restarts_polling (evs : list Event) (id : Z) (s : Scan) :
  In s (scans (fst (session evs))) ->
  scan_id s = id ->
  snd (step (Deleted id) (fst (session evs)))
  = [ClearInterval; FetchScans; SetInterval 5000%Z]
  /\ closure_scans (fst (step (Deleted id) (fst (session evs))))
     = scans (fst (step (Deleted id) (fst (session evs))))
  /\ scans (fst (step (Deleted id) (fst (session evs))))
     = List.filter (fun s => negb (Z.eqb (scan_id s) id))
                   (scans (fst (session evs)))
  /\ forall s' : Scan,
       In s' (scans (fst (step (Deleted id) (fst (session evs))))) ->
       scan_id s' <> id.
Proof.
  intros Hin Hid. destruct (session_keeps_lengths evs) as [Hd _].
  set (st := fst (session evs)) in *.
  assert (Hlt : length (List.filter (fun s => negb (Z.eqb (scan_id s) id))
                                    (scans st)) < length (scans st)).
  { apply (filter_all_length _ _ s Hin). rewrite Hid, Z.eqb_refl.
    reflexivity. }
  unfold step, rerender.
  destruct (Nat.eqb_spec
              (length (List.filter (fun s => negb (Z.eqb (scan_id s) id))
                                   (scans st)))
              (dep_length st)) as [E|E]; [lia|].
  simpl. repeat split.
  intros s' Hs'. apply filter_In in Hs' as [_ Hs'].
  now apply negb_true_iff, Z.eqb_neq in Hs'.
Qed.

Lemma delete_restarts_polling_witness :
  snd (step (Deleted 1) (fst (session scan_completes)))
  = [ClearInterval; FetchScans; SetInterval 5000%Z]
  /\ closure_scans (fst (step (Deleted 1) (fst (session scan_completes))))
     = scans (fst (step (Deleted 1) (fst (session scan_completes))))
  /\ scans (fst (step (Deleted 1) (fst (session scan_completes))))
     = List.filter (fun s => negb (Z.eqb (scan_id s) 1))
                   (scans (fst (session scan_completes)))
  /\ forall s' : Scan,
       In s' (scans (fst (step (Deleted 1) (fst (session scan_completes))))) ->
       scan_id s' <> 1%Z.
Proof.
  apply (delete_restarts_polling scan_completes 1 (scan_1 "completed")).
  - left. reflexivity.
  - reflexivity.
Defined.

End DashboardEffect.

(** ** What the upload form posts *)
Section UploadForm.
Import FileUpload FileUploadUI.

(** The selected file, if any, passed the check of [validateAndSet]. *)
Lemma validateAndSet_keeps_checked (f : File) (st : State) :
  (forall g, file st = Some g -> passes_check g = true) ->
  forall g, file (validateAndSet f st) = Some g -> passes_check g = true.
Proof.
  intros H g. unfold validateAndSet.
  destruct (ext_of f) as [ext|] eqn:E; [|apply H].
  destruct (Js.includes SUPPORTED ext) eqn:Hi; simpl; [|apply H].
  intros [= <-]. unfold passes_check. now rewrite E.
Qed.

Lemma step_keeps_checked (ev : Event) (st : State) :
  (forall g, file st = Some g -> passes_check g = true) ->
  (forall g, file (fst (step ev st)) = Some g -> passes_check g = true)
  /\ (forall g, In (PostUpload g) (snd (step ev st)) ->
                passes_check g = true).
Proof.
  intros H. destruct ev as [dropped|picked| | | |reply]; simpl.
  - split; [|tauto]. unfold handleDrop. destruct dropped as [f|].
    + apply validateAndSet_keeps_checked. exact H.
    + exact H.
  - split; [|tauto]. unfold onChange. destruct picked as [f|].
    + apply validateAndSet_keeps_checked. exact H.
    + exact H.
  - split; [exact H | tauto].
  - split; [exact H | tauto].
  - split; [discriminate | tauto].
  - unfold handleUpload. destruct (file st) as [f|] eqn:E.
    + destruct reply; simpl; (split; [rewrite E; exact H|]);
        intros g [[= <-]|Hg]; try (now apply H);
        destruct Hg as [Hg|[]]; discriminate Hg.
    + simpl. split; [rewrite E; exact H | tauto].
Qed.

Lemma run_keeps_checked (evs : list Event) (st : State) (g : File) :
  (forall g, file st = Some g -> passes_check g = true) ->
  In (PostUpload g) (snd (run evs st)) -> passes_check g = true.
Proof.
  revert st. induction evs as [|ev evs IH]; intros st H; [intros []|].
  simpl. destruct (step_keeps_checked ev st H) as [H1 H2].
  destruct (step ev st) as [st1 effects]. simpl in *.
  specialize (IH st1 H1). destruct (run evs st1) as [st2 more]. simpl in *.
  intros Hin. apply in_app_or in Hin as [Hin|Hin]; [now apply H2 | now apply IH].
Qed.

(** X14.  Whatever is dropped, picked, removed and clicked, every file the
    form posts to the server is one whose last dot-separated piece, in
    lower case and behind a dot, is in [SUPPORTED]; a rejected file is
    never posted. *)
Theorem only_checked_files_are_posted (evs : list Event) (g : File) :
  In (PostUpload g) (snd (run evs initial)) ->
  exists ext : string,
    ext_of g = Some ext /\ Js.includes SUPPORTED ext = true.
Proof.
  intros H.
  assert (Hp : passes_check g = true).
  { apply (run_keeps_checked evs initial g); [discriminate | exact H]. }
  unfold passes_check in Hp. destruct (ext_of g) as [ext|]; [|discriminate].
  now exists ext.
Qed.

Lemma only_checked_files_are_posted_witness :
  In (PostUpload {| name := "app.WAR"; size := 10 |})
     (snd (run [Drop (Some {| name := "app.WAR"; size := 10 |});
                Change (Some {| name := "notes.txt"; size := 3 |});
                ClickUpload (Created 12)] initial))
  /\ exists ext : string,
       ext_of {| name := "app.WAR"; size := 10 |} = Some ext
       /\ Js.includes SUPPORTED ext = true.
Proof.
  assert (H : In (PostUpload {| name := "app.WAR"; size := 10 |})
                 (snd (run [Drop (Some {| name := "app.WAR"; size := 10 |});
                            Change (Some {| name := "notes.txt"; size := 3 |});
                            ClickUpload (Created 12)] initial))).
  { left. reflexivity. }
  split; [exact H|].
  exact (only_checked_files_are_posted _ _ H).
Defined.

End UploadForm.

(** ** Signing in and out *)
Section SigningInAndOut.
Import Api Session.

(** X15.  A login the server accepts stores the token and the user and
    opens the dashboard; the logout of the navigation bar then removes
    both entries, touches no other entry of localStorage, goes to the
    login page, and every route ends there. *)
Theorem login_then_logout (r : Response) (data : LoginData) (f : Form)
    (b : Browser) :
  mode f <> "register" ->
  validateStatus (status r) = true ->
  user_json data <> "" ->
  let b1 := snd (handleSubmit (GotResponse r) data f b) in
  let b2 := handleLogout b1 in
  localStorage b1 !! "token" = Some (access_token data)
  /\ localStorage b1 !! "user" = Some (user_json data)
  /\ location_href b1 = "/"
  /\ render route_dashboard b1 = DashboardPage
  /\ localStorage b2 !! "token" = None
  /\ localStorage b2 !! "user" = None
  /\ (forall k : string, k <> "token" -> k <> "user" ->
        localStorage b2 !! k = localStorage b !! k)
  /\ location_href b2 = "/login"
  /\ forall route : Route,
       render route b2 = LoginPage \/ render route b2 = NavigateTo "/login".
Proof.
  intros Hm Hs Hu. apply String.eqb_neq in Hm.
  unfold handleSubmit, submit_login, request. rewrite Hm, Hs. simpl.
  assert (Huser : forall m : gmap string string,
             delete "user" (delete "token" m) !! "user" = None)
    by (intros m; apply lookup_delete_eq).
  repeat split.
  - rewrite lookup_insert_ne by discriminate. apply lookup_insert_eq.
  - apply lookup_insert_eq.
  - unfold ProtectedRoute. simpl. rewrite lookup_insert_eq. simpl.
    apply String.eqb_neq in Hu. now rewrite Hu.
  - rewrite lookup_delete_ne by discriminate. apply lookup_delete_eq.
  - apply Huser.
  - intros k Hk1 Hk2.
    rewrite !lookup_delete_ne by congruence.
    now rewrite !lookup_insert_ne by congruence.
  - intros route. apply logged_out_routes. simpl. apply Huser.
Qed.

Lemma login_then_logout_witness :
  let b1 := snd (handleSubmit
                   (GotResponse {| status := 200; detail := None |})
                   {| access_token := "abc"; user_json := "{}" |}
                   {| mode := "login"; error := "" |}
                   {| localStorage := ∅; location_href := "/login" |}) in
  let b2 := handleLogout b1 in
  localStorage b1 !! "token" = Some "abc"
  /\ localStorage b1 !! "user" = Some "{}"
  /\ location_href b1 = "/"
  /\ render route_dashboard b1 = DashboardPage
  /\ localStorage b2 !! "token" = None
  /\ localStorage b2 !! "user" = None
  /\ (forall k : string, k <> "token" -> k <> "user" ->
        localStorage b2 !! k
        = localStorage {| localStorage := ∅; location_href := "/login" |}
            !! k)
  /\ location_href b2 = "/login"
  /\ forall route : Route,
       render route b2 = LoginPage \/ render route b2 = NavigateTo "/login".
Proof.
  apply (login_then_logout {| status := 200; detail := None |}
           {| access_token := "abc"; user_json := "{}" |}
           {| mode := "login"; error := "" |}
           {| localStorage := ∅; location_href := "/login" |});
    [discriminate | reflexivity | discriminate].
Defined.

(** X16.  The logout of the 401 interceptor removes the [user] entry only:
    every other entry of localStorage, the token that the login stored
    among them, is still there after a response with status 401. *)
Theorem interceptor_keeps_token (c : Call) (r : Response) (b : Browser)
    (k : string) :
  status r = 401%Z ->
  k <> "user" ->
  localStorage (fst (request c (GotResponse r) b)) !! k = localStorage b !! k.
Proof.
  intros Hs Hk. unfold request, onRejected. rewrite Hs. simpl.
  apply lookup_delete_ne. congruence.
Qed.

Lemma interceptor_keeps_token_witness :
  localStorage (fst (request (scans_get 3) (GotResponse expired_session)
                             (setItem "token" "abc" logged_in))) !! "token"
  = localStorage (setItem "token" "abc" logged_in) !! "token".
Proof.
  apply (interceptor_keeps_token (scans_get 3) expired_session
           (setItem "token" "abc" logged_in) "token");
    [reflexivity | discriminate].
Defined.

(** X17.  Submitting the form never signs anybody in unless it is a login
    the server accepts: a registration, accepted or not, and a refused
    login leave the token as it was and never store a user. *)
Theorem only_accepted_login_signs_in (reply : Reply) (data : LoginData)
    (f : Form) (b : Browser) :
  mode f = "register"
  \/ (forall r, reply = GotResponse r -> validateStatus (status r) = false) ->
  localStorage (snd (handleSubmit reply data f b)) !! "token"
  = localStorage b !! "token"
  /\ (localStorage (snd (handleSubmit reply data f b)) !! "user"
      = localStorage b !! "user"
      \/ localStorage (snd (handleSubmit reply data f b)) !! "user" = None).
Proof.
  intros H.
  assert (Hreq : forall c : Call,
             localStorage (fst (request c reply b)) !! "token"
             = localStorage b !! "token"
             /\ (localStorage (fst (request c reply b)) !! "user"
                 = localStorage b !! "user"
                 \/ localStorage (fst (request c reply b)) !! "user" = None)).
  { intros c. unfold request, onRejected. destruct reply as [r|]; simpl.
    - destruct (validateStatus (status r)); simpl; [now split; [|left]|].
      destruct (Z.eqb (status r) 401); simpl.
      + split; [now apply lookup_delete_ne | right; apply lookup_delete_eq].
      + now split; [|left].
    - now split; [|left]. }
  unfold handleSubmit. destruct (String.eqb_spec (mode f) "register") as [E|E].
  - unfold submit_register. specialize (Hreq auth_register).
    destruct (request auth_register reply b) as [b1 [res|err]]; exact Hreq.
  - destruct H as [H|H]; [contradiction|].
    unfold submit_login. specialize (Hreq auth_login).
    destruct (request auth_login reply b) as [b1 [res|err]] eqn:Er;
      [|exact Hreq].
    exfalso. unfold request in Er. destruct reply as [r|]; [|discriminate Er].
    rewrite (H r eq_refl) in Er. discriminate Er.
Qed.

Lemma only_accepted_login_signs_in_witness :
  localStorage (snd (handleSubmit (GotResponse expired_session)
                       {| access_token := "abc"; user_json := "{}" |}
                       {| mode := "login"; error := "" |} logged_in))
    !! "token"
  = localStorage logged_in !! "token"
  /\ (localStorage (snd (handleSubmit (GotResponse expired_session)
                           {| access_token := "abc"; user_json := "{}" |}
                           {| mode := "login"; error := "" |} logged_in))
        !! "user"
      = localStorage logged_in !! "user"
      \/ localStorage (snd (handleSubmit (GotResponse expired_session)
                              {| access_token := "abc"; user_json := "{}" |}
                              {| mode := "login"; error := "" |} logged_in))
           !! "user" = None).
Proof.
  apply (only_accepted_login_signs_in (GotResponse expired_session)
           {| access_token := "abc"; user_json := "{}" |}
           {| mode := "login"; error := "" |} logged_in).
  right. intros r [= <-]. reflexivity.
Defined.

End SigningInAndOut.

(** ** The integration form *)
Section IntegrationForm.
Import CicdIntegration.

Lemma rendered_fields_cases (f : Form) :
  In (type f) (map value INTEGRATION_TYPES) ->
  exists t, In t INTEGRATION_TYPES /\ value t = type f
            /\ selectedType f = Some t /\ rendered_fields f = fields t.
Proof.
  unfold rendered_fields, selectedType. simpl.
  intros [H|[H|[H|[]]]]; rewrite <- H; simpl;
    refine (ex_intro _ _ (conj _ (conj _ (conj eq_refl _))));
    first [reflexivity | simpl; auto].
Qed.

Lemma reachable_invariant (f : Form) :
  reachable f ->
  In (type f) (map value INTEGRATION_TYPES)
  /\ forall k : string, is_Some (config f !! k) -> In k (rendered_fields f).
Proof.
  induction 1 as [|f e Hr [IHt IHc] Ho].
  - split; [simpl; tauto|]. intros k [v Hk]. simpl in Hk.
    rewrite lookup_empty in Hk. discriminate Hk.
  - destruct e as [text|v|field text| |]; simpl in *.
    + split; [exact IHt | exact IHc].
    + split; [exact Ho|]. intros k [x Hk].
      rewrite lookup_empty in Hk. discriminate Hk.
    + split; [exact IHt|]. intros k Hk.
      destruct (decide (field = k)) as [<-|Hne].
      * exact Ho.
      * rewrite lookup_insert_ne in Hk by exact Hne. now apply IHc.
    + split; [tauto|]. intros k [x Hk].
      rewrite lookup_empty in Hk. discriminate Hk.
    + split; [exact IHt | exact IHc].
Qed.

(** X18.  However the form was filled in, the integration that "Save"
    sends has one of the three types, and its configuration holds values
    only for the fields of that type: changing the type discards what was
    typed for the other type.  Every field the form shows has a label. *)
Theorem saved_config_matches_type (f : Form) :
  reachable f ->
  exists t : IntegrationType,
    In t INTEGRATION_TYPES
    /\ value t = type f
    /\ selectedType f = Some t
    /\ (forall k : string, is_Some (config f !! k) -> In k (fields t))
    /\ (forall k : string, In k (fields t) -> is_Some (FIELD_LABELS !! k)).
Proof.
  intros Hr. destruct (reachable_invariant f Hr) as [Ht Hc].
  destruct (rendered_fields_cases f Ht) as (t & Hin & Hv & Hs & Hf).
  exists t. repeat split; try assumption.
  - intros k Hk. rewrite <- Hf. now apply Hc.
  - intros k Hk. simpl in Hin.
    destruct Hin as [<-|[<-|[<-|[]]]]; simpl in Hk;
      repeat (destruct Hk as [<-|Hk]; [vm_compute; eauto|]);
      destruct Hk.
Qed.

Lemma saved_config_matches_type_witness :
  exists t : IntegrationType,
    In t INTEGRATION_TYPES
    /\ value t
       = type (edit (SetField "url" "https://ci.example.org")
                 (edit (SetType "jenkins")
                    (edit (SetField "pat" "secret") empty_form)))
    /\ selectedType (edit (SetField "url" "https://ci.example.org")
                       (edit (SetType "jenkins")
                          (edit (SetField "pat" "secret") empty_form)))
       = Some t
    /\ (forall k : string,
          is_Some (config (edit (SetField "url" "https://ci.example.org")
                             (edit (SetType "jenkins")
                                (edit (SetField "pat" "secret") empty_form)))
                   !! k) -> In k (fields t))
    /\ (forall k : string, In k (fields t) -> is_Some (FIELD_LABELS !! k)).
Proof.
  apply (saved_config_matches_type
           (edit (SetField "url" "https://ci.example.org")
              (edit (SetType "jenkins")
                 (edit (SetField "pat" "secret") empty_form)))).
  apply reach_edit; [apply reach_edit; [apply reach_edit;
    [apply reach_empty|] |] |]; simpl; tauto.
Defined.

(** X19.  Triggering the pipeline of one integration records the outcome
    under that integration's id and leaves the outcomes shown for the
    other integrations as they were. *)
Theorem trigger_records_one_outcome (id : Z) (reply : TriggerReply)
    (status : gmap Z (option TriggerStatus)) :
  (exists s : TriggerStatus,
     handleTrigger id reply status !! id = Some (Some s)
     /\ (ok s = true <-> reply = Triggered)
     /\ msg s <> "")
  /\ forall j : Z, j <> id ->
       handleTrigger id reply status !! j = status !! j.
Proof.
  split.
  - destruct reply as [|detail]; simpl; eexists;
      (split; [apply lookup_insert_eq|]); simpl.
    + split; [tauto | discriminate].
    + split; [split; discriminate|].
      unfold Js.or_else. destruct detail as [d|]; [|discriminate].
      destruct (String.eqb_spec d ""); [discriminate | assumption].
  - intros j Hj. unfold handleTrigger.
    destruct reply; rewrite !lookup_insert_ne by congruence; reflexivity.
Qed.

End IntegrationForm.

(** ** More facts about runs of scripts *)
Section RunControl.
Import PowerShell.

Lemma always_throw (P : Event -> Prop) (what : string) :
  always P (throw what).
Proof. constructor. Qed.

Lemma orderly_throw (what : string) : orderly (throw what).
Proof. intros s H. reflexivity. Qed.

Lemma always_try_catch (P : Event -> Prop) (body handler : Run unit) :
  always P body -> always P handler -> always P (try_catch body handler).
Proof.
  unfold always, try_catch. intros Hb Hh.
  destruct (result body) as [u|[code|src]]; try exact Hb.
  simpl. apply Forall_app. now split.
Qed.

Lemma orderly_try_catch (body handler : Run unit) :
  orderly body -> orderly handler -> orderly (try_catch body handler).
Proof.
  intros Hb Hh s. unfold try_catch.
  destruct (result body) as [u|[code|src]] eqn:E.
  - unfold exit_code. rewrite E. discriminate.
  - intros H. apply (Hb s). congruence.
  - simpl. intros H. specialize (Hh s H). unfold exit_code in *.
    simpl. exact Hh.
Qed.

Lemma always_foreach {A : Type} (P : Event -> Prop) (l : list A)
      (body : A -> Run unit) :
  (forall x, always P (body x)) -> always P (foreach l body).
Proof.
  intros H. induction l as [|x l IH]; simpl.
  - constructor.
  - apply always_bind; [apply H | intros _; exact IH].
Qed.

Lemma orderly_foreach {A : Type} (l : list A) (body : A -> Run unit) :
  (forall x, orderly (body x)) -> orderly (foreach l body).
Proof.
  intros H. induction l as [|x l IH]; simpl.
  - apply orderly_ret.
  - apply orderly_bind; [apply H | intros _; exact IH].
Qed.

(** The exit code of an orderly run tells whether it reached its last
    line. *)
Lemma orderly_exit_code (r : Run unit) :
  orderly r ->
  (result r = inl tt /\ exit_code r = 0%Z)
  \/ ((exists s, result r = inr s) /\ exit_code r = 1%Z).
Proof.
  intros H. destruct (result r) as [[]|s] eqn:E.
  - left. split; [reflexivity|]. unfold exit_code. now rewrite E.
  - right. split; [eauto|]. now apply (H s).
Qed.

End RunControl.

Ltac script_always :=
  first [ always_step
        | apply always_try_catch
        | apply always_foreach; intros ?
        | apply always_throw ].

Ltac script_orderly :=
  first [ orderly_step
        | apply orderly_try_catch
        | apply orderly_foreach; intros ?
        | apply orderly_throw ].

(** ** The setup script and its launcher *)
Section SetupRun.
Import PowerShell SetupWindows SetupScript.

Ltac open_setup :=
  unfold setup, provision, banner, step1, Ensure_Package, step2, step3,
    step4, create_venv, upgrade_pip, install_packages, step5, step6, step7,
    Write_Step, Write_OK, Write_Info, Write_Err.

Lemma setup_orderly (m : Machine) : orderly (setup m).
Proof. open_setup. repeat script_orderly. Qed.

(** X20.  The setup script ends with exit code 0 when it reached its last
    line and with exit code 1 otherwise, whatever stopped it; the launcher,
    started as administrator, reports "Setup encountered errors" and exits
    with code 1 in exactly the second case. *)
Theorem setup_exit_code_and_launcher (m : Machine) :
  (result (setup m) = inl tt
   /\ exit_code (setup m) = 0%Z
   /\ SetupBat.launcher 0 (exit_code (setup m)) = ([], SetupBat.LastLine))
  \/ ((exists s : Stop, result (setup m) = inr s)
      /\ exit_code (setup m) = 1%Z
      /\ SetupBat.launcher 0 (exit_code (setup m))
         = ([" Setup encountered errors. See messages above."],
            SetupBat.ExitB 1)).
Proof.
  destruct (orderly_exit_code (setup m) (setup_orderly m)) as [[Hr He]|[Hr He]].
  - left. rewrite He. now repeat split.
  - right. rewrite He. now repeat split.
Qed.

Lemma step7_completes (m : Machine) : result (step7 m) = inl tt.
Proof.
  unfold step7, checks, Write_Step, Write_OK, Write_Err. cbn [foreach].
  destruct (allOk m), (check_ok m check_uvicorn), (check_ok m check_dc_bat),
    (check_ok m check_upload_dir), (check_ok m check_reports_dir),
    (check_ok m check_env_file), (check_ok m check_node_modules);
    reflexivity.
Qed.

Lemma step7_reports_errors (m : Machine) :
  allOk m = false ->
  In (Host "  Setup finished with errors - review [!!] messages above.")
     (trace (step7 m))
  /\ ~ In (Host "  Setup complete!") (trace (step7 m)).
Proof.
  intros H. unfold step7. rewrite H.
  unfold checks, Write_Step, Write_OK, Write_Err. cbn [foreach].
  destruct (check_ok m check_uvicorn), (check_ok m check_dc_bat),
    (check_ok m check_upload_dir), (check_ok m check_reports_dir),
    (check_ok m check_env_file), (check_ok m check_node_modules);
    cbn;
    (split; [repeat (first [left; reflexivity | right])
            | intros Hin; repeat (destruct Hin as [Hin|Hin];
                                  [discriminate Hin|]); exact Hin]).
Qed.

Lemma provision_never_announces (m : Machine) :
  always (fun e => e <> Host "  Setup complete!") (provision m).
Proof.
  open_setup. repeat script_always; simpl; discriminate.
Qed.

(** X21.  The verification step never fails the script: when the steps
    before it went through and a check finds something missing, the script
    prints "Setup finished with errors" instead of "Setup complete!" and
    still ends with exit code 0, so the launcher does not report errors. *)
Theorem failed_verification_exits_zero (m : Machine) :
  result (provision m) = inl tt ->
  allOk m = false ->
  exit_code (setup m) = 0%Z
  /\ In (Host "  Setup finished with errors - review [!!] messages above.")
        (trace (setup m))
  /\ ~ In (Host "  Setup complete!") (trace (setup m))
  /\ SetupBat.launcher 0 (exit_code (setup m)) = ([], SetupBat.LastLine).
Proof.
  intros Hp Ha. destruct (step7_reports_errors m Ha) as [Hin Hnin].
  assert (He : exit_code (setup m) = 0%Z).
  { unfold setup. rewrite exit_code_bind, Hp. unfold exit_code.
    now rewrite step7_completes. }
  rewrite He. repeat split.
  - unfold setup. eapply In_trace_bind_r; [exact Hp | exact Hin].
  - unfold setup. rewrite trace_bind, Hp. intros H.
    apply in_app_or in H as [H|H]; [|now apply Hnin].
    pose proof (provision_never_announces m) as Hq.
    unfold always in Hq. rewrite List.Forall_forall in Hq.
    now apply (Hq _ H).
Qed.

Lemma failed_verification_exits_zero_witness :
  exit_code (setup node_modules_missing) = 0%Z
  /\ In (Host "  Setup finished with errors - review [!!] messages above.")
        (trace (setup node_modules_missing))
  /\ ~ In (Host "  Setup complete!") (trace (setup node_modules_missing))
  /\ SetupBat.launcher 0 (exit_code (setup node_modules_missing))
     = ([], SetupBat.LastLine).
Proof.
  apply (failed_verification_exits_zero node_modules_missing);
    vm_compute; reflexivity.
Defined.

(** X22.  When [.env] exists the script never asks for the API key and
    never writes the file: an existing configuration is not overwritten. *)
Theorem existing_env_file_is_kept (m : Machine) :
  env_exists m = true ->
  always (fun e => is_cmdlet "Set-Content" e = false
                   /\ is_cmdlet "Read-Host" e = false) (setup m).
Proof.
  intros H. open_setup. rewrite H.
  repeat script_always; split; reflexivity.
Qed.

Lemma existing_env_file_is_kept_witness :
  always (fun e => is_cmdlet "Set-Content" e = false
                   /\ is_cmdlet "Read-Host" e = false)
         (setup node_modules_missing).
Proof.
  apply (existing_env_file_is_kept node_modules_missing). reflexivity.
Defined.

(** X23.  When [python], [node] and [java] are all on the PATH the script
    installs nothing through winget. *)
Theorem found_packages_are_not_installed (m : Machine) :
  (forall p : Package, command_found m p = true) ->
  always (fun e => is_winget_install e = false) (setup m).
Proof.
  intros H. open_setup. rewrite !H.
  repeat script_always; reflexivity.
Qed.

Lemma found_packages_are_not_installed_witness :
  always (fun e => is_winget_install e = false) (setup node_modules_missing).
Proof.
  apply (found_packages_are_not_installed node_modules_missing).
  intros p. reflexivity.
Defined.

(** X24.  Step 4 looks at the exit code of the package installation only:
    when creating the virtual environment or upgrading pip exits with an
    error code, the step prints "Virtual environment created." all the
    same and goes through if the packages install. *)
Theorem venv_exit_codes_are_ignored (w : World) (c c' : Z) :
  venvPy_exists w = false ->
  python_venv w = Some c ->
  pip_upgrade w = Some c' ->
  pip_install w = Some 0%Z ->
  result (step4 w) = inl tt
  /\ In (Host "  [OK] Virtual environment created.") (trace (step4 w))
  /\ In (Host "  [OK] Python packages installed.") (trace (step4 w)).
Proof.
  intros Hv Hc Hu Hi.
  unfold step4, create_venv, upgrade_pip, install_packages.
  rewrite Hv, Hc, Hu, Hi. cbn.
  repeat split; repeat (first [left; reflexivity | right]).
Qed.

Lemma venv_exit_codes_are_ignored_witness :
  result (step4 venv_creation_fails) = inl tt
  /\ In (Host "  [OK] Virtual environment created.")
        (trace (step4 venv_creation_fails))
  /\ In (Host "  [OK] Python packages installed.")
        (trace (step4 venv_creation_fails)).
Proof.
  apply (venv_exit_codes_are_ignored venv_creation_fails 1 2); reflexivity.
Defined.

(** X25.  Step 5 leaves the directory stack as it found it: it runs
    [Pop-Location] exactly once when [Push-Location] worked, whether
    [npm install] succeeded, failed or could not be started, and not at all
    when [Push-Location] failed. *)
Theorem npm_step_pops_what_it_pushed (w : World) :
  attempts (is_cmdlet "Pop-Location") (step5 w)
  = if push_location w then 1 else 0.
Proof.
  unfold step5. destruct (push_location w);
    destruct (npm_install w) as [[|?|?]|]; reflexivity.
Qed.

End SetupRun.

(** ** The order of the packaging steps of the build script *)
Section BuildMsiOrder.
Import PowerShell BuildMsi BuildMsiEvents.

Ltac open_build :=
  unfold build_msi, prepare, package, locate_wix, check_tools, build_venv,
    frontend_build, pyinstaller, stage_jre, stage_owaspdc, harvest, Heat,
    compile, link, report, Download, Remove_Item, Expand_Archive,
    Step, OK, Warn, Fail;
  cbn [foreach].

(** An event that no part before the end of [m] shows was produced after
    [m] went through. *)
Lemma In_trace_bind_inv {A B : Type} (sel : Event -> bool) (e : Event)
      (m : Run A) (k : A -> Run B) :
  always (fun e => sel e = false) m ->
  sel e = true ->
  In e (trace (m ≫= k)) ->
  exists a, result m = inl a /\ In e (trace (k a)).
Proof.
  intros Hm He Hin. rewrite trace_bind in Hin.
  assert (Hn : ~ In e (trace m)).
  { intros H. unfold always in Hm. rewrite List.Forall_forall in Hm.
    specialize (Hm e H). congruence. }
  destruct (result m) as [a|s]; [|contradiction].
  apply in_app_or in Hin as [Hin|Hin]; [contradiction|]. eauto.
Qed.

Ltac no_light :=
  first [ reflexivity
        | apply bool_decide_eq_false; unfold light_args; simpl;
          intros H; discriminate H ].

Lemma stage_jre_no_light (w : World) (p : Params) :
  always (fun e => is_light_run w p e = false) (stage_jre w p).
Proof. open_build. repeat always_step; no_light. Qed.

Lemma stage_owaspdc_no_light (w : World) (p : Params) :
  always (fun e => is_light_run w p e = false) (stage_owaspdc w p).
Proof. open_build. repeat always_step; no_light. Qed.

Lemma harvest_no_light (w : World) (p : Params) (HeatExe : string) :
  always (fun e => is_light_run w p e = false) (harvest w HeatExe).
Proof. open_build. repeat always_step; no_light. Qed.

Lemma compile_no_light (w : World) (p : Params) (CandleExe : string) :
  always (fun e => is_light_run w p e = false) (compile w p CandleExe).
Proof. open_build. repeat always_step; no_light. Qed.

(** What a harvest and a compilation that went through have run. *)
Lemma Heat_completed (w : World) (HeatExe : string) (h : Harvest)
      (SrcDir DirRef VarName OutFile Prefix : string) :
  result (Heat w HeatExe h SrcDir (CgId h) DirRef VarName OutFile Prefix)
  = inl tt ->
  exists e,
    In e (trace (Heat w HeatExe h SrcDir (CgId h) DirRef VarName OutFile
                      Prefix))
    /\ is_heat_run h 0 e = true
    /\ In (Cmdlet "Rewrite-Ids" [OutFile; Prefix] true)
          (trace (Heat w HeatExe h SrcDir (CgId h) DirRef VarName OutFile
                       Prefix)).
Proof.
  unfold Heat, Fail.
  destruct (exit_code_of w (run_heat h)) as [[|c|c]|];
    try (intros H; discriminate H);
    destruct (succeeds w (rewrite_ids h));
    try (intros H; discriminate H).
  intros _. eexists. split; [left; reflexivity|].
  split; [|right; left; reflexivity].
  destruct h; reflexivity.
Qed.

Lemma harvest_completed (w : World) (HeatExe : string) (h : Harvest) :
  result (harvest w HeatExe) = inl tt ->
  exists e, In e (trace (harvest w HeatExe)) /\ is_heat_run h 0 e = true.
Proof.
  unfold harvest. intros H.
  apply bind_completed in H as (? & H0 & H & _).
  apply bind_completed in H as ([] & H1 & H & _).
  apply bind_completed in H as ([] & H2 & H3 & _).
  destruct h.
  - destruct (Heat_completed w HeatExe AppFiles _ _ _ _ _ H1) as (e & He & Hh & _).
    exists e. split; [|exact Hh].
    eapply In_trace_bind_r; [exact H0|]. now apply In_trace_bind_l.
  - destruct (Heat_completed w HeatExe JREFiles _ _ _ _ _ H2) as (e & He & Hh & _).
    exists e. split; [|exact Hh].
    eapply In_trace_bind_r; [exact H0|].
    eapply In_trace_bind_r; [exact H1|]. now apply In_trace_bind_l.
  - destruct (Heat_completed w HeatExe OWASPDCFiles _ _ _ _ _ H3) as (e & He & Hh & _).
    exists e. split; [|exact Hh].
    eapply In_trace_bind_r; [exact H0|].
    eapply In_trace_bind_r; [exact H1|].
    eapply In_trace_bind_r; [exact H2|]. exact He.
Qed.

Lemma compile_completed (w : World) (p : Params) (CandleExe : string) :
  result (compile w p CandleExe) = inl tt ->
  In (Native CandleExe (candle_args w p) (Some 0%Z))
     (trace (compile w p CandleExe)).
Proof.
  unfold compile, Step, Fail.
  destruct (exit_code_of w run_candle) as [[|c|c]|];
    try (intros H; discriminate H).
  intros _. right. left. reflexivity.
Qed.

(** X26.  The build script starts [light.exe] only in a run in which
    [heat.exe] has exited with code 0 for each of the three harvested
    directories and [candle.exe] has exited with code 0 on the script's
    sources. *)
Theorem light_runs_after_heat_and_candle (w : World) (p : Params)
    (e : Event) :
  In e (trace (build_msi w p)) ->
  is_light_run w p e = true ->
  (forall h : Harvest,
     exists e' : Event,
       In e' (trace (build_msi w p)) /\ is_heat_run h 0 e' = true)
  /\ exists CandleExe : string,
       In (Native CandleExe (candle_args w p) (Some 0%Z))
          (trace (build_msi w p)).
Proof.
  intros Hin Hl. unfold build_msi in *.
  apply (In_trace_bind_inv (is_light_run w p)) in Hin
    as ([[HeatExe CandleExe] LightExe] & Hprep & Hin);
    [|apply prepare_no_light | exact Hl].
  apply (In_trace_bind_inv (is_light_run w p)) in Hin as ([] & Hfront & Hin);
    [|apply frontend_build_no_light | exact Hl].
  apply (In_trace_bind_inv (is_light_run w p)) in Hin as ([] & Hpy & Hin);
    [|apply pyinstaller_no_light | exact Hl].
  unfold package in Hin.
  apply (In_trace_bind_inv (is_light_run w p)) in Hin as ([] & Hjre & Hin);
    [|apply stage_jre_no_light | exact Hl].
  apply (In_trace_bind_inv (is_light_run w p)) in Hin as ([] & Hdc & Hin);
    [|apply stage_owaspdc_no_light | exact Hl].
  apply (In_trace_bind_inv (is_light_run w p)) in Hin as ([] & Hharvest & Hin);
    [|apply harvest_no_light | exact Hl].
  apply (In_trace_bind_inv (is_light_run w p)) in Hin as ([] & Hcompile & Hin);
    [|apply compile_no_light | exact Hl].
  split.
  - intros h. destruct (harvest_completed w HeatExe h Hharvest) as (e' & He' & Hh).
    exists e'. split; [|exact Hh].
    eapply In_trace_bind_r; [exact Hprep|].
    eapply In_trace_bind_r; [exact Hfront|].
    eapply In_trace_bind_r; [exact Hpy|]. unfold package.
    eapply In_trace_bind_r; [exact Hjre|].
    eapply In_trace_bind_r; [exact Hdc|].
    now apply In_trace_bind_l.
  - exists CandleExe.
    eapply In_trace_bind_r; [exact Hprep|].
    eapply In_trace_bind_r; [exact Hfront|].
    eapply In_trace_bind_r; [exact Hpy|]. unfold package.
    eapply In_trace_bind_r; [exact Hjre|].
    eapply In_trace_bind_r; [exact Hdc|].
    eapply In_trace_bind_r; [exact Hharvest|].
    apply In_trace_bind_l. now apply compile_completed.
Qed.

Lemma light_runs_after_heat_and_candle_witness :
  (forall h : Harvest,
     exists e' : Event,
       In e' (trace (build_msi build_machine default_params))
       /\ is_heat_run h 0 e' = true)
  /\ exists CandleExe : string,
       In (Native CandleExe (candle_args build_machine default_params)
                  (Some 0%Z))
          (trace (build_msi build_machine default_params)).
Proof.
  apply (light_runs_after_heat_and_candle build_machine default_params
           (Native (Join_Path (WiXDir build_machine) "light.exe")
                   (light_args build_machine default_params) (Some 0%Z))).
  - vm_compute. repeat (first [left; reflexivity | right]).
  - apply bool_decide_eq_true. reflexivity.
Defined.

(** A run that stops shows only the events of a part that [P] holds of,
    when [P] holds of every part before the one that can stop last. *)
Lemma stopped_bind {A B : Type} (P : Event -> Prop) (m : Run A)
      (k : A -> Run B) :
  always P m ->
  (forall a, (exists s, result (k a) = inr s) -> always P (k a)) ->
  (exists s, result (m ≫= k) = inr s) -> always P (m ≫= k).
Proof.
  intros Hm Hk [s Hs]. unfold always. rewrite trace_bind.
  rewrite result_bind in Hs. destruct (result m) as [a|s']; [|exact Hm].
  apply Forall_app. split; [exact Hm|]. apply Hk. eauto.
Qed.

Lemma report_announces (w : World) (p : Params) :
  (result (report w p) = inl tt
   /\ In (Host "  MSI built successfully!") (trace (report w p)))
  \/ ((exists s, result (report w p) = inr s)
      /\ always (fun e => is_success_line e = false) (report w p)).
Proof.
  unfold report. destruct (succeeds w get_item_msi).
  - left. split; [reflexivity|]. do 3 right. left. reflexivity.
  - right. split; [eexists; reflexivity|]. repeat constructor.
Qed.

Lemma before_report_silent (w : World) (p : Params) :
  (exists s, result (build_msi w p) = inr s) ->
  always (fun e => is_success_line e = false) (build_msi w p).
Proof.
  unfold build_msi, package.
  apply stopped_bind; [open_build; repeat always_step; reflexivity|].
  intros [[HeatExe CandleExe] LightExe].
  apply stopped_bind; [open_build; repeat always_step; reflexivity|].
  intros _.
  apply stopped_bind; [open_build; repeat always_step; reflexivity|].
  intros _.
  apply stopped_bind; [open_build; repeat always_step; reflexivity|].
  intros _.
  apply stopped_bind; [open_build; repeat always_step; reflexivity|].
  intros _.
  apply stopped_bind; [open_build; repeat always_step; reflexivity|].
  intros _.
  apply stopped_bind; [open_build; repeat always_step; reflexivity|].
  intros _.
  apply stopped_bind; [open_build; repeat always_step; reflexivity|].
  intros _ [s Hs].
  destruct (report_announces w p) as [[H _]|[_ H]]; [congruence | exact H].
Qed.

(** X27.  The build script prints "MSI built successfully!" exactly in the
    runs that end with exit code 0; every other run ends with exit code 1
    and never prints that line. *)
Theorem success_line_iff_exit_code_0 (w : World) (p : Params) :
  (exit_code (build_msi w p) = 0%Z
   /\ result (build_msi w p) = inl tt
   /\ In (Host "  MSI built successfully!") (trace (build_msi w p)))
  \/ (exit_code (build_msi w p) = 1%Z
      /\ (exists s : Stop, result (build_msi w p) = inr s)
      /\ always (fun e => is_success_line e = false) (build_msi w p)).
Proof.
  destruct (orderly_exit_code _ (build_msi_orderly w p)) as [[Hr He]|[Hr He]].
  - left. repeat split; try assumption.
    pose proof Hr as H. unfold build_msi in H |- *.
    apply bind_completed in H as (exes & Hprep & H & _).
    apply bind_completed in H as (? & Hfront & H & _).
    apply bind_completed in H as (? & Hpy & H & _).
    destruct exes as [[HeatExe CandleExe] LightExe]. unfold package in H.
    apply bind_completed in H as (? & Hjre & H & _).
    apply bind_completed in H as (? & Hdc & H & _).
    apply bind_completed in H as (? & Hharvest & H & _).
    apply bind_completed in H as (? & Hcompile & H & _).
    apply bind_completed in H as (? & Hlink & Hreport & _).
    eapply In_trace_bind_r; [exact Hprep|].
    eapply In_trace_bind_r; [exact Hfront|].
    eapply In_trace_bind_r; [exact Hpy|]. unfold package.
    eapply In_trace_bind_r; [exact Hjre|].
    eapply In_trace_bind_r; [exact Hdc|].
    eapply In_trace_bind_r; [exact Hharvest|].
    eapply In_trace_bind_r; [exact Hcompile|].
    eapply In_trace_bind_r; [exact Hlink|].
    destruct (report_announces w p) as [[_ Hin]|[[s Hs] _]];
      [exact Hin | congruence].
  - right. repeat split; try assumption.
    apply before_report_silent. exact Hr.
Qed.

(** X28.  When the three archives are in the cache the build script
    downloads nothing, also without [-SkipDownloads]. *)
Theorem cached_archives_are_not_downloaded (w : World) (p : Params) :
  (forall a : Asset, Test_Path w (cached a) = true) ->
  always (fun e => is_cmdlet "Invoke-WebRequest" e = false) (build_msi w p).
Proof.
  intros H. open_build. rewrite !H.
  repeat always_step; reflexivity.
Qed.

Lemma cached_archives_are_not_downloaded_witness :
  always (fun e => is_cmdlet "Invoke-WebRequest" e = false)
         (build_msi warm_cache default_params).
Proof.
  apply (cached_archives_are_not_downloaded warm_cache default_params).
  intros a. reflexivity.
Defined.

End BuildMsiOrder.

(** ** The id rewriting of the harvested fragments *)
Section HarvestIds.
Import HeatXml.

Lemma GetAttribute_SetAttribute (name value : string)
      (attrs : list (string * string)) :
  GetAttribute name (SetAttribute name value attrs) = value.
Proof.
  induction attrs as [|[k v] attrs IH]; simpl.
  - now rewrite String.eqb_refl.
  - destruct (String.eqb k name) eqn:E; simpl; now rewrite E.
Qed.

Lemma GetAttribute_prefix_id (IdPrefix : string)
      (attrs : list (string * string)) :
  GetAttribute "Id" (prefix_id IdPrefix attrs)
  = prefixed IdPrefix (GetAttribute "Id" attrs).
Proof.
  unfold prefix_id, prefixed.
  destruct (String.eqb_spec (GetAttribute "Id" attrs) "") as [E|E]; simpl.
  - exact E.
  - apply GetAttribute_SetAttribute.
Qed.

(** The id an element has after the rewriting, by its tag. *)
Lemma GetAttribute_rewrite_attrs (IdPrefix tag : string)
      (attrs : list (string * string)) :
  GetAttribute "Id" (rewrite_attrs IdPrefix tag attrs)
  = if String.eqb tag "Component" || String.eqb tag "File"
       || String.eqb tag "ComponentRef"
       || (String.eqb tag "Directory"
           && notin_anchors (GetAttribute "Id" attrs))
    then prefixed IdPrefix (GetAttribute "Id" attrs)
    else GetAttribute "Id" attrs.
Proof.
  unfold rewrite_attrs.
  destruct (String.eqb tag "Component" || String.eqb tag "File"
            || String.eqb tag "ComponentRef"); simpl.
  - apply GetAttribute_prefix_id.
  - destruct (String.eqb tag "Directory"); simpl; [|reflexivity].
    destruct (notin_anchors (GetAttribute "Id" attrs)); [|reflexivity].
    apply GetAttribute_prefix_id.
Qed.

(** The rewriting changes attributes only: the elements stay where they
    are. *)
Lemma elements_rewrite (IdPrefix : string) (n : Node) :
  elements (rewrite IdPrefix n)
  = map (fun e => (fst e, rewrite_attrs IdPrefix (fst e) (snd e)))
        (elements n).
Proof.
  revert n. fix IH 1. intros [tag attrs children]. simpl. f_equal.
  induction children as [|c children IHc]; simpl; [reflexivity|].
  rewrite map_app, IH, IHc. reflexivity.
Qed.

Lemma ids_rewrite (IdPrefix tag : string) (n : Node) :
  ids tag (rewrite IdPrefix n)
  = map (fun e => GetAttribute "Id" (rewrite_attrs IdPrefix tag (snd e)))
        (List.filter (fun e => String.eqb (fst e) tag) (elements n)).
Proof.
  unfold ids. rewrite elements_rewrite.
  induction (elements n) as [|[t a] l IH]; simpl; [reflexivity|].
  destruct (String.eqb_spec t tag) as [->|Hne]; simpl; [|exact IH].
  now rewrite IH.
Qed.

Lemma ids_rewrite_prefixed (IdPrefix tag : string) (n : Node) :
  In tag ["Component"; "File"; "ComponentRef"] ->
  ids tag (rewrite IdPrefix n) = map (prefixed IdPrefix) (ids tag n).
Proof.
  intros Htag. rewrite ids_rewrite. unfold ids. rewrite map_map.
  apply map_ext. intros e. rewrite GetAttribute_rewrite_attrs.
  simpl in Htag. destruct Htag as [<-|[<-|[<-|[]]]]; reflexivity.
Qed.

(** X29.  After the rewriting of a harvested fragment every non-empty id
    of a [Component], [File] or [ComponentRef] element carries the prefix,
    in document order and with nothing added or dropped, so a
    [ComponentRef] that named a [Component] before still names one; the
    ids of [ComponentGroup] elements are unchanged; and a [Directory] keeps
    its id exactly when the id is empty or one of the four anchor
    directories, whatever its case. *)
Theorem rewrite_prefixes_ids (IdPrefix : string) (n : Node) :
  (forall tag : string,
     In tag ["Component"; "File"; "ComponentRef"] ->
     ids tag (rewrite IdPrefix n) = map (prefixed IdPrefix) (ids tag n))
  /\ ((forall r, In r (ids "ComponentRef" n) -> In r (ids "Component" n)) ->
      forall r, In r (ids "ComponentRef" (rewrite IdPrefix n)) ->
                In r (ids "Component" (rewrite IdPrefix n)))
  /\ ids "ComponentGroup" (rewrite IdPrefix n) = ids "ComponentGroup" n
  /\ ids "Directory" (rewrite IdPrefix n)
     = map (fun id => if notin_anchors id then prefixed IdPrefix id else id)
           (ids "Directory" n).
Proof.
  split; [intros tag; apply ids_rewrite_prefixed|]. split; [|split].
  - intros Href r. rewrite !ids_rewrite_prefixed by (simpl; tauto).
    rewrite !in_map_iff. intros (x & Hx & Hin). exists x.
    split; [exact Hx | now apply Href].
  - rewrite ids_rewrite. unfold ids. apply map_ext. intros e.
    now rewrite GetAttribute_rewrite_attrs.
  - rewrite ids_rewrite. unfold ids. rewrite map_map.
    apply map_ext. intros e. now rewrite GetAttribute_rewrite_attrs.
Qed.

Lemma prefixed_clash (h1 h2 : BuildMsi.Harvest) (x y : string) :
  prefixed (BuildMsiEvents.IdPrefix h1) x
  = prefixed (BuildMsiEvents.IdPrefix h2) y ->
  prefixed (BuildMsiEvents.IdPrefix h1) x <> "" ->
  h1 = h2.
Proof.
  unfold prefixed.
  destruct (String.eqb x ""), (String.eqb y ""); try congruence;
    destruct h1, h2; simpl; intros E; try reflexivity;
    try discriminate E; congruence.
Qed.

(** X30.  The three harvests get different prefixes, so after the
    rewriting no non-empty [Component] or [File] id of one fragment occurs
    in another fragment, whatever the directories hold in common. *)
Theorem harvests_share_no_id (h1 h2 : BuildMsi.Harvest) (n1 n2 : Node)
    (tag id : string) :
  h1 <> h2 ->
  In tag ["Component"; "File"; "ComponentRef"] ->
  id <> "" ->
  In id (ids tag (rewrite (BuildMsiEvents.IdPrefix h1) n1)) ->
  ~ In id (ids tag (rewrite (BuildMsiEvents.IdPrefix h2) n2)).
Proof.
  intros Hne Htag Hid H1 H2.
  rewrite ids_rewrite_prefixed in H1, H2 by exact Htag.
  apply in_map_iff in H1 as (x & Hx & _).
  apply in_map_iff in H2 as (y & Hy & _).
  apply Hne, (prefixed_clash h1 h2 x y); congruence.
Qed.

Lemma harvests_share_no_id_witness :
  ~ In "App_vcruntime140.dll"
       (ids "File" (rewrite (BuildMsiEvents.IdPrefix BuildMsi.JREFiles)
                            harvested_fragment)).
Proof.
  apply (harvests_share_no_id BuildMsi.AppFiles BuildMsi.JREFiles
           harvested_fragment harvested_fragment "File"
           "App_vcruntime140.dll").
  - discriminate.
  - simpl. tauto.
  - discriminate.
  - left. reflexivity.
Defined.

End HarvestIds.

(** ** What is attempted again after a failure *)
Section Reattempts.
Import PowerShell Operations.

Lemma started_bind {A B : Type} (sel : Event -> bool) (m : Run A)
      (k : A -> Run B) :
  started sel (m ≫= k)
  = started sel m + match result m with
                    | inl a => started sel (k a)
                    | inr _ => 0
                    end.
Proof.
  unfold started. rewrite trace_bind. destruct (result m).
  - now rewrite List.filter_app, length_app.
  - lia.
Qed.

Lemma at_most_le {A : Type} (sel : Event -> bool) (n k : nat) (r : Run A) :
  at_most sel n r -> n <= k -> at_most sel k r.
Proof. unfold at_most. lia. Qed.

Lemma at_most_bind {A B : Type} (sel : Event -> bool) (n1 n2 : nat)
      (m : Run A) (k : A -> Run B) :
  at_most sel n1 m -> (forall a, at_most sel n2 (k a)) ->
  at_most sel (n1 + n2) (m ≫= k).
Proof.
  unfold at_most. intros Hm Hk. rewrite started_bind.
  destruct (result m) as [a|s]; [specialize (Hk a)|]; lia.
Qed.

Lemma at_most_ret {A : Type} (sel : Event -> bool) (a : A) :
  at_most sel 0 (mret a : Run A).
Proof. apply le_n. Qed.

Lemma at_most_exit (sel : Event -> bool) (n : Z) : at_most sel 0 (exit n).
Proof. apply le_n. Qed.

Lemma at_most_throw (sel : Event -> bool) (what : string) :
  at_most sel 0 (throw what).
Proof. apply le_n. Qed.

Lemma at_most_host (sel : Event -> bool) (msg : string) :
  sel (Host msg) = false -> at_most sel 0 (Write_Host msg).
Proof. intros H. unfold at_most, started. simpl. now rewrite H. Qed.

Lemma at_most_native_other (sel : Event -> bool) exe args outcome :
  sel (Native exe args outcome) = false ->
  at_most sel 0 (native exe args outcome).
Proof.
  intros H. unfold at_most, started. destruct outcome; simpl; now rewrite H.
Qed.

Lemma at_most_native (sel : Event -> bool) exe args outcome :
  at_most sel 1 (native exe args outcome).
Proof.
  unfold at_most, started.
  destruct outcome; simpl; destruct (sel _); simpl; lia.
Qed.

Lemma at_most_cmdlet_other (sel : Event -> bool) name args ok :
  sel (Cmdlet name args ok) = false -> at_most sel 0 (cmdlet name args ok).
Proof. intros H. unfold at_most, started. simpl. now rewrite H. Qed.

Lemma at_most_cmdlet (sel : Event -> bool) name args ok :
  at_most sel 1 (cmdlet name args ok).
Proof. unfold at_most, started. simpl. destruct (sel _); simpl; lia. Qed.

Lemma at_most_cmdlet_quiet_other (sel : Event -> bool) name args ok :
  sel (Cmdlet name args ok) = false ->
  at_most sel 0 (cmdlet_quiet name args ok).
Proof. intros H. unfold at_most, started. simpl. now rewrite H. Qed.

Lemma at_most_when (sel : Event -> bool) (n : nat) (c : bool)
      (body : Run unit) :
  at_most sel n body -> at_most sel n (when c body).
Proof.
  intros H. destruct c; [exact H|]. unfold at_most, started. simpl. lia.
Qed.

Lemma at_most_if {A : Type} (sel : Event -> bool) (n1 n2 : nat) (c : bool)
      (x y : Run A) :
  at_most sel n1 x -> at_most sel n2 y ->
  at_most sel (Nat.max n1 n2) (if c then x else y).
Proof. unfold at_most. intros Hx Hy. destruct c; lia. Qed.

Lemma at_most_option {A B : Type} (sel : Event -> bool) (n1 n2 : nat)
      (x : option B) (f : B -> Run A) (g : Run A) :
  (forall b, at_most sel n1 (f b)) -> at_most sel n2 g ->
  at_most sel (Nat.max n1 n2) (match x with Some b => f b | None => g end).
Proof.
  unfold at_most. intros Hf Hg. destruct x as [b|]; [specialize (Hf b)|]; lia.
Qed.

Lemma at_most_try_catch (sel : Event -> bool) (n1 n2 : nat)
      (body handler : Run unit) :
  at_most sel n1 body -> at_most sel n2 handler ->
  at_most sel (n1 + n2) (try_catch body handler).
Proof.
  unfold at_most, started, try_catch. intros Hb Hh.
  destruct (result body) as [u|[code|src]]; try lia.
  simpl. rewrite List.filter_app, length_app. lia.
Qed.

Ltac bound_step :=
  lazymatch goal with
  | |- at_most _ _ (_ ≫= _) => eapply at_most_bind; [|intros ?]
  | |- at_most _ _ (mret _) => apply at_most_ret
  | |- at_most _ _ (when _ _) => apply at_most_when
  | |- at_most _ _ (Write_Host _) => apply at_most_host; reflexivity
  | |- at_most _ _ (exit _) => apply at_most_exit
  | |- at_most _ _ (throw _) => apply at_most_throw
  | |- at_most _ _ (native _ _ _) =>
      first [apply at_most_native_other; reflexivity | apply at_most_native]
  | |- at_most _ _ (cmdlet _ _ _) =>
      first [apply at_most_cmdlet_other; reflexivity | apply at_most_cmdlet]
  | |- at_most _ _ (cmdlet_quiet _ _ _) =>
      apply at_most_cmdlet_quiet_other; reflexivity
  | |- at_most _ _ (try_catch _ _) => eapply at_most_try_catch
  | |- at_most _ _ (if _ then _ else _) => eapply at_most_if
  | |- at_most _ _ (match _ with Some _ => _ | None => _ end) =>
      eapply at_most_option; [intros ?|]
  | |- at_most _ _ _ =>
      match goal with x : (_ * _)%type |- _ => destruct x end
  end.

(** Every operation of the setup script within its bound. *)
Lemma setup_operations_bounded (m : SetupScript.Machine) (op : SetupOp) :
  started (setup_runs op) (SetupScript.setup m) <= setup_bound op.
Proof.
  change (at_most (setup_runs op) (setup_bound op) (SetupScript.setup m)).
  unfold SetupScript.setup, SetupScript.provision, SetupScript.banner,
    SetupScript.step1, SetupScript.Ensure_Package, SetupScript.step2,
    SetupScript.step3, SetupWindows.step4, SetupWindows.create_venv,
    SetupWindows.upgrade_pip, SetupWindows.install_packages,
    SetupWindows.step5, SetupScript.step6, SetupScript.step7,
    SetupScript.checks, SetupWindows.install_args,
    SetupWindows.install_only_binary_args,
    SetupWindows.Write_Step, SetupWindows.Write_OK, SetupWindows.Write_Info,
    SetupWindows.Write_Err.
  cbn [foreach].
  destruct op as [[| |]| | | | | |];
    (eapply at_most_le; [repeat bound_step | vm_compute; lia]).
Qed.

(** Every download and external command of the build script at most once. *)
Lemma build_operations_once (w : BuildMsi.World) (p : BuildMsi.Params)
      (op : BuildOp) :
  started (build_runs op) (BuildMsi.build_msi w p) <= 1.
Proof.
  change (at_most (build_runs op) 1 (BuildMsi.build_msi w p)).
  unfold BuildMsi.build_msi, BuildMsi.prepare, BuildMsi.package,
    BuildMsi.locate_wix, BuildMsi.check_tools, BuildMsi.build_venv,
    BuildMsi.frontend_build, BuildMsi.pyinstaller, BuildMsi.stage_jre,
    BuildMsi.stage_owaspdc, BuildMsi.harvest, BuildMsi.Heat,
    BuildMsi.compile, BuildMsi.link, BuildMsi.report, BuildMsi.Download,
    BuildMsi.Remove_Item, BuildMsi.Expand_Archive, BuildMsi.light_args,
    BuildMsi.Step, BuildMsi.OK, BuildMsi.Warn, BuildMsi.Fail.
  cbn [foreach].
  destruct op as [[| |]| | | | | | | |[| |]| |];
    (eapply at_most_le; [repeat bound_step | vm_compute; lia]).
Qed.

Lemma at_most_self {A : Type} (sel : Event -> bool) (r : Run A) :
  at_most sel (started sel r) r.
Proof. apply le_n. Qed.

(** The package installation is the only place of the setup script that
    runs [pip install -r]. *)
Lemma pip_runs_in_install_packages (m : SetupScript.Machine) :
  started (setup_runs op_pip_install) (SetupScript.setup m)
  <= started (setup_runs op_pip_install)
             (SetupWindows.install_packages (SetupScript.install m)).
Proof.
  change (at_most (setup_runs op_pip_install)
            (started (setup_runs op_pip_install)
               (SetupWindows.install_packages (SetupScript.install m)))
            (SetupScript.setup m)).
  unfold SetupScript.setup, SetupScript.provision, SetupScript.banner,
    SetupScript.step1, SetupScript.Ensure_Package, SetupScript.step2,
    SetupScript.step3, SetupWindows.step4, SetupWindows.create_venv,
    SetupWindows.upgrade_pip, SetupWindows.step5, SetupScript.step6,
    SetupScript.step7, SetupScript.checks,
    SetupWindows.Write_Step, SetupWindows.Write_OK, SetupWindows.Write_Info,
    SetupWindows.Write_Err.
  cbn [foreach].
  eapply at_most_le;
    [repeat first [bound_step | apply at_most_self] | cbn; lia].
Qed.

(** How the package installation ends, by what the two runs of pip
    answered. *)
Lemma install_packages_result (w : SetupWindows.World) :
  (result (SetupWindows.install_packages w) = inl tt
   <-> SetupWindows.pip_install w = Some 0%Z
       \/ exists c, SetupWindows.pip_install w = Some c /\ c <> 0%Z
                    /\ SetupWindows.pip_install_only_binary w = Some 0%Z)
  /\ (result (SetupWindows.install_packages w) = inr (Exit 1)
      <-> exists c c2, SetupWindows.pip_install w = Some c /\ c <> 0%Z
                       /\ SetupWindows.pip_install_only_binary w = Some c2
                       /\ c2 <> 0%Z)
  /\ ((exists src, result (SetupWindows.install_packages w)
                   = inr (TerminatingError src))
      <-> SetupWindows.pip_install w = None
          \/ exists c, SetupWindows.pip_install w = Some c /\ c <> 0%Z
                       /\ SetupWindows.pip_install_only_binary w = None).
Proof.
  unfold SetupWindows.install_packages.
  destruct (SetupWindows.pip_install w) as [[|c|c]|];
    destruct (SetupWindows.pip_install_only_binary w) as [[|c2|c2]|];
    cbn; repeat split;
    try (intros H; discriminate H);
    try (intros [src H]; discriminate H);
    try (intros [H|(x & H & Hne & H2)]; congruence);
    try (intros (x & y & H & Hne & H2 & Hne2); congruence);
    try (intros _; left; reflexivity);
    try (intros _; right; eexists; repeat split; discriminate);
    try (intros _; do 2 eexists; repeat split; discriminate);
    try (intros _; eexists; reflexivity);
    try reflexivity.
Qed.

Lemma second_pip_run (w : SetupWindows.World) :
  (started (setup_runs op_pip_install) (SetupWindows.install_packages w) = 2
   <-> exists c, SetupWindows.pip_install w = Some c /\ c <> 0%Z)
  /\ (In SetupWindows.retry_notice
         (trace (SetupWindows.install_packages w))
      <-> exists c, SetupWindows.pip_install w = Some c /\ c <> 0%Z)
  /\ (forall c, SetupWindows.pip_install w = Some c -> c <> 0%Z ->
        In (Native (SetupWindows.venvPip w)
                   (SetupWindows.install_only_binary_args w)
                   (SetupWindows.pip_install_only_binary w))
           (trace (SetupWindows.install_packages w))).
Proof.
  unfold SetupWindows.install_packages.
  destruct (SetupWindows.pip_install w) as [[|c|c]|];
    destruct (SetupWindows.pip_install_only_binary w) as [[|c2|c2]|];
    cbn; repeat split;
    try (intros H; discriminate H);
    try (intros (x & H & Hne); congruence);
    try (intros _; eexists; split; [reflexivity | discriminate]);
    try (intros H; repeat (destruct H as [H|H]; [discriminate H|]);
         destruct H);
    try (intros x H Hne; congruence);
    try (intros x H Hne; repeat (first [left; reflexivity | right]));
    try (repeat (first [left; reflexivity | right]));
    try congruence.
Qed.

(** C2 (amended).  A failed operation is re-attempted automatically in the
    dependency-installation step of the setup script: a
    [pip install -r requirements.txt] that exits with a non-zero code is run
    once more, restricted to prebuilt wheels and announced by "Retrying with
    prebuilt wheels only..."; there is never a third run; the step ends with
    [exit 1] exactly when the second run exits with a non-zero code too, and
    a pip that cannot be started raises a terminating error without another
    run.  The other operations are not re-attempted: in a run of the setup
    script each
    winget installation, the download, the extraction, the creation of the
    virtual environment, the pip upgrade and [npm install] are started at
    most once; in a run of the build script each download and each pip, npm,
    PyInstaller, heat, candle and light command is started at most once; one
    click sends one upload, analysis or suppress request, whatever the
    answer; and a fetch that fails leaves the timers of the three pollers
    as they are, without a fetch of its own. *)
Theorem only_pip_install_is_retried :
  (forall (m : SetupScript.Machine) (op : SetupOp),
     started (setup_runs op) (SetupScript.setup m) <= setup_bound op)
  /\ (forall m : SetupScript.Machine,
        started (setup_runs op_pip_install) (SetupScript.setup m) = 2 ->
        exists c, SetupWindows.pip_install (SetupScript.install m) = Some c
                  /\ c <> 0%Z)
  /\ (forall w : SetupWindows.World,
        (started (setup_runs op_pip_install)
                 (SetupWindows.install_packages w) = 2
         <-> exists c, SetupWindows.pip_install w = Some c /\ c <> 0%Z)
        /\ (In SetupWindows.retry_notice
               (trace (SetupWindows.install_packages w))
            <-> exists c, SetupWindows.pip_install w = Some c /\ c <> 0%Z)
        /\ (forall c, SetupWindows.pip_install w = Some c -> c <> 0%Z ->
              In (Native (SetupWindows.venvPip w)
                         (SetupWindows.install_only_binary_args w)
                         (SetupWindows.pip_install_only_binary w))
                 (trace (SetupWindows.install_packages w)))
        /\ (result (SetupWindows.install_packages w) = inr (Exit 1)
            <-> exists c c2,
                  SetupWindows.pip_install w = Some c /\ c <> 0%Z
                  /\ SetupWindows.pip_install_only_binary w = Some c2
                  /\ c2 <> 0%Z)
        /\ ((exists src, result (SetupWindows.install_packages w)
                         = inr (TerminatingError src))
            <-> SetupWindows.pip_install w = None
                \/ exists c, SetupWindows.pip_install w = Some c
                             /\ c <> 0%Z
                             /\ SetupWindows.pip_install_only_binary w
                                = None))
  /\ (forall (w : BuildMsi.World) (p : BuildMsi.Params) (op : BuildOp),
        started (build_runs op) (BuildMsi.build_msi w p) <= 1)
  /\ (forall (reply : FileUpload.UploadReply) (st : FileUpload.State),
        length (uploads (snd (FileUpload.handleUpload reply st))) <= 1)
  /\ (forall (reply : ScanResultsUI.AnalyzeReply) (st : ScanResults.State)
             (scan : Rows.Scan),
        length (requests
                  (snd (ScanResultsUI.handleAnalyze reply st scan))) <= 1)
  /\ (forall (reply : Api.Reply) (scan : Rows.Scan) (vulnId : Z)
             (b : Api.Browser),
        requests (snd (ScanResults.handleSuppress reply scan vulnId b))
        = [Api.scans_suppress (Rows.scan_id scan) vulnId])
  /\ (forall st : ResultsPage.State,
        ResultsPage.poll_interval (ResultsPage.fetchScan None st)
        = ResultsPage.poll_interval st)
  /\ (forall log : string, ScanLogView.fetchLog None log = log)
  /\ (forall st : DashboardPage.State,
        snd (DashboardPage.step DashboardPage.FetchFailed st) = []
        /\ DashboardPage.on_tick
             (fst (DashboardPage.step DashboardPage.FetchFailed st))
           = DashboardPage.on_tick st).
Proof.
  split; [exact setup_operations_bounded|].
  split.
  { intros m H. pose proof (pip_runs_in_install_packages m) as Hle.
    destruct (second_pip_run (SetupScript.install m)) as [[Hsecond _] _].
    apply Hsecond.
    assert (Hb : started (setup_runs op_pip_install)
                   (SetupWindows.install_packages (SetupScript.install m))
                 <= 2).
    { unfold SetupWindows.install_packages.
      destruct (SetupWindows.pip_install (SetupScript.install m))
        as [[|?|?]|];
        destruct (SetupWindows.pip_install_only_binary
                    (SetupScript.install m)) as [[|?|?]|];
        vm_compute; lia. }
    lia. }
  split.
  { intros w. destruct (second_pip_run w) as (H1 & H2 & H3).
    destruct (install_packages_result w) as (_ & H4 & H5).
    split; [exact H1|]. split; [exact H2|]. split; [exact H3|].
    split; [exact H4 | exact H5]. }
  split; [exact build_operations_once|].
  split.
  { intros reply st. unfold FileUpload.handleUpload.
    destruct (FileUpload.file st); [destruct reply|]; simpl; lia. }
  split.
  { intros reply st scan. unfold ScanResultsUI.handleAnalyze. cbv zeta.
    destruct (Nat.eqb _ 0); [simpl; lia|].
    destruct reply; simpl; lia. }
  split.
  { intros reply scan vulnId b. unfold ScanResults.handleSuppress.
    cbv zeta. destruct (Api.request _ reply b) as [b1 [res|err]];
      reflexivity. }
  split; [reflexivity|]. split; [reflexivity|].
  intros st. split; reflexivity.
Qed.

(** On a machine with nothing installed the setup script starts each of
    its operations once and the package installation twice; on the build
    machine the build script starts each of its operations once. *)
Example every_operation_is_started :
  (forall op : SetupOp,
     started (setup_runs op) (SetupScript.setup fresh_machine)
     = setup_bound op)
  /\ (forall op : BuildOp,
        started (build_runs op)
                (BuildMsi.build_msi build_machine BuildMsi.default_params)
        = 1).
Proof.
  split.
  - intros [[| |]| | | | | |]; vm_compute; reflexivity.
  - intros [[| |]| | | | | | | |[| |]| |]; vm_compute; reflexivity.
Qed.

End Reattempts.
